(** * Structural analysis of spreadsheets: the analyzer of
    [src/spreadsheet/analyzer.py], embedded and verified.

    The development follows the module top-down the way the Python file is
    laid out: a small model of the Python values the analyzer observes, the
    part of the openpyxl object model it reads, the dataclasses of the
    analyzer, and then each method of [SpreadsheetAnalyzer]. *)

From Stdlib Require Import ZArith Lia List Ascii String DecimalString.
From Stdlib Require PrimFloat FloatOps SpecFloat Uint63.
From Stdlib Require DecimalZ DecimalPos.
From stdpp Require Import base option list gmap strings fin_maps.

Local Open Scope string_scope.
Local Open Scope Z_scope.

(** ** Python: values, strings, exceptions *)

Module Py.

(** A Python [str] is modelled as the sequence of its code points, each
    below 256 (one [ascii] per code point). *)

Definition chr (n : nat) : ascii := ascii_of_nat n.

Definition ord (c : ascii) : nat := nat_of_ascii c.

(** [c.isdigit()] for a code point below 256: the ASCII digits and the
    superscript digits U+00B2, U+00B3 and U+00B9. *)
Definition char_isdigit (c : ascii) : bool :=
  let n := ord c in
  ((48 <=? n)%nat && (n <=? 57)%nat) || (n =? 178)%nat || (n =? 179)%nat || (n =? 185)%nat.

(** [c.isspace()] for a code point below 256. *)
Definition char_isspace (c : ascii) : bool :=
  let n := ord c in
  ((9 <=? n)%nat && (n <=? 13)%nat) || ((28 <=? n)%nat && (n <=? 32)%nat)
  || (n =? 133)%nat || (n =? 160)%nat.

Fixpoint chars (s : string) : list ascii :=
  match s with
  | EmptyString => []
  | String c s' => c :: chars s'
  end.

Fixpoint of_chars (l : list ascii) : string :=
  match l with
  | [] => EmptyString
  | c :: l' => String c (of_chars l')
  end.

(** [bool(s)]: a string is truthy when it is not empty. *)
Definition str_truthy (s : string) : bool :=
  match s with
  | EmptyString => false
  | String _ _ => true
  end.

Fixpoint lstrip (s : string) : string :=
  match s with
  | EmptyString => EmptyString
  | String c s' => if char_isspace c then lstrip s' else s
  end.

(** [rstrip] keeps a character when it is not a space or when something
    non-blank follows it. *)
Fixpoint rstrip (s : string) : string :=
  match s with
  | EmptyString => EmptyString
  | String c s' =>
      match rstrip s' with
      | EmptyString => if char_isspace c then EmptyString else String c EmptyString
      | r => String c r
      end
  end.

(** [s.strip()] *)
Definition strip (s : string) : string := rstrip (lstrip s).

(** [s.replace(c, '')] for a one-character pattern [c]. *)
Fixpoint remove_char (c : ascii) (s : string) : string :=
  match s with
  | EmptyString => EmptyString
  | String d s' => if Ascii.eqb d c then remove_char c s' else String d (remove_char c s')
  end.

(** [s.isdigit()]: every character is a digit and there is at least one. *)
Definition isdigit (s : string) : bool :=
  str_truthy s && forallb char_isdigit (chars s).

(** [s.count(c)] for a one-character pattern [c]. *)
Fixpoint count_char (c : ascii) (s : string) : Z :=
  match s with
  | EmptyString => 0
  | String d s' => (if Ascii.eqb d c then 1 else 0) + count_char c s'
  end.

(** [str(n)] for an [int]. *)
Definition str_of_int (n : Z) : string := NilZero.string_of_int (Z.to_int n).

(** [len(l)] *)
Definition len {A : Type} (l : list A) : Z := Z.of_nat (length l).

(** [sum(l)] over integers. *)
Definition sum (l : list Z) : Z := fold_left Z.add l 0.

(** [range(a, b)] *)
Definition range (a b : Z) : list Z :=
  map (fun i : nat => a + Z.of_nat i) (seq 0 (Z.to_nat (b - a))).

(** Exceptions: the class name, the message ([str(e)]) and the exception
    that was being handled when this one was raised ([__context__]). *)
Inductive Exn : Type :=
| Exc (cls : string) (msg : string)
| ExcDuring (cls : string) (msg : string) (context : Exn).

Definition exn_cls (e : Exn) : string :=
  match e with Exc c _ | ExcDuring c _ _ => c end.

Definition exn_str (e : Exn) : string :=
  match e with Exc _ m | ExcDuring _ m _ => m end.

Definition exn_context (e : Exn) : option Exn :=
  match e with Exc _ _ => None | ExcDuring _ _ x => Some x end.

(** The outcome of evaluating an expression: a value, or a raised
    exception that unwinds to the nearest handler. *)
Inductive Result (A : Type) : Type :=
| Ok (a : A)
| Raise (e : Exn).

Arguments Ok {A} a.
Arguments Raise {A} e.

Definition bind {A B : Type} (r : Result A) (k : A -> Result B) : Result B :=
  match r with
  | Ok a => k a
  | Raise e => Raise e
  end.

(** A [for] loop whose body may raise and that threads an accumulator. *)
Fixpoint for_each {A S : Type} (body : S -> A -> Result S) (l : list A) (s : S) : Result S :=
  match l with
  | [] => Ok s
  | x :: l' => bind (body s x) (for_each body l')
  end.

(** Date and time of day, as [datetime.datetime] and [datetime.time] print
    them (no microseconds, no time zone). *)
Record DateTime : Type := MkDateTime
  { dt_year : Z; dt_month : Z; dt_day : Z; dt_hour : Z; dt_minute : Z; dt_second : Z }.

Record TimeOfDay : Type := MkTimeOfDay
  { tod_hour : Z; tod_minute : Z; tod_second : Z }.

(** The values a cell can hold. A [float] is carried by its [repr], which
    determines it; [VTimestamp] is a [pandas.Timestamp]. *)
Inductive Value : Type :=
| VNone
| VBool (b : bool)
| VInt (n : Z)
| VFloat (repr : string)
| VStr (s : string)
| VDatetime (d : DateTime)
| VTime (t : TimeOfDay)
| VTimestamp (d : DateTime).

Definition is_none (v : Value) : bool :=
  match v with VNone => true | _ => false end.

(** [isinstance(v, str)] *)
Definition isinstance_str (v : Value) : bool :=
  match v with VStr _ => true | _ => false end.

(** [isinstance(v, (int, float))]: [bool] is a subclass of [int]. *)
Definition isinstance_int_float (v : Value) : bool :=
  match v with VBool _ | VInt _ | VFloat _ => true | _ => false end.

(** [isinstance(v, bool)] *)
Definition isinstance_bool (v : Value) : bool :=
  match v with VBool _ => true | _ => false end.

(** [isinstance(v, pd.Timestamp)] *)
Definition isinstance_Timestamp (v : Value) : bool :=
  match v with VTimestamp _ => true | _ => false end.

(** A non-negative number printed on at least [w] digits. *)
Definition pad (w : nat) (n : Z) : string :=
  let s := str_of_int n in
  of_chars (repeat "0"%char (w - String.length s)) +:+ s.

Definition str_of_date (d : DateTime) : string :=
  pad 4 (dt_year d) +:+ "-" +:+ pad 2 (dt_month d) +:+ "-" +:+ pad 2 (dt_day d).

Definition str_of_clock (h m s : Z) : string :=
  pad 2 h +:+ ":" +:+ pad 2 m +:+ ":" +:+ pad 2 s.

(** [str(v)] *)
Definition str (v : Value) : string :=
  match v with
  | VNone => "None"
  | VBool true => "True"
  | VBool false => "False"
  | VInt n => str_of_int n
  | VFloat r => r
  | VStr s => s
  | VDatetime d | VTimestamp d =>
      str_of_date d +:+ " " +:+ str_of_clock (dt_hour d) (dt_minute d) (dt_second d)
  | VTime t => str_of_clock (tod_hour t) (tod_minute t) (tod_second t)
  end.

(** A [dict] whose iteration order is observed: the keys in insertion
    order, each with its value. *)
Definition Dict (V : Type) : Type := list (string * V).

Definition dict_values {V : Type} (d : Dict V) : list V := map snd d.

Definition dict_keys {V : Type} (d : Dict V) : list string := map fst d.

Fixpoint dict_get {V : Type} (d : Dict V) (k : string) : option V :=
  match d with
  | [] => None
  | (k', v) :: d' => if String.eqb k' k then Some v else dict_get d' k
  end.

(** [d[k] = f(d[k])] for a key that is present. *)
Fixpoint dict_update {V : Type} (f : V -> V) (k : string) (d : Dict V) : Dict V :=
  match d with
  | [] => []
  | (k', v) :: d' =>
      if String.eqb k' k then (k', f v) :: d' else (k', v) :: dict_update f k d'
  end.

(** [max(items, key=key)] on a non-empty sequence: the first item whose key
    is maximal (a later item replaces the candidate only when its key is
    strictly greater). *)
Fixpoint max_from {A : Type} (key : A -> Z) (best : A) (l : list A) : A :=
  match l with
  | [] => best
  | x :: l' => if key best <? key x then max_from key x l' else max_from key best l'
  end.

Definition max_by {A : Type} (key : A -> Z) (l : list A) : option A :=
  match l with
  | [] => None
  | x :: l' => Some (max_from key x l')
  end.

End Py.

Notation "x <- r ;; k" := (Py.bind r (fun x => k))
  (at level 100, r at next level, right associativity).

(** ** Binary64 arithmetic, as far as the header threshold needs it *)

Module Float64.

(** A finite, non-negative [float]: the number [mant * 2^expo]. The
    values built below keep [mant] on at most 53 bits, as IEEE-754 binary64
    does; exponents stay far from the subnormal and overflow ranges. *)
Record t : Type := Mk { mant : Z; expo : Z }.

Definition prec : Z := 53.

(** Rounding of [m * 2^e] to [prec] significant bits, to nearest, ties to
    the even mantissa. *)
Definition round (m e : Z) : t :=
  let s := Z.log2 m + 1 - prec in
  if s <=? 0 then Mk m e
  else
    let q := m / 2 ^ s in
    let r := m mod 2 ^ s in
    let half := 2 ^ (s - 1) in
    if (half <? r) || ((r =? half) && Z.odd q) then Mk (q + 1) (e + s) else Mk q (e + s).

(** [float(n)] for [n >= 0] *)
Definition of_int (n : Z) : t := round n 0.

(** [a * b] *)
Definition mul (a b : t) : t := round (mant a * mant b) (expo a + expo b).

(** The literal [0.7], that is 0x1.6666666666666p-1. *)
Definition lit_0_7 : t := Mk 6305039478318694 (-53).

(** [k >= f] for an [int] [k] and a [float] [f]: Python compares the two
    numbers exactly. *)
Definition int_ge (k : Z) (f : t) : bool :=
  if 0 <=? expo f then mant f * 2 ^ expo f <=? k
  else mant f <=? k * 2 ^ (- expo f).

(** [n * 0.7] for an [int] [n] *)
Definition int_mul_0_7 (n : Z) : t := mul (of_int n) lit_0_7.

End Float64.

(** The same product and comparison on the primitive binary64 numbers of
    the kernel, against which the integer model above is checked. *)
Module Binary64.

(** The literal [0.7]: mantissa 0x16666666666666, exponent -53. *)
Definition lit_0_7 : PrimFloat.float :=
  FloatOps.SF2Prim (SpecFloat.S754_finite false 6305039478318694 (-53)).

Definition of_int (n : Z) : PrimFloat.float := PrimFloat.of_uint63 (Uint63.of_Z n).

(** [n * 0.7] *)
Definition int_mul_0_7 (n : Z) : PrimFloat.float := PrimFloat.mul (of_int n) lit_0_7.

(** The number [mant * 2^expo] as a normalised binary64 value. *)
Definition of_model (f : Float64.t) : SpecFloat.spec_float :=
  let m := Float64.mant f in
  if m =? 0 then SpecFloat.S754_zero false
  else
    let shift := 52 - Z.log2 m in
    SpecFloat.S754_finite false (Z.to_pos (m * 2 ^ shift)) (Float64.expo f - shift).

Definition same (a b : SpecFloat.spec_float) : bool :=
  match a, b with
  | SpecFloat.S754_zero s, SpecFloat.S754_zero s' => Bool.eqb s s'
  | SpecFloat.S754_finite s m e, SpecFloat.S754_finite s' m' e' =>
      Bool.eqb s s' && Pos.eqb m m' && Z.eqb e e'
  | _, _ => false
  end.

(** The model and the kernel agree on the product for [n], and on its
    comparison with the integers [k] and [k + 1]. *)
Definition agree_at (n k : Z) : bool :=
  let modelled := Float64.int_mul_0_7 n in
  let computed := int_mul_0_7 n in
  same (FloatOps.Prim2SF computed) (of_model modelled)
  && Bool.eqb (Float64.int_ge k modelled) (PrimFloat.leb computed (of_int k))
  && Bool.eqb (Float64.int_ge (k + 1) modelled) (PrimFloat.leb computed (of_int (k + 1))).

(** Agreement for [count] consecutive lengths from [n] on, each compared
    on both sides of its own threshold. *)
Fixpoint agree_from (count : nat) (n : Z) : bool :=
  match count with
  | O => true
  | S count' => agree_at n (Z.max 0 ((7 * n - 1) / 10)) && agree_from count' (n + 1)
  end.

End Binary64.

(** ** openpyxl: the part of the object model that the analyzer reads *)

Module Color.
Record t : Type := Mk { rgb : string }.
End Color.

(** [cell.font]: [size] is [None], an [int] or a [float]; [bold] and
    [italic] are [None] or a [bool]. *)
Module Font.
Record t : Type := Mk
  { name : option string;
    size : Py.Value;
    bold : option bool;
    italic : option bool;
    color : option Color.t }.
End Font.

(** [cell.fill]: a pattern fill has a [start_color], a gradient fill has no
    such attribute. *)
Module Fill.
Inductive t : Type :=
| PatternFill (start_color : option Color.t)
| GradientFill.
End Fill.

Module Side.
Record t : Type := Mk { style : option string }.
End Side.

Module Border.
Record t : Type := Mk
  { left : option Side.t; right : option Side.t; top : option Side.t; bottom : option Side.t }.
End Border.

Module Alignment.
Record t : Type := Mk { horizontal : option string; vertical : option string }.
End Alignment.

Module Hyperlink.
Record t : Type := Mk { target : option string }.
End Hyperlink.

(** What a worksheet stores for one position. Reading [value] is the one
    attribute access that is allowed to raise. *)
Module CellData.
Record t : Type := Mk
  { value : Py.Result Py.Value;
    data_type : string;
    font : option Font.t;
    fill : option Fill.t;
    border : option Border.t;
    alignment : option Alignment.t;
    number_format : string;
    hyperlink : option Hyperlink.t }.
End CellData.

(** The column letters of an index, most significant first: the loop of
    openpyxl's [_get_column_letter], which runs at most three times for an
    index up to 18278. *)
Fixpoint column_letters (fuel : nat) (col_idx : Z) (letters : list ascii) : list ascii :=
  match fuel with
  | O => letters
  | S fuel' =>
      if 0 <? col_idx then
        let q := col_idx / 26 in
        let remainder := col_idx mod 26 in
        if remainder =? 0
        then column_letters fuel' (q - 1) (Py.chr (Z.to_nat (26 + 64)) :: letters)
        else column_letters fuel' q (Py.chr (Z.to_nat (remainder + 64)) :: letters)
      else letters
  end.

(** [openpyxl.utils.get_column_letter(idx)] *)
Definition get_column_letter (idx : Z) : Py.Result string :=
  if (1 <=? idx) && (idx <=? 18278)
  then Py.Ok (Py.of_chars (column_letters 3 idx []))
  else Py.Raise (Py.Exc "ValueError" ("Invalid column index " +:+ Py.str_of_int idx)).

(** The inverse reading of a column name, used to show that distinct
    columns have distinct letters. *)
Definition column_index (s : string) : Z :=
  fold_left (fun acc c => acc * 26 + (Z.of_nat (Py.ord c) - 64)) (Py.chars s) 0.

Module Cell.
Record t : Type := Mk { row : Z; column : Z; data : CellData.t }.

Definition value (c : t) : Py.Result Py.Value := CellData.value (data c).
Definition data_type (c : t) : string := CellData.data_type (data c).
Definition font (c : t) : option Font.t := CellData.font (data c).
Definition fill (c : t) : option Fill.t := CellData.fill (data c).
Definition border (c : t) : option Border.t := CellData.border (data c).
Definition alignment (c : t) : option Alignment.t := CellData.alignment (data c).
Definition number_format (c : t) : string := CellData.number_format (data c).
Definition hyperlink (c : t) : option Hyperlink.t := CellData.hyperlink (data c).

(** [cell.coordinate]: the column letters followed by the row number. *)
Definition coordinate (c : t) : Py.Result string :=
  letters <- get_column_letter (column c) ;;
  Py.Ok (letters +:+ Py.str_of_int (row c)).
End Cell.

Module Chart.
Record t : Type := Mk { type_name : string }.
End Chart.

Module Image.
Record t : Type := Mk { anchor : string }.
End Image.

Module ConditionalFormatting.
Record t : Type := Mk { sqref : string; cfRule : list string }.
End ConditionalFormatting.

Module DataValidation.
Record t : Type := Mk { sqref : string; type : option string }.
End DataValidation.

Module Worksheet.
Record t : Type := Mk
  { title : string;
    max_row : Z;
    max_column : Z;
    cells : Z -> Z -> CellData.t;
    merged_ranges : list string;
    _charts : option (list Chart.t);
    _images : option (list Image.t);
    conditional_formatting : list ConditionalFormatting.t;
    data_validations : list DataValidation.t }.

(** [worksheet.cell(row=r, column=c)] *)
Definition cell (ws : t) (r c : Z) : Cell.t := Cell.Mk r c (cells ws r c).

(** [worksheet.iter_rows()]: every row from 1 to [max_row], each over the
    columns from 1 to [max_column]. *)
Definition iter_rows (ws : t) : list (list Cell.t) :=
  map (fun r => map (fun c => cell ws r c) (Py.range 1 (max_column ws + 1)))
      (Py.range 1 (max_row ws + 1)).
End Worksheet.

(** A workbook lists worksheets and chart sheets alike; a chart sheet has a
    title and none of the grid attributes. *)
Module Sheet.
Inductive t : Type :=
| Work (ws : Worksheet.t)
| Chartsheet (title : string).

Definition title (s : t) : string :=
  match s with
  | Work ws => Worksheet.title ws
  | Chartsheet n => n
  end.
End Sheet.

Module Workbook.
Record t : Type := Mk { _sheets : list Sheet.t }.

Definition sheetnames (wb : t) : list string := map Sheet.title (_sheets wb).

(** [workbook[key]]: the first sheet with that title. *)
Definition getitem (wb : t) (key : string) : Py.Result Sheet.t :=
  match find (fun s => String.eqb (Sheet.title s) key) (_sheets wb) with
  | Some s => Py.Ok s
  | None => Py.Raise (Py.Exc "KeyError" ("Worksheet " +:+ key +:+ " does not exist."))
  end.
End Workbook.

(** ** The logger and the effects of the orchestrator *)

Module Logging.

Inductive Level : Type := DEBUG | INFO | WARNING | ERROR.

(** The calls made on the logger, oldest first. *)
Definition Records : Type := list (Level * string).

(** A computation that may log and may raise: it maps the records so far
    to its outcome and the records afterwards. *)
Definition IO (A : Type) : Type := Records -> Py.Result A * Records.

Definition ret {A : Type} (a : A) : IO A := fun log => (Py.Ok a, log).

Definition raise {A : Type} (e : Py.Exn) : IO A := fun log => (Py.Raise e, log).

Definition lift {A : Type} (r : Py.Result A) : IO A := fun log => (r, log).

Definition bind {A B : Type} (m : IO A) (k : A -> IO B) : IO B :=
  fun log =>
    match m log with
    | (Py.Ok a, log') => k a log'
    | (Py.Raise e, log') => (Py.Raise e, log')
    end.

(** [logger.<level>(msg)] *)
Definition emit (lvl : Level) (msg : string) : IO unit :=
  fun log => (Py.Ok tt, (log ++ [(lvl, msg)])%list).

(** [try: body except Exception as e: handler(e)]; every exception of
    the model is an [Exception]. *)
Definition try_except {A : Type} (body : IO A) (handler : Py.Exn -> IO A) : IO A :=
  fun log =>
    match body log with
    | (Py.Ok a, log') => (Py.Ok a, log')
    | (Py.Raise e, log') => handler e log'
    end.

Fixpoint for_each {A S : Type} (body : S -> A -> IO S) (l : list A) (s : S) : IO S :=
  match l with
  | [] => ret s
  | x :: l' => bind (body s x) (for_each body l')
  end.

End Logging.

Notation "x <~ m ;; k" := (Logging.bind m (fun x => k))
  (at level 100, m at next level, right associativity).

(** ** The dataclasses of the analyzer *)

Module CellType.
Inductive t : Type := HEADER | DATA | FORMULA | EMPTY | MERGED.
End CellType.

Module CellStyle.
Record t : Type := Mk
  { font_name : option string;
    font_size : Py.Value;
    font_bold : bool;
    font_italic : bool;
    font_color : option string;
    fill_color : option string;
    border_style : option string;
    alignment_horizontal : option string;
    alignment_vertical : option string;
    number_format : option string }.

(** [CellStyle()] *)
Definition default : t :=
  Mk None Py.VNone false false None None None None None None.
End CellStyle.

Module CellInfo.
Record t : Type := Mk
  { row : Z;
    column : Z;
    address : string;
    value : Py.Value;
    cell_type : CellType.t;
    style : CellStyle.t;
    formula : option Py.Value;
    is_merged : bool;
    merge_range : option string }.
End CellInfo.

(** The small records of the visual catalog. *)
Inductive VisualElement : Type :=
| ChartEntry (type : string)
| ImageEntry (anchor : string)
| ConditionalFormattingEntry (range : string) (rules_count : Z)
| DataValidationEntry (range : string) (type : option string)
| HyperlinkEntry (cell : string) (target : option string).

Module SheetAnalysis.
Record t : Type := Mk
  { name : string;
    row_count : Z;
    column_count : Z;
    headers : list string;
    header_row : option Z;
    data_range : option string;
    formulas : list CellInfo.t;
    merged_cells : list string;
    styles_map : gmap string CellStyle.t;
    visual_elements : Py.Dict (list VisualElement);
    data_types : gmap string string }.
End SheetAnalysis.

Module SpreadsheetInfo.
Record t : Type := Mk
  { name : string;
    path : string;
    size : Z;
    modified_date : string;
    extension : string;
    is_valid : bool;
    error_message : option string }.
End SpreadsheetInfo.

Module SpreadsheetAnalysis.
Record t : Type := Mk
  { spreadsheet_info : SpreadsheetInfo.t;
    sheets : list SheetAnalysis.t;
    global_styles : gmap string CellStyle.t;
    has_formulas : bool;
    has_merged_cells : bool;
    complexity_score : Z;
    analysis_timestamp : option string }.

Definition with_sheets (a : t) (x : list SheetAnalysis.t) : t :=
  Mk (spreadsheet_info a) x (global_styles a) (has_formulas a) (has_merged_cells a)
     (complexity_score a) (analysis_timestamp a).

Definition with_global_styles (a : t) (x : gmap string CellStyle.t) : t :=
  Mk (spreadsheet_info a) (sheets a) x (has_formulas a) (has_merged_cells a)
     (complexity_score a) (analysis_timestamp a).

Definition with_has_formulas (a : t) (x : bool) : t :=
  Mk (spreadsheet_info a) (sheets a) (global_styles a) x (has_merged_cells a)
     (complexity_score a) (analysis_timestamp a).

Definition with_has_merged_cells (a : t) (x : bool) : t :=
  Mk (spreadsheet_info a) (sheets a) (global_styles a) (has_formulas a) x
     (complexity_score a) (analysis_timestamp a).

Definition with_complexity_score (a : t) (x : Z) : t :=
  Mk (spreadsheet_info a) (sheets a) (global_styles a) (has_formulas a) (has_merged_cells a)
     x (analysis_timestamp a).
End SpreadsheetAnalysis.

(** What the analyzer obtains from outside: the outcome of
    [openpyxl.load_workbook(path, data_only=False)] for each path, and the
    text of [pd.Timestamp.now().isoformat()]. *)
Module Env.
Record t : Type := Mk
  { load_workbook : string -> Py.Result Workbook.t;
    timestamp_now : string }.
End Env.

(** ** [SpreadsheetAnalyzer] *)

Module SpreadsheetAnalyzer.

(** Truthiness of an optional flag ([None], [False] or [True]), of an
    optional string and of an optional object. *)
Definition flag_truthy (o : option bool) : bool :=
  match o with Some true => true | _ => false end.

Definition opt_str_truthy (o : option string) : bool :=
  match o with Some s => Py.str_truthy s | None => false end.

Definition obj_truthy {A : Type} (o : option A) : bool :=
  match o with Some _ => true | None => false end.

(** [v != k] for an integer literal [k]: a float equals it only when it
    prints as that integer followed by [.0]. *)
Definition ne_int (v : Py.Value) (k : Z) : bool :=
  match v with
  | Py.VInt n => negb (n =? k)
  | Py.VBool b => negb ((if b then 1 else 0) =? k)
  | Py.VFloat r => negb (String.eqb r (Py.str_of_int k +:+ ".0"))
  | _ => true
  end.

(** [any([border.left, border.right, border.top, border.bottom])] *)
Definition any_side (b : Border.t) : bool :=
  obj_truthy (Border.left b) || obj_truthy (Border.right b)
  || obj_truthy (Border.top b) || obj_truthy (Border.bottom b).

Definition _extract_cell_style (cell : Cell.t) : CellStyle.t :=
  let style := CellStyle.default in
  (* Font *)
  let style :=
    match Cell.font cell with
    | Some font =>
        CellStyle.Mk (Font.name font) (Font.size font)
          (flag_truthy (Font.bold font)) (flag_truthy (Font.italic font))
          (match Font.color font with
           | Some color => Some (Color.rgb color)
           | None => CellStyle.font_color style
           end)
          (CellStyle.fill_color style) (CellStyle.border_style style)
          (CellStyle.alignment_horizontal style) (CellStyle.alignment_vertical style)
          (CellStyle.number_format style)
    | None => style
    end in
  (* Fill *)
  let style :=
    match Cell.fill cell with
    | Some (Fill.PatternFill (Some start_color)) =>
        CellStyle.Mk (CellStyle.font_name style) (CellStyle.font_size style)
          (CellStyle.font_bold style) (CellStyle.font_italic style)
          (CellStyle.font_color style)
          (Some (Color.rgb start_color)) (CellStyle.border_style style)
          (CellStyle.alignment_horizontal style) (CellStyle.alignment_vertical style)
          (CellStyle.number_format style)
    | _ => style
    end in
  (* Border *)
  let style :=
    match Cell.border cell with
    | Some border =>
        if any_side border then
          CellStyle.Mk (CellStyle.font_name style) (CellStyle.font_size style)
            (CellStyle.font_bold style) (CellStyle.font_italic style)
            (CellStyle.font_color style)
            (CellStyle.fill_color style) (Some "custom")
            (CellStyle.alignment_horizontal style) (CellStyle.alignment_vertical style)
            (CellStyle.number_format style)
        else style
    | None => style
    end in
  (* Alignment *)
  let style :=
    match Cell.alignment cell with
    | Some alignment =>
        CellStyle.Mk (CellStyle.font_name style) (CellStyle.font_size style)
          (CellStyle.font_bold style) (CellStyle.font_italic style)
          (CellStyle.font_color style)
          (CellStyle.fill_color style) (CellStyle.border_style style)
          (Alignment.horizontal alignment) (Alignment.vertical alignment)
          (CellStyle.number_format style)
    | None => style
    end in
  (* Number format *)
  CellStyle.Mk (CellStyle.font_name style) (CellStyle.font_size style)
    (CellStyle.font_bold style) (CellStyle.font_italic style)
    (CellStyle.font_color style)
    (CellStyle.fill_color style) (CellStyle.border_style style)
    (CellStyle.alignment_horizontal style) (CellStyle.alignment_vertical style)
    (Some (Cell.number_format cell)).

(** The four tests of [_has_custom_style], in order. Reading
    [cell.fill.start_color] on a gradient fill raises [AttributeError]. *)
Definition font_is_custom (cell : Cell.t) : bool :=
  match Cell.font cell with
  | Some font =>
      flag_truthy (Font.bold font) || flag_truthy (Font.italic font)
      || ne_int (Font.size font) 11
  | None => false
  end.

Definition fill_is_custom (cell : Cell.t) : Py.Result bool :=
  match Cell.fill cell with
  | Some (Fill.PatternFill (Some start_color)) =>
      Py.Ok (negb (String.eqb (Color.rgb start_color) "00000000"))
  | Some (Fill.PatternFill None) => Py.Ok false
  | Some Fill.GradientFill =>
      Py.Raise (Py.Exc "AttributeError" "'GradientFill' object has no attribute 'start_color'")
  | None => Py.Ok false
  end.

Definition border_is_custom (cell : Cell.t) : bool :=
  match Cell.border cell with
  | Some border => any_side border
  | None => false
  end.

Definition alignment_is_custom (cell : Cell.t) : bool :=
  match Cell.alignment cell with
  | Some alignment =>
      opt_str_truthy (Alignment.horizontal alignment)
      || opt_str_truthy (Alignment.vertical alignment)
  | None => false
  end.

Definition _has_custom_style (cell : Cell.t) : Py.Result bool :=
  if font_is_custom cell then Py.Ok true
  else
    custom_fill <- fill_is_custom cell ;;
    if custom_fill then Py.Ok true
    else if border_is_custom cell then Py.Ok true
    else if alignment_is_custom cell then Py.Ok true
    else Py.Ok false.

(** *** Header detection *)

(** One step of the inner loop of [_detect_headers]: the cell's entry is
    appended to [row_values] and [has_text] is updated. *)
Definition header_cell (acc : list string * bool) (cell : Cell.t) : Py.Result (list string * bool) :=
  let '(row_values, has_text) := acc in
  value <- Cell.value cell ;;
  if negb (Py.is_none value) then
    if Py.isinstance_str value && Py.str_truthy (Py.strip (Py.str value))
    then Py.Ok ((row_values ++ [Py.strip (Py.str value)])%list, true)
    else Py.Ok ((row_values ++ [if negb (Py.is_none value) then Py.str value else ""])%list, has_text)
  else Py.Ok ((row_values ++ [""])%list, has_text).

Definition header_scan (worksheet : Worksheet.t) (row_num : Z) : Py.Result (list string * bool) :=
  Py.for_each header_cell
    (map (fun col_num => Worksheet.cell worksheet row_num col_num)
         (Py.range 1 (Worksheet.max_column worksheet + 1)))
    ([], false).

(** [not str(val).replace('.', '').replace(',', '').isdigit()] *)
Definition not_pure_number (val : string) : bool :=
  negb (Py.isdigit (Py.remove_char "," (Py.remove_char "." val))).

(** [sum(1 for val in row_values if val and not ...isdigit())] *)
Definition text_count (row_values : list string) : Z :=
  Py.sum (map (fun _ => 1) (List.filter (fun val => Py.str_truthy val && not_pure_number val) row_values)).

(** [[v for v in row_values if v]] *)
Definition non_empty (row_values : list string) : list string :=
  List.filter (fun v => Py.str_truthy v) row_values.

(** The two tests a scanned row passes to become the header row. *)
Definition row_qualifies (row_values : list string) (has_text : bool) : bool :=
  (has_text && existsb Py.str_truthy row_values)
  && Float64.int_ge (text_count row_values) (Float64.int_mul_0_7 (Py.len (non_empty row_values))).

(** The outer loop: the first qualifying row ends it ([break]). *)
Fixpoint detect_from (worksheet : Worksheet.t) (rows : list Z) : Py.Result (list string * option Z) :=
  match rows with
  | [] => Py.Ok ([], None)
  | row_num :: rest =>
      scanned <- header_scan worksheet row_num ;;
      let '(row_values, has_text) := scanned in
      if row_qualifies row_values has_text
      then Py.Ok (non_empty row_values, Some row_num)
      else detect_from worksheet rest
  end.

Definition _detect_headers (worksheet : Worksheet.t) : Py.Result (list string * option Z) :=
  detect_from worksheet (Py.range 1 (Z.min 6 (Worksheet.max_row worksheet + 1))).

(** *** Formulas and styles *)

(** The body of the two nested loops of [_extract_formulas]; the keyword
    arguments of [CellInfo(...)] are evaluated from left to right. *)
Definition formula_cell (formulas : list CellInfo.t) (cell : Cell.t) : Py.Result (list CellInfo.t) :=
  if String.eqb (Cell.data_type cell) "f" then
    address <- Cell.coordinate cell ;;
    value <- Cell.value cell ;;
    let style := _extract_cell_style cell in
    formula <- Cell.value cell ;;
    let cell_info :=
      CellInfo.Mk (Cell.row cell) (Cell.column cell) address value CellType.FORMULA
        style (Some formula) false None in
    Py.Ok (formulas ++ [cell_info])%list
  else Py.Ok formulas.

Definition _extract_formulas (worksheet : Worksheet.t) : Py.Result (list CellInfo.t) :=
  Py.for_each (fun formulas row => Py.for_each formula_cell row formulas)
    (Worksheet.iter_rows worksheet) [].

(** [cell.value is not None or self._has_custom_style(cell)]: the second
    operand is evaluated only when the cell is empty. *)
Definition style_wanted (cell : Cell.t) : Py.Result bool :=
  value <- Cell.value cell ;;
  if negb (Py.is_none value) then Py.Ok true else _has_custom_style cell.

Definition style_cell (styles_map : gmap string CellStyle.t) (cell : Cell.t)
  : Py.Result (gmap string CellStyle.t) :=
  wanted <- style_wanted cell ;;
  if wanted then
    let style := _extract_cell_style cell in
    coordinate <- Cell.coordinate cell ;;
    Py.Ok (<[coordinate := style]> styles_map)
  else Py.Ok styles_map.

Definition _map_cell_styles (worksheet : Worksheet.t) : Py.Result (gmap string CellStyle.t) :=
  Py.for_each (fun styles_map row => Py.for_each style_cell row styles_map)
    (Worksheet.iter_rows worksheet) ∅.

(** *** Visual elements *)

Definition hyperlink_cell (found : list VisualElement) (cell : Cell.t) : Py.Result (list VisualElement) :=
  match Cell.hyperlink cell with
  | Some link =>
      coordinate <- Cell.coordinate cell ;;
      Py.Ok (found ++ [HyperlinkEntry coordinate (Hyperlink.target link)])%list
  | None => Py.Ok found
  end.

Definition _catalog_visual_elements (worksheet : Worksheet.t)
  : Py.Result (Py.Dict (list VisualElement)) :=
  let charts :=
    match Worksheet._charts worksheet with
    | Some l => map (fun chart => ChartEntry (Chart.type_name chart)) l
    | None => []
    end in
  let images :=
    match Worksheet._images worksheet with
    | Some l => map (fun img => ImageEntry (Image.anchor img)) l
    | None => []
    end in
  let conditional_formatting :=
    map (fun cf => ConditionalFormattingEntry (ConditionalFormatting.sqref cf)
                     (Py.len (ConditionalFormatting.cfRule cf)))
        (Worksheet.conditional_formatting worksheet) in
  let data_validation :=
    map (fun dv => DataValidationEntry (DataValidation.sqref dv) (DataValidation.type dv))
        (Worksheet.data_validations worksheet) in
  hyperlinks <-
    Py.for_each (fun found row => Py.for_each hyperlink_cell row found)
      (Worksheet.iter_rows worksheet) [] ;;
  Py.Ok [ ("charts", charts);
          ("images", images);
          ("shapes", []);
          ("conditional_formatting", conditional_formatting);
          ("data_validation", data_validation);
          ("hyperlinks", hyperlinks) ].

(** *** Data types *)

(** The class of one sampled value, by the [if]/[elif] chain of
    [_infer_data_type]: the key of the counter it increments. *)
Definition type_key (value : Py.Value) : string :=
  if Py.isinstance_int_float value then "number"
  else if Py.isinstance_Timestamp value
          || (Py.count_char "/" (Py.str value) =? 2)
          || (Py.count_char "-" (Py.str value) =? 2) then "date"
  else if Py.isinstance_bool value then "boolean"
  else "text".

(** [type_counts[key] += 1] *)
Definition count_value (type_counts : Py.Dict Z) (value : Py.Value) : Py.Dict Z :=
  Py.dict_update (fun n => n + 1) (type_key value) type_counts.

(** [max(type_counts, key=type_counts.get)]: iterating a dict yields its
    keys in insertion order, each compared by its own count. *)
Definition max_key (type_counts : Py.Dict Z) : Py.Result string :=
  match Py.max_by snd type_counts with
  | Some item => Py.Ok (fst item)
  | None => Py.Raise (Py.Exc "ValueError" "max() arg is an empty sequence")
  end.

Definition _infer_data_type (values : list Py.Value) : Py.Result string :=
  match values with
  | [] => Py.Ok "empty"
  | _ =>
      let type_counts := [("number", 0); ("date", 0); ("text", 0); ("boolean", 0)] in
      let type_counts := fold_left count_value values type_counts in
      max_key type_counts
  end.

(** [if not header_row]: [None] and [0] are falsy. *)
Definition header_row_truthy (header_row : option Z) : bool :=
  match header_row with
  | Some r => negb (r =? 0)
  | None => false
  end.

(** The sampled values of one column: the non-null values of the rows
    [rows], top to bottom. *)
Definition sample_cell (worksheet : Worksheet.t) (col_num : Z) (values : list Py.Value) (row_num : Z)
  : Py.Result (list Py.Value) :=
  value <- Cell.value (Worksheet.cell worksheet row_num col_num) ;;
  if negb (Py.is_none value) then Py.Ok (values ++ [value])%list else Py.Ok values.

Definition type_column (worksheet : Worksheet.t) (rows : list Z)
    (data_types : gmap string string) (col_num : Z) : Py.Result (gmap string string) :=
  col_letter <- get_column_letter col_num ;;
  values <- Py.for_each (sample_cell worksheet col_num) rows [] ;;
  match values with
  | [] => Py.Ok data_types
  | _ =>
      data_type <- _infer_data_type values ;;
      Py.Ok (<[col_letter := data_type]> data_types)
  end.

Definition _detect_data_types (worksheet : Worksheet.t) (header_row : option Z)
  : Py.Result (gmap string string) :=
  match header_row with
  | Some h =>
      if header_row_truthy header_row then
        let sample_rows := Z.min 10 (Worksheet.max_row worksheet - h) in
        Py.for_each (type_column worksheet (Py.range (h + 1) (h + sample_rows + 1)))
          (Py.range 1 (Worksheet.max_column worksheet + 1)) ∅
      else Py.Ok ∅
  | None => Py.Ok ∅
  end.

(** *** Complexity score and global styles *)

Definition visual_count (sheet : SheetAnalysis.t) : Z :=
  Py.sum (map (fun elements => Py.len elements) (Py.dict_values (SheetAnalysis.visual_elements sheet))).

Definition _calculate_complexity_score (analysis : SpreadsheetAnalysis.t) : Z :=
  let sheets := SpreadsheetAnalysis.sheets analysis in
  let score := 0 in
  let score := score + Z.min (Py.len sheets * 5) 20 in
  let total_formulas := Py.sum (map (fun sheet => Py.len (SheetAnalysis.formulas sheet)) sheets) in
  let score := score + Z.min (total_formulas * 2) 30 in
  let total_merged := Py.sum (map (fun sheet => Py.len (SheetAnalysis.merged_cells sheet)) sheets) in
  let score := score + Z.min (total_merged * 3) 20 in
  let score :=
    fold_left (fun score sheet => score + Z.min (visual_count sheet * 2) 15) sheets score in
  let total_styles :=
    Py.sum (map (fun sheet => Z.of_nat (size (SheetAnalysis.styles_map sheet))) sheets) in
  let score := score + Z.min (total_styles / 10) 15 in
  Z.min score 100.

Definition _extract_global_styles (analysis : SpreadsheetAnalysis.t) : gmap string CellStyle.t :=
  match SpreadsheetAnalysis.sheets analysis with
  | first :: _ => SheetAnalysis.styles_map first
  | [] => ∅
  end.

(** *** One sheet, then the whole workbook *)

(** Reading a grid attribute such as [max_row]: a chart sheet has none. *)
Definition grid (worksheet : Sheet.t) : Py.Result Worksheet.t :=
  match worksheet with
  | Sheet.Work ws => Py.Ok ws
  | Sheet.Chartsheet _ =>
      Py.Raise (Py.Exc "AttributeError" "'Chartsheet' object has no attribute 'max_row'")
  end.

(** [f"A{start_row}:{get_column_letter(column_count)}{row_count}"], set
    only when a header row was found. *)
Definition data_range_of (header_row : option Z) (row_count column_count : Z)
  : Py.Result (option string) :=
  match header_row with
  | Some h =>
      if header_row_truthy header_row then
        let start_row := h + 1 in
        letter <- get_column_letter column_count ;;
        Py.Ok (Some ("A" +:+ Py.str_of_int start_row +:+ ":" +:+ letter +:+ Py.str_of_int row_count))
      else Py.Ok None
  | None => Py.Ok None
  end.

Definition _analyze_sheet (worksheet : Sheet.t) (sheet_name : string) : Logging.IO SheetAnalysis.t :=
  _ <~ Logging.emit Logging.DEBUG ("Analisando aba: " +:+ sheet_name) ;;
  Logging.lift (
    ws <- grid worksheet ;;
    let row_count := Worksheet.max_row ws in
    let column_count := Worksheet.max_column ws in
    detected <- _detect_headers ws ;;
    let '(headers, header_row) := detected in
    data_range <- data_range_of header_row row_count column_count ;;
    formulas <- _extract_formulas ws ;;
    let merged_cells := Worksheet.merged_ranges ws in
    styles_map <- _map_cell_styles ws ;;
    visual_elements <- _catalog_visual_elements ws ;;
    data_types <- _detect_data_types ws header_row ;;
    Py.Ok (SheetAnalysis.Mk sheet_name row_count column_count headers header_row data_range
             formulas merged_cells styles_map visual_elements data_types)).

(** The code points of the accented letters in the messages. *)
Definition a_acute : string := String (Py.chr 225) EmptyString.
Definition i_acute : string := String (Py.chr 237) EmptyString.

(** The body of the loop over [workbook.sheetnames]. *)
Definition analyze_step (workbook : Workbook.t) (analysis : SpreadsheetAnalysis.t) (sheet_name : string)
  : Logging.IO SpreadsheetAnalysis.t :=
  worksheet <~ Logging.lift (Workbook.getitem workbook sheet_name) ;;
  sheet_analysis <~ _analyze_sheet worksheet sheet_name ;;
  let analysis :=
    SpreadsheetAnalysis.with_sheets analysis
      (SpreadsheetAnalysis.sheets analysis ++ [sheet_analysis])%list in
  let analysis :=
    match SheetAnalysis.formulas sheet_analysis with
    | [] => analysis
    | _ => SpreadsheetAnalysis.with_has_formulas analysis true
    end in
  let analysis :=
    match SheetAnalysis.merged_cells sheet_analysis with
    | [] => analysis
    | _ => SpreadsheetAnalysis.with_has_merged_cells analysis true
    end in
  Logging.ret analysis.

(** What the [try] block of [analyze_spreadsheet] does. *)
Definition analyze_body (env : Env.t) (spreadsheet_info : SpreadsheetInfo.t)
  : Logging.IO SpreadsheetAnalysis.t :=
  workbook <~ Logging.lift (Env.load_workbook env (SpreadsheetInfo.path spreadsheet_info)) ;;
  let analysis :=
    SpreadsheetAnalysis.Mk spreadsheet_info [] ∅ false false 0 (Some (Env.timestamp_now env)) in
  analysis <~ Logging.for_each (analyze_step workbook) (Workbook.sheetnames workbook) analysis ;;
  let analysis :=
    SpreadsheetAnalysis.with_complexity_score analysis (_calculate_complexity_score analysis) in
  let analysis :=
    SpreadsheetAnalysis.with_global_styles analysis (_extract_global_styles analysis) in
  _ <~ Logging.emit Logging.INFO
         ("An" +:+ a_acute +:+ "lise conclu" +:+ i_acute +:+ "da: "
          +:+ Py.str_of_int (Py.len (SpreadsheetAnalysis.sheets analysis)) +:+ " abas, "
          +:+ "complexidade: " +:+ Py.str_of_int (SpreadsheetAnalysis.complexity_score analysis)) ;;
  Logging.ret analysis.

(** [AnalysisException(f"Falha na análise: {str(e)}")], raised while [e]
    is being handled: the message embeds [str(e)] and [e] becomes the
    context of the new exception. *)
Definition AnalysisException (e : Py.Exn) : Py.Exn :=
  Py.ExcDuring "AnalysisException" ("Falha na an" +:+ a_acute +:+ "lise: " +:+ Py.exn_str e) e.

(** The [except Exception as e] clause: log, then raise. *)
Definition analyze_handler (spreadsheet_info : SpreadsheetInfo.t) (e : Py.Exn)
  : Logging.IO SpreadsheetAnalysis.t :=
  _ <~ Logging.emit Logging.ERROR
         ("Erro ao analisar planilha " +:+ SpreadsheetInfo.name spreadsheet_info +:+ ": "
          +:+ Py.exn_str e) ;;
  Logging.raise (AnalysisException e).

Definition analyze_spreadsheet (env : Env.t) (spreadsheet_info : SpreadsheetInfo.t)
  : Logging.IO SpreadsheetAnalysis.t :=
  _ <~ Logging.emit Logging.INFO
         ("Analisando estrutura da planilha: " +:+ SpreadsheetInfo.name spreadsheet_info) ;;
  Logging.try_except (analyze_body env spreadsheet_info) (analyze_handler spreadsheet_info).

End SpreadsheetAnalyzer.

(** ** Sample workbooks *)

Module Samples.

Definition blank : CellData.t :=
  CellData.Mk (Py.Ok Py.VNone) "n" None None None None "General" None.

Definition holding (v : Py.Value) : CellData.t :=
  CellData.Mk (Py.Ok v) (match v with Py.VStr _ => "s" | Py.VBool _ => "b" | _ => "n" end)
    None None None None "General" None.

Definition formula (text : string) : CellData.t :=
  CellData.Mk (Py.Ok (Py.VStr text)) "f" None None None None "General" None.

(** A grid given row by row; positions outside it are blank. *)
Definition grid_cells (rows : list (list CellData.t)) (r c : Z) : CellData.t :=
  match rows !! Z.to_nat (r - 1) with
  | Some row => match row !! Z.to_nat (c - 1) with Some d => d | None => blank end
  | None => blank
  end.

Definition sheet_of (title : string) (rows : list (list CellData.t)) : Worksheet.t :=
  Worksheet.Mk title
    (Z.max 1 (Py.len rows))
    (Z.max 1 (fold_right Z.max 0 (map (fun row => Py.len row) rows)))
    (grid_cells rows) [] (Some []) (Some []) [] [].

Definition sales : Worksheet.t :=
  sheet_of "Vendas"
    [ [holding (Py.VStr "Data"); holding (Py.VStr "Produto"); holding (Py.VStr "Quantidade");
       holding (Py.VStr "Total")];
      [holding (Py.VStr "2024-01-15"); holding (Py.VStr "Caneta"); holding (Py.VInt 3);
       formula "=C2*2"];
      [holding (Py.VStr "2024-01-16"); holding (Py.VStr "Papel"); holding (Py.VInt 5);
       formula "=C3*2"] ].

Definition env_of (wb : Workbook.t) : Env.t :=
  Env.Mk (fun _ => Py.Ok wb) "2024-01-20T10:00:00".

Definition info : SpreadsheetInfo.t :=
  SpreadsheetInfo.Mk "vendas.xlsx" "/dados/vendas.xlsx" 1024 "2024-01-20" ".xlsx" true None.

(** Five rows of numbers and blanks, and the column titles in row 6. *)
Definition late_header : Worksheet.t :=
  sheet_of "Tarde"
    [ [holding (Py.VInt 2023); holding (Py.VInt 10); blank];
      [holding (Py.VInt 2024); holding (Py.VFloat "12.5"); holding (Py.VStr "1.250,00")];
      [blank; blank; blank];
      [holding (Py.VInt 7); holding (Py.VStr "42"); holding (Py.VInt 0)];
      [holding (Py.VInt 1); holding (Py.VInt 2); holding (Py.VInt 3)];
      [holding (Py.VStr "Nome"); holding (Py.VStr "Valor"); holding (Py.VStr "Data")];
      [holding (Py.VStr "Caneta"); holding (Py.VInt 3); holding (Py.VStr "2024-01-15")] ].

(** One row of ten cells: seven titles and three years. *)
Definition seven_of_ten : Worksheet.t :=
  sheet_of "Limite"
    [ [holding (Py.VStr "Data"); holding (Py.VStr "Produto"); holding (Py.VStr "Loja");
       holding (Py.VStr "Cidade"); holding (Py.VStr "Vendedor"); holding (Py.VStr "Canal");
       holding (Py.VStr "Obs"); holding (Py.VInt 2023); holding (Py.VInt 2024);
       holding (Py.VInt 2025)] ].

Definition seven_of_ten_row : list string :=
  ["Data"; "Produto"; "Loja"; "Cidade"; "Vendedor"; "Canal"; "Obs"; "2023"; "2024"; "2025"].

(** A formula cell whose value cannot be read, next to a sound one. *)
Definition unreadable : Py.Exn := Py.Exc "RuntimeError" "cell unreadable".

Definition bad_formula : CellData.t :=
  CellData.Mk (Py.Raise unreadable) "f" None None None None "General" None.

Definition broken : Worksheet.t :=
  sheet_of "Quebrada" [ [bad_formula; formula "=1+1"] ].

(** A workbook with a worksheet and a chart sheet. *)
Definition with_chart : Workbook.t :=
  Workbook.Mk [Sheet.Work sales; Sheet.Chartsheet "Grafico"].

Definition no_attribute : Py.Exn :=
  Py.Exc "AttributeError" "'Chartsheet' object has no attribute 'max_row'".

Definition sales_book : Workbook.t := Workbook.Mk [Sheet.Work sales].

Definition empty_analysis : SpreadsheetAnalysis.t :=
  SpreadsheetAnalysis.Mk info [] ∅ false false 0 None.

(** What the analysis of [sales_book] returns and logs. *)
Definition sales_analysis : SpreadsheetAnalysis.t :=
  match fst (SpreadsheetAnalyzer.analyze_spreadsheet (env_of sales_book) info []) with
  | Py.Ok analysis => analysis
  | Py.Raise _ => empty_analysis
  end.

Definition sales_log : Logging.Records :=
  snd (SpreadsheetAnalyzer.analyze_spreadsheet (env_of sales_book) info []).

Definition sales_styles : gmap string CellStyle.t :=
  match SpreadsheetAnalyzer._map_cell_styles sales with
  | Py.Ok m => m
  | Py.Raise _ => ∅
  end.

Definition sales_types : gmap string string :=
  match SpreadsheetAnalyzer._detect_data_types sales (Some 1) with
  | Py.Ok m => m
  | Py.Raise _ => ∅
  end.

(** As many numbers as date-like values. *)
Definition tie : list Py.Value :=
  [Py.VInt 1; Py.VStr "2024-01-15"; Py.VFloat "2.5"; Py.VStr "15/01/2024"].

End Samples.

(** ** The vocabulary of the statements: the complexity score as the
    specification words it, and the predicates on rows, cells and columns *)

Module Spec.

(** The sum of [f] over a list. *)
Fixpoint total {A : Type} (f : A -> Z) (l : list A) : Z :=
  match l with
  | [] => 0
  | x :: l' => f x + total f l'
  end.

Definition catalog_categories : list string :=
  ["charts"; "images"; "shapes"; "conditional_formatting"; "data_validation"; "hyperlinks"].

(** The number of elements catalogued under one category of a sheet. *)
Definition category_len (sheet : SheetAnalysis.t) (category : string) : Z :=
  match Py.dict_get (SheetAnalysis.visual_elements sheet) category with
  | Some elements => Py.len elements
  | None => 0
  end.

(** 2 per visual element over the six categories, capped at 15 for the
    sheet. *)
Definition visual_term (sheet : SheetAnalysis.t) : Z :=
  Z.min (2 * total (category_len sheet) catalog_categories) 15.

Definition sheets_term (sheets : list SheetAnalysis.t) : Z :=
  Z.min (5 * Py.len sheets) 20.

Definition formulas_term (sheets : list SheetAnalysis.t) : Z :=
  Z.min (2 * total (fun sheet => Py.len (SheetAnalysis.formulas sheet)) sheets) 30.

Definition merged_term (sheets : list SheetAnalysis.t) : Z :=
  Z.min (3 * total (fun sheet => Py.len (SheetAnalysis.merged_cells sheet)) sheets) 20.

Definition styles_term (sheets : list SheetAnalysis.t) : Z :=
  Z.min (total (fun sheet => Z.of_nat (size (SheetAnalysis.styles_map sheet))) sheets / 10) 15.

Definition complexity (sheets : list SheetAnalysis.t) : Z :=
  Z.min (sheets_term sheets + formulas_term sheets + merged_term sheets
         + total visual_term sheets + styles_term sheets) 100.

(** A sheet analysis whose visual catalog has the six fixed keys. *)
Definition catalogued (sheet : SheetAnalysis.t) : Prop :=
  Py.dict_keys (SheetAnalysis.visual_elements sheet) = catalog_categories.

(** What the header scan appends for a value, and whether the value sets
    [has_text]. *)
Definition entry (v : Py.Value) : string :=
  if Py.is_none v then ""
  else if Py.isinstance_str v && Py.str_truthy (Py.strip (Py.str v)) then Py.strip (Py.str v)
  else Py.str v.

Definition textual (v : Py.Value) : bool :=
  negb (Py.is_none v) && Py.isinstance_str v && Py.str_truthy (Py.strip (Py.str v)).

(** The row was scanned and failed the header test. *)
Definition disqualified (ws : Worksheet.t) (row_num : Z) : Prop :=
  exists row_values has_text,
    SpreadsheetAnalyzer.header_scan ws row_num = Py.Ok (row_values, has_text)
    /\ SpreadsheetAnalyzer.row_qualifies row_values has_text = false.

(** The row was scanned, passed the test and gave these headers. *)
Definition qualified (ws : Worksheet.t) (row_num : Z) (headers : list string) : Prop :=
  exists row_values has_text,
    SpreadsheetAnalyzer.header_scan ws row_num = Py.Ok (row_values, has_text)
    /\ SpreadsheetAnalyzer.row_qualifies row_values has_text = true
    /\ headers = SpreadsheetAnalyzer.non_empty row_values.

(** An entry that the text count of a row takes: not empty, and not made
    of digits once the dots and commas are removed. *)
Definition counts_as_text (val : string) : bool :=
  Py.str_truthy val && SpreadsheetAnalyzer.not_pure_number val.

(** A cell that is blank or purely numeric: its entry is empty or made of
    digits, dots and commas. *)
Definition plain (d : CellData.t) : Prop :=
  exists v, CellData.value d = Py.Ok v /\ counts_as_text (entry v) = false.

(** A cell that holds no text: it is blank, or holds a native number,
    date or boolean, or a string of spaces. *)
Definition textless (d : CellData.t) : Prop :=
  exists v, CellData.value d = Py.Ok v /\ textual v = false.

(** A sheet whose style scan cannot raise: at most 18278 columns, every
    value readable, and no blank cell with a gradient fill. *)
Definition styles_readable (ws : Worksheet.t) : Prop :=
  Worksheet.max_column ws <= 18278
  /\ forall r c, 1 <= r <= Worksheet.max_row ws -> 1 <= c <= Worksheet.max_column ws ->
       exists v, CellData.value (Worksheet.cells ws r c) = Py.Ok v
                 /\ (v = Py.VNone -> CellData.fill (Worksheet.cells ws r c) <> Some Fill.GradientFill).

(** [cell.data_type == 'f'] *)
Definition is_formula (cell : Cell.t) : bool := String.eqb (Cell.data_type cell) "f".

(** The [CellInfo] that the formula scan records for a formula cell. *)
Definition recorded (cell : Cell.t) (info : CellInfo.t) : Prop :=
  exists address v,
    Cell.coordinate cell = Py.Ok address /\ Cell.value cell = Py.Ok v
    /\ info = CellInfo.Mk (Cell.row cell) (Cell.column cell) address v CellType.FORMULA
                (SpreadsheetAnalyzer._extract_cell_style cell) (Some v) false None.

(** The letters of [n] consecutive indices from [idx] on all read back
    as their index. *)
Fixpoint letters_read_back (n : nat) (idx : Z) : bool :=
  match n with
  | O => true
  | S n' =>
      (column_index (Py.of_chars (column_letters 3 idx [])) =? idx)
      && letters_read_back n' (idx + 1)
  end.

(** The keys of [type_counts], in the order the dict literal lists them. *)
Definition type_order : list string := ["number"; "date"; "text"; "boolean"].

(** How many of the sampled values fall in a class. *)
Definition tally (values : list Py.Value) (key : string) : Z :=
  Py.len (List.filter (fun v => String.eqb (SpreadsheetAnalyzer.type_key v) key) values).

(** The rows sampled beneath header row [h]: at most ten, none past the
    last row. *)
Definition sample_window (ws : Worksheet.t) (h : Z) : list Z :=
  Py.range (h + 1) (h + Z.min 10 (Worksheet.max_row ws - h) + 1).

(** Some sampled cell of the column holds a non-null value. *)
Definition has_sample (ws : Worksheet.t) (rows : list Z) (col : Z) : Prop :=
  exists r v, In r rows /\ CellData.value (Worksheet.cells ws r col) = Py.Ok v /\ v <> Py.VNone.

(** The outcome of analysing one sheet; the logger does not influence it. *)
Definition sheet_outcome (sheet : Sheet.t) (sheet_name : string) : Py.Result SheetAnalysis.t :=
  fst (SpreadsheetAnalyzer._analyze_sheet sheet sheet_name []).

(** The sheet of that name exists and its analysis succeeds. *)
Definition sheet_ok (wb : Workbook.t) (sheet_name : string) : Prop :=
  exists sheet sa,
    Workbook.getitem wb sheet_name = Py.Ok sheet /\ sheet_outcome sheet sheet_name = Py.Ok sa.

End Spec.

(** ** Further vocabulary: log records, catalog entries, samples and
    coordinates *)

Module Terms.

(** The first record of every run, and the last record of a successful
    run and of a failed run. *)
Definition started (info : SpreadsheetInfo.t) : Logging.Level * string :=
  (Logging.INFO, "Analisando estrutura da planilha: " +:+ SpreadsheetInfo.name info).

Definition concluded (analysis : SpreadsheetAnalysis.t) : Logging.Level * string :=
  (Logging.INFO,
   "An" +:+ SpreadsheetAnalyzer.a_acute +:+ "lise conclu" +:+ SpreadsheetAnalyzer.i_acute +:+ "da: "
   +:+ Py.str_of_int (Py.len (SpreadsheetAnalysis.sheets analysis)) +:+ " abas, "
   +:+ "complexidade: " +:+ Py.str_of_int (SpreadsheetAnalysis.complexity_score analysis)).

Definition failed (info : SpreadsheetInfo.t) (e : Py.Exn) : Logging.Level * string :=
  (Logging.ERROR,
   "Erro ao analisar planilha " +:+ SpreadsheetInfo.name info +:+ ": " +:+ Py.exn_str e).

(** The record written when the analysis of a sheet starts. *)
Definition entered (sheet_name : string) : Logging.Level * string :=
  (Logging.DEBUG, "Analisando aba: " +:+ sheet_name).

(** [bool(l)] for a list. *)
Definition has_some {A : Type} (l : list A) : bool :=
  match l with [] => false | _ => true end.

(** [hasattr(worksheet, attr)] and then the list, or no element. *)
Definition listed {A : Type} (o : option (list A)) : list A :=
  match o with Some l => l | None => [] end.

(** [if cell.hyperlink] *)
Definition linked (cell : Cell.t) : bool :=
  match Cell.hyperlink cell with Some _ => true | None => false end.

(** The catalog entry of a cell that carries a hyperlink. *)
Definition link_entry (cell : Cell.t) (entry : VisualElement) : Prop :=
  exists link coordinate,
    Cell.hyperlink cell = Some link /\ Cell.coordinate cell = Py.Ok coordinate
    /\ entry = HyperlinkEntry coordinate (Hyperlink.target link).

(** The values sampled in a column: the values of the rows read top to
    bottom, without the [None]s. *)
Definition sampled (ws : Worksheet.t) (rows : list Z) (col : Z) (values : list Py.Value) : Prop :=
  exists read,
    Forall2 (fun r v => CellData.value (Worksheet.cells ws r col) = Py.Ok v) rows read
    /\ values = List.filter (fun v => negb (Py.is_none v)) read.

(** The capital letters A to Z. *)
Definition capital (c : ascii) : bool :=
  let n := Py.ord c in ((65 <=? n)%nat && (n <=? 90)%nat).

(** A coordinate read back: its leading capitals, and what follows. *)
Fixpoint split_coordinate (s : string) : string * string :=
  match s with
  | EmptyString => (EmptyString, EmptyString)
  | String c s' =>
      if capital c then let '(letters, rest) := split_coordinate s' in (String c letters, rest)
      else (EmptyString, s)
  end.

End Terms.

(** Further sample inputs. *)

Module Cases.

(** The analysis of the sheet of the sales workbook. *)
Definition sales_sheet : SheetAnalysis.t :=
  match Spec.sheet_outcome (Sheet.Work Samples.sales) "Vendas" with
  | Py.Ok sa => sa
  | Py.Raise _ =>
      SheetAnalysis.Mk "" 0 0 [] None None [] [] ∅ [] ∅
  end.

(** A sheet that holds its column titles and nothing else. *)
Definition titles_only : Worksheet.t :=
  Samples.sheet_of "Titulos"
    [ [Samples.holding (Py.VStr "Nome"); Samples.holding (Py.VStr "Valor")] ].

(** A cell with a link, and a sheet with two of them, a chart and a
    validation rule. *)
Definition link_to (text target : string) : CellData.t :=
  CellData.Mk (Py.Ok (Py.VStr text)) "s" None None None None "General"
    (Some (Hyperlink.Mk (Some target))).

Definition with_links : Worksheet.t :=
  Worksheet.Mk "Links" 2 2
    (Samples.grid_cells
       [ [link_to "site" "https://example.org"; Samples.holding (Py.VInt 1)];
         [Samples.blank; link_to "mail" "mailto:a@example.org"] ])
    [] (Some [Chart.Mk "BarChart"]) None
    [ConditionalFormatting.Mk "A1:A2" ["r1"; "r2"]]
    [DataValidation.Mk "B1" (Some "list")].

(** A blank cell with a gradient fill, after a cell with a value. *)
Definition shaded : CellData.t :=
  CellData.Mk (Py.Ok Py.VNone) "n" None (Some Fill.GradientFill) None None "General" None.

Definition with_gradient : Worksheet.t :=
  Samples.sheet_of "Degrade" [ [Samples.holding (Py.VInt 1); shaded] ].

(** Two sheets of thirteen rows and one column that differ in rows 12
    and 13 only; the titles are in row 1. *)
Definition tall (tail : Py.Value) : Worksheet.t :=
  Worksheet.Mk "Alta" 13 1
    (fun r _ =>
       if r =? 1 then Samples.holding (Py.VStr "Valor")
       else if r <=? 11 then Samples.holding (Py.VInt r)
       else Samples.holding tail)
    [] (Some []) (Some []) [] [].

(** Two numbers and a text. *)
Definition mostly_numbers : list Py.Value := [Py.VInt 1; Py.VStr "x"; Py.VFloat "2.5"].

(** The sales analysis with a second, empty sheet analysis added. *)
Definition sales_and_more : SpreadsheetAnalysis.t :=
  SpreadsheetAnalysis.with_sheets Samples.sales_analysis
    (SpreadsheetAnalysis.sheets Samples.sales_analysis
     ++ [SheetAnalysis.Mk "Extra" 1 1 [] None None [] ["A1:B2"] ∅ [] ∅])%list.

(** The style record of a cell that carries no style object. *)
Definition unstyled : CellStyle.t :=
  CellStyle.Mk None Py.VNone false false None None None None None (Some "General").

End Cases.

(** ** The header rule, on the values of a row *)

Module HeaderRule.

(** Every cell of the row, in columns 1 to [max_column], can be read. *)
Definition readable (ws : Worksheet.t) (r : Z) : Prop :=
  forall c, 1 <= c <= Worksheet.max_column ws ->
    exists v, CellData.value (Worksheet.cells ws r c) = Py.Ok v.

(** The values of the row, column 1 first. *)
Definition values (ws : Worksheet.t) (r : Z) : list Py.Value :=
  map (fun c => match CellData.value (Worksheet.cells ws r c) with
                | Py.Ok v => v
                | Py.Raise _ => Py.VNone
                end)
      (Py.range 1 (Worksheet.max_column ws + 1)).

(** A non-empty value: it is not [None] and does not print as the empty
    string. *)
Definition filled (v : Py.Value) : bool :=
  negb (Py.is_none v) && Py.str_truthy (Py.str v).

(** A pure numeric string: digits only, once the dots and the commas are
    taken out. *)
Definition pure_numeric (s : string) : bool :=
  Py.isdigit (Py.remove_char "," (Py.remove_char "." s)).

(** A non-empty value whose text (trimmed, for a string with more than
    spaces) is not a pure numeric string. *)
Definition wordy (v : Py.Value) : bool :=
  filled v && negb (pure_numeric (Spec.entry v)).

(** How many elements of a list pass a test. *)
Definition count {A : Type} (f : A -> bool) (l : list A) : Z :=
  Spec.total (fun x => if f x then 1 else 0) l.

(** The row holds text: a string with more than spaces. *)
Definition holds_text (vs : list Py.Value) : bool := existsb Spec.textual vs.

(** The header rule: the row holds text, and at least 70 percent of its
    non-empty values are not pure numeric strings. *)
Definition passes (vs : list Py.Value) : bool :=
  holds_text vs && (7 * count filled vs <=? 10 * count wordy vs).

(** The headers read off a row: the texts of its non-empty values. *)
Definition labels (vs : list Py.Value) : list string :=
  map Spec.entry (List.filter filled vs).



End HeaderRule.

(** A cell as openpyxl hands it out for a position that was never
    written: no value, and the default style objects. *)
Module Fresh.

Definition font : Font.t := Font.Mk (Some "Calibri") (Py.VInt 11) (Some false) (Some false) None.

Definition fill : Fill.t := Fill.PatternFill (Some (Color.Mk "00000000")).

Definition side : Side.t := Side.Mk None.

Definition border : Border.t := Border.Mk (Some side) (Some side) (Some side) (Some side).

Definition alignment : Alignment.t := Alignment.Mk None None.

Definition styled (v : Py.Value) : CellData.t :=
  CellData.Mk (Py.Ok v) (match v with Py.VStr _ => "s" | Py.VBool _ => "b" | _ => "n" end)
    (Some font) (Some fill) (Some border) (Some alignment) "General" None.

Definition untouched : CellData.t := styled Py.VNone.

(** A sheet of two rows and two columns with one value, in A1. *)
Definition sheet : Worksheet.t :=
  Worksheet.Mk "Nova" 2 2
    (fun r c => if (r =? 1) && (c =? 1) then styled (Py.VStr "Total") else untouched)
    [] (Some []) (Some []) [] [].

(** One row of fifteen cells: seven titles, three years and five cells
    that were never written. *)
Definition sparse : Worksheet.t :=
  Samples.sheet_of "Esparsa"
    [ [Samples.holding (Py.VStr "Data"); Samples.blank; Samples.holding (Py.VStr "Produto");
       Samples.holding (Py.VStr "Loja"); Samples.blank; Samples.holding (Py.VInt 2023);
       Samples.holding (Py.VStr "Cidade"); Samples.holding (Py.VStr "Vendedor"); Samples.blank;
       Samples.holding (Py.VInt 2024); Samples.holding (Py.VStr "Canal"); Samples.blank;
       Samples.holding (Py.VStr "Obs"); Samples.holding (Py.VInt 2025); Samples.blank] ].


End Fresh.

Module FreshMaps.

(** The styles map of the fresh sheet. *)
Definition styles : gmap string CellStyle.t :=
  match SpreadsheetAnalyzer._map_cell_styles Fresh.sheet with
  | Py.Ok m => m
  | Py.Raise _ => ∅
  end.

End FreshMaps.

(** ** [scanner.py]: paths, the file system, and [SpreadsheetScanner] *)

(** More of [str]. *)
Module Str.

(** [c.lower()] for a code point below 256: the ASCII capitals and the
    Latin-1 capitals U+00C0 to U+00DE, without the sign U+00D7. *)
Definition char_lower (c : ascii) : ascii :=
  let n := Py.ord c in
  if ((65 <=? n)%nat && (n <=? 90)%nat)
     || ((192 <=? n)%nat && (n <=? 222)%nat && negb (n =? 215)%nat)
  then Py.chr (n + 32) else c.

(** [s.lower()] *)
Fixpoint lower (s : string) : string :=
  match s with
  | EmptyString => EmptyString
  | String c s' => String (char_lower c) (lower s')
  end.

(** [s.startswith(c)] and [s.endswith(c)] for a one-character [c]. *)
Definition startswith (c : ascii) (s : string) : bool :=
  match s with
  | EmptyString => false
  | String d _ => Ascii.eqb d c
  end.

Fixpoint endswith (c : ascii) (s : string) : bool :=
  match s with
  | EmptyString => false
  | String d EmptyString => Ascii.eqb d c
  | String _ s' => endswith c s'
  end.

(** [x in collection] for strings. *)
Definition member (x : string) (l : list string) : bool := existsb (String.eqb x) l.

Definition a_tilde : string := String (Py.chr 227) EmptyString.
Definition e_acute : string := String (Py.chr 233) EmptyString.
Definition u_acute : string := String (Py.chr 250) EmptyString.

End Str.

(** A [pathlib.Path], by the attributes the scanner reads: its text
    ([str(path)]; two POSIX paths are equal, and hash alike, exactly when
    their texts are equal), and the [name], [stem] and [suffix] of its
    last component, as [pathlib] computes them. *)
Module PathObj.
Record t : Type := Mk { text : string; name : string; stem : string; suffix : string }.
End PathObj.

(** An [os.stat_result]: the size, and the modification time, a [float]
    carried by its [repr]. *)
Module Stat.
Record t : Type := Mk { st_size : Z; st_mtime : string }.
End Stat.

(** What the scanner obtains from the file system and the clock:
    [path.exists()], [path.is_dir()], [path.is_file()], [path.stat()] and
    [datetime.fromtimestamp(t)] may raise; [path.rglob('*')] is a
    generator, each step of which yields a path or raises; [glob] gives
    the paths [Path(s)] for [s] in [glob.glob(str(path / pattern))], or
    the exception that [glob.glob] raises (a [ValueError] when the search
    pattern holds a null character). *)
Module FileSystem.
Record t : Type := Mk
  { exists_ : PathObj.t -> Py.Result bool;
    is_dir : PathObj.t -> Py.Result bool;
    is_file : PathObj.t -> Py.Result bool;
    stat : PathObj.t -> Py.Result Stat.t;
    fromtimestamp : string -> Py.Result string;
    rglob : PathObj.t -> list (Py.Result PathObj.t);
    glob : PathObj.t -> string -> Py.Result (list PathObj.t) }.
End FileSystem.

Module SpreadsheetScanner.

(** [self.supported_extensions] is the set [{'.xlsx', '.xls'}]; a set of
    strings has no fixed iteration order, so the scanner carries which of
    the two comes first. *)
Record t : Type := Mk { subordinadas_path : PathObj.t; xlsx_first : bool }.

Definition supported_extensions (self : t) : list string :=
  if xlsx_first self then [".xlsx"; ".xls"] else [".xls"; ".xlsx"].

(** [SpreadsheetInfo.is_excel] *)
Definition is_excel (info : SpreadsheetInfo.t) : bool :=
  Str.member (Str.lower (SpreadsheetInfo.extension info)) [".xlsx"; ".xls"].

Definition _analyze_file (fs : FileSystem.t) (self : t) (file_path : PathObj.t)
  : Logging.IO (option SpreadsheetInfo.t) :=
  Logging.try_except
    (if Str.startswith "." (PathObj.name file_path) then Logging.ret None
     else
       let name_without_ext := PathObj.stem file_path in
       if Str.startswith "~" (PathObj.name file_path) || Str.endswith "~" name_without_ext
       then Logging.ret None
       else if negb (Str.member (Str.lower (PathObj.suffix file_path)) (supported_extensions self))
       then Logging.ret None
       else
         stat <~ Logging.lift (FileSystem.stat fs file_path) ;;
         modified_time <~ Logging.lift (FileSystem.fromtimestamp fs (Stat.st_mtime stat)) ;;
         let spreadsheet_info :=
           SpreadsheetInfo.Mk (PathObj.name file_path) (PathObj.text file_path)
             (Stat.st_size stat) modified_time (Str.lower (PathObj.suffix file_path)) true None in
         _ <~ Logging.emit Logging.DEBUG
                ("Arquivo analisado: " +:+ SpreadsheetInfo.name spreadsheet_info +:+ " ("
                 +:+ Py.str_of_int (SpreadsheetInfo.size spreadsheet_info) +:+ " bytes)") ;;
         Logging.ret (Some spreadsheet_info))
    (fun e =>
       _ <~ Logging.emit Logging.WARNING
              ("Erro ao analisar arquivo " +:+ PathObj.text file_path +:+ ": " +:+ Py.exn_str e) ;;
       Logging.ret None).

(** [FileException(msg)], raised outside a handler, and raised while [e]
    is being handled. *)
Definition FileException (msg : string) : Py.Exn := Py.Exc "FileException" msg.

Definition FileExceptionFrom (msg : string) (e : Py.Exn) : Py.Exn :=
  Py.ExcDuring "FileException" (msg +:+ Py.exn_str e) e.

(** The body of the loop of [scan_folder] over the generator. *)
Definition scan_step (fs : FileSystem.t) (self : t)
    (spreadsheets : list SpreadsheetInfo.t) (item : Py.Result PathObj.t)
  : Logging.IO (list SpreadsheetInfo.t) :=
  file_path <~ Logging.lift item ;;
  regular <~ Logging.lift (FileSystem.is_file fs file_path) ;;
  if regular then
    spreadsheet_info <~ _analyze_file fs self file_path ;;
    match spreadsheet_info with
    | Some info => Logging.ret (spreadsheets ++ [info])%list
    | None => Logging.ret spreadsheets
    end
  else Logging.ret spreadsheets.

Definition scan_folder (fs : FileSystem.t) (self : t) (folder_path : option PathObj.t)
  : Logging.IO (list SpreadsheetInfo.t) :=
  let target_path := match folder_path with Some p => p | None => subordinadas_path self end in
  _ <~ Logging.emit Logging.INFO
         ("Iniciando escaneamento da pasta: " +:+ PathObj.text target_path) ;;
  found <~ Logging.lift (FileSystem.exists_ fs target_path) ;;
  if negb found then
    Logging.raise
      (FileException ("Pasta n" +:+ Str.a_tilde +:+ "o encontrada: " +:+ PathObj.text target_path))
  else
    directory <~ Logging.lift (FileSystem.is_dir fs target_path) ;;
    if negb directory then
      Logging.raise
        (FileException ("Caminho n" +:+ Str.a_tilde +:+ "o " +:+ Str.e_acute +:+ " uma pasta: "
                        +:+ PathObj.text target_path))
    else
      Logging.try_except
        (spreadsheets <~
           Logging.for_each (scan_step fs self) (FileSystem.rglob fs target_path) [] ;;
         _ <~ Logging.emit Logging.INFO
                ("Escaneamento conclu" +:+ SpreadsheetAnalyzer.i_acute +:+ "do. "
                 +:+ Py.str_of_int (Py.len spreadsheets) +:+ " planilhas encontradas.") ;;
         Logging.ret spreadsheets)
        (fun e =>
           if String.eqb (Py.exn_cls e) "PermissionError" then
             Logging.raise
               (FileExceptionFrom ("Sem permiss" +:+ Str.a_tilde +:+ "o para acessar a pasta: ") e)
           else Logging.raise (FileExceptionFrom "Erro durante escaneamento: " e)).

Definition filter_step (self : t) (filtered : list PathObj.t) (file_path : PathObj.t)
  : Logging.IO (list PathObj.t) :=
  if Str.member (Str.lower (PathObj.suffix file_path)) (supported_extensions self) then
    let filtered := (filtered ++ [file_path])%list in
    _ <~ Logging.emit Logging.DEBUG
           ("Arquivo de planilha encontrado: " +:+ PathObj.name file_path) ;;
    Logging.ret filtered
  else
    _ <~ Logging.emit Logging.DEBUG
           ("Arquivo ignorado (extens" +:+ Str.a_tilde +:+ "o n" +:+ Str.a_tilde
            +:+ "o suportada): " +:+ PathObj.name file_path) ;;
    Logging.ret filtered.

Definition filter_spreadsheets (self : t) (files : list PathObj.t) : Logging.IO (list PathObj.t) :=
  Logging.for_each (filter_step self) files [].

Definition pattern_step (fs : FileSystem.t) (self : t)
    (spreadsheets : list SpreadsheetInfo.t) (file_path : PathObj.t)
  : Logging.IO (list SpreadsheetInfo.t) :=
  spreadsheet_info <~ _analyze_file fs self file_path ;;
  match spreadsheet_info with
  | Some info => Logging.ret (spreadsheets ++ [info])%list
  | None => Logging.ret spreadsheets
  end.

Definition scan_with_pattern (fs : FileSystem.t) (self : t) (pattern : string)
  : Logging.IO (list SpreadsheetInfo.t) :=
  _ <~ Logging.emit Logging.INFO ("Escaneando com padr" +:+ Str.a_tilde +:+ "o: " +:+ pattern) ;;
  found_files <~ Logging.lift (FileSystem.glob fs (subordinadas_path self) pattern) ;;
  Logging.for_each (pattern_step fs self) found_files [].

(** The loop that drops the entries whose path was seen before. *)
Definition unique_step (acc : list SpreadsheetInfo.t * gset string) (spreadsheet : SpreadsheetInfo.t)
  : list SpreadsheetInfo.t * gset string :=
  let '(unique_spreadsheets, seen_paths) := acc in
  if decide (SpreadsheetInfo.path spreadsheet ∈ seen_paths)
  then (unique_spreadsheets, seen_paths)
  else ((unique_spreadsheets ++ [spreadsheet])%list,
        {[SpreadsheetInfo.path spreadsheet]} ∪ seen_paths).

Definition get_all_spreadsheets (fs : FileSystem.t) (self : t)
  : Logging.IO (list SpreadsheetInfo.t) :=
  all_spreadsheets <~
    Logging.for_each
      (fun all_spreadsheets ext =>
         let pattern := "*" +:+ ext in
         spreadsheets <~ scan_with_pattern fs self pattern ;;
         Logging.ret (all_spreadsheets ++ spreadsheets)%list)
      (supported_extensions self) [] ;;
  let '(unique_spreadsheets, seen_paths) := fold_left unique_step all_spreadsheets ([], ∅) in
  _ <~ Logging.emit Logging.INFO
         ("Total de planilhas " +:+ Str.u_acute +:+ "nicas encontradas: "
          +:+ Py.str_of_int (Py.len unique_spreadsheets)) ;;
  Logging.ret unique_spreadsheets.

Definition get_statistics (fs : FileSystem.t) (self : t) : Logging.IO (Py.Dict Z) :=
  spreadsheets <~ get_all_spreadsheets fs self ;;
  let stats :=
    [ ("total_files", Py.len spreadsheets);
      ("xlsx_files",
       Py.len (List.filter (fun s => String.eqb (SpreadsheetInfo.extension s) ".xlsx") spreadsheets));
      ("xls_files",
       Py.len (List.filter (fun s => String.eqb (SpreadsheetInfo.extension s) ".xls") spreadsheets));
      ("total_size", Py.sum (map SpreadsheetInfo.size spreadsheets));
      ("valid_files", Py.len (List.filter SpreadsheetInfo.is_valid spreadsheets)) ] in
  Logging.ret stats.

End SpreadsheetScanner.

(** The terms in which the properties of the scanner are stated. *)
Module ScanTerms.

(** What [_analyze_file] returns for a path: its outcome does not depend
    on the records logged before. *)
Definition found (fs : FileSystem.t) (self : SpreadsheetScanner.t) (p : PathObj.t)
  : option SpreadsheetInfo.t :=
  match fst (SpreadsheetScanner._analyze_file fs self p []) with
  | Py.Ok o => o
  | Py.Raise _ => None
  end.

(** The name is that of a hidden file or of a temporary file. *)
Definition hidden (p : PathObj.t) : bool := Str.startswith "." (PathObj.name p).

Definition temporary (p : PathObj.t) : bool :=
  Str.startswith "~" (PathObj.name p) || Str.endswith "~" (PathObj.stem p).

(** The suffix is [.xlsx] or [.xls], whatever the case of its letters. *)
Definition excel_suffix (p : PathObj.t) : bool :=
  Str.member (Str.lower (PathObj.suffix p)) [".xlsx"; ".xls"].

(** [path.is_file()] returned [True]. *)
Definition regular (fs : FileSystem.t) (p : PathObj.t) : bool :=
  match FileSystem.is_file fs p with Py.Ok b => b | Py.Raise _ => false end.

(** The paths that [get_all_spreadsheets] looks at. *)
(** The paths a glob pattern matches in the folder of the scanner; none
    when [glob.glob] raises. *)
Definition matched (fs : FileSystem.t) (self : SpreadsheetScanner.t) (pattern : string)
  : list PathObj.t :=
  match FileSystem.glob fs (SpreadsheetScanner.subordinadas_path self) pattern with
  | Py.Ok paths => paths
  | Py.Raise _ => []
  end.

Definition globbed (fs : FileSystem.t) (self : SpreadsheetScanner.t) (p : PathObj.t) : Prop :=
  In p (matched fs self "*.xlsx") \/ In p (matched fs self "*.xls").

(** [glob.glob] returns for the pattern of each supported extension; it
    raises [e] for one of them. *)
Definition globs_return (fs : FileSystem.t) (self : SpreadsheetScanner.t) : Prop :=
  forall ext, In ext [".xlsx"; ".xls"] ->
    exists paths,
      FileSystem.glob fs (SpreadsheetScanner.subordinadas_path self) ("*" +:+ ext) = Py.Ok paths.

Definition glob_fails (fs : FileSystem.t) (self : SpreadsheetScanner.t) (e : Py.Exn) : Prop :=
  exists ext,
    In ext [".xlsx"; ".xls"]
    /\ FileSystem.glob fs (SpreadsheetScanner.subordinadas_path self) ("*" +:+ ext) = Py.Raise e.

(** [stats[key]] *)
Definition stat_of (stats : Py.Dict Z) (key : string) : Z :=
  match Py.dict_get stats key with Some n => n | None => 0 end.

(** One pass of the loops that collect the records. *)
Definition keep (fs : FileSystem.t) (self : SpreadsheetScanner.t) (acc : list SpreadsheetInfo.t) (p : PathObj.t)
  : list SpreadsheetInfo.t :=
  match found fs self p with Some info => (acc ++ [info])%list | None => acc end.

(** The records collected by [get_all_spreadsheets] before the duplicates
    are dropped: one scan per supported extension, in the iteration order
    of the set. *)
Definition all_found (fs : FileSystem.t) (self : SpreadsheetScanner.t) : list SpreadsheetInfo.t :=
  flat_map
    (fun ext =>
       omap (found fs self) (matched fs self ("*" +:+ ext)))
    (SpreadsheetScanner.supported_extensions self).

(** [unique] holds, in the order of [all], the first record of [all] for
    each path. *)
Definition first_of_each_path (all unique : list SpreadsheetInfo.t) : Prop :=
  NoDup (map SpreadsheetInfo.path unique)
  /\ sublist unique all
  /\ (forall x, In x (map SpreadsheetInfo.path all) -> In x (map SpreadsheetInfo.path unique))
  /\ (forall i, In i unique ->
        exists before after,
          all = (before ++ i :: after)%list
          /\ ~ In (SpreadsheetInfo.path i) (map SpreadsheetInfo.path before)).

(** The folder that [scan_folder] scans. *)
Definition target (self : SpreadsheetScanner.t) (folder_path : option PathObj.t) : PathObj.t :=
  match folder_path with Some p => p | None => SpreadsheetScanner.subordinadas_path self end.

(** The two exceptions of [scan_folder] for a path that cannot be
    scanned, and the exception that wraps a failure of the scan. *)
Definition not_found (p : PathObj.t) : Py.Exn :=
  SpreadsheetScanner.FileException
    ("Pasta n" +:+ Str.a_tilde +:+ "o encontrada: " +:+ PathObj.text p).

Definition not_a_folder (p : PathObj.t) : Py.Exn :=
  SpreadsheetScanner.FileException
    ("Caminho n" +:+ Str.a_tilde +:+ "o " +:+ Str.e_acute +:+ " uma pasta: " +:+ PathObj.text p).

Definition scan_failure (cause : Py.Exn) : Py.Exn :=
  SpreadsheetScanner.FileExceptionFrom
    (if String.eqb (Py.exn_cls cause) "PermissionError"
     then "Sem permiss" +:+ Str.a_tilde +:+ "o para acessar a pasta: "
     else "Erro durante escaneamento: ")
    cause.

(** The scan met [cause]: a step of the listing raised it, or
    [is_file()] raised it on a path of the listing. *)
Definition met (fs : FileSystem.t) (folder : PathObj.t) (cause : Py.Exn) : Prop :=
  In (Py.Raise cause) (FileSystem.rglob fs folder)
  \/ exists p, In (Py.Ok p) (FileSystem.rglob fs folder)
               /\ FileSystem.is_file fs p = Py.Raise cause.

(** The listing of the folder went through, with these paths, and so did
    [is_file()] on each. *)
Definition lists (fs : FileSystem.t) (folder : PathObj.t) (paths : list PathObj.t) : Prop :=
  FileSystem.rglob fs folder = map Py.Ok paths
  /\ Forall (fun p => exists b, FileSystem.is_file fs p = Py.Ok b) paths.

End ScanTerms.

(** A folder of spreadsheets, and file systems that hold it. *)
Module Folders.

Definition root : PathObj.t := PathObj.Mk "SUBORDINADAS" "SUBORDINADAS" "SUBORDINADAS" "".

Definition child (name stem suffix : string) : PathObj.t :=
  PathObj.Mk ("SUBORDINADAS/" +:+ name) name stem suffix.

Definition vendas : PathObj.t := child "vendas.xlsx" "vendas" ".xlsx".
Definition custos : PathObj.t := child "Custos.XLS" "Custos" ".XLS".
Definition oculto : PathObj.t := child ".oculto.xlsx" ".oculto" ".xlsx".
Definition aberto : PathObj.t := child "~$vendas.xlsx" "~$vendas" ".xlsx".
Definition copia : PathObj.t := child "vendas~.xls" "vendas~" ".xls".
Definition notas : PathObj.t := child "notas.txt" "notas" ".txt".
Definition trancado : PathObj.t := child "trancado.xlsx" "trancado" ".xlsx".
Definition antigos : PathObj.t := child "antigos" "antigos" "".

Definition denied : Py.Exn := Py.Exc "PermissionError" "[Errno 13] Permission denied".

Definition same (p q : PathObj.t) : bool := String.eqb (PathObj.text p) (PathObj.text q).

Definition listing : list PathObj.t :=
  [vendas; custos; oculto; aberto; copia; notas; trancado; antigos].

(** Every path of the listing is a regular file but [antigos], a folder;
    [stat()] is refused on [trancado]. *)
Definition disk : FileSystem.t :=
  FileSystem.Mk
    (fun p => Py.Ok (same p root || existsb (same p) listing))
    (fun p => Py.Ok (same p root || same p antigos))
    (fun p => Py.Ok (existsb (same p) listing && negb (same p antigos)))
    (fun p =>
       if same p trancado then Py.Raise denied
       else if same p vendas then Py.Ok (Stat.Mk 2048 "1700000000.0")
       else Py.Ok (Stat.Mk 512 "1700000100.5"))
    (fun t => Py.Ok ("datetime(" +:+ t +:+ ")"))
    (fun p => if same p root then map Py.Ok listing else [])
    (fun p pattern =>
       if negb (same p root) then Py.Ok []
       else if String.eqb pattern "*.xlsx" then Py.Ok [vendas; aberto; trancado]
       else if String.eqb pattern "*.xls" then Py.Ok [copia]
       else Py.Ok []).

(** The same folder when the listing fails after two paths. *)
Definition interrupted : FileSystem.t :=
  FileSystem.Mk (FileSystem.exists_ disk) (FileSystem.is_dir disk) (FileSystem.is_file disk)
    (FileSystem.stat disk) (FileSystem.fromtimestamp disk)
    (fun p => if same p root then [Py.Ok vendas; Py.Ok custos; Py.Raise denied] else [])
    (FileSystem.glob disk).

(** The same folder when [glob.glob] refuses the search pattern. *)
Definition null_byte : Py.Exn := Py.Exc "ValueError" "embedded null byte".

Definition unsearchable : FileSystem.t :=
  FileSystem.Mk (FileSystem.exists_ disk) (FileSystem.is_dir disk) (FileSystem.is_file disk)
    (FileSystem.stat disk) (FileSystem.fromtimestamp disk) (FileSystem.rglob disk)
    (fun _ _ => Py.Raise null_byte).

Definition scanner : SpreadsheetScanner.t := SpreadsheetScanner.Mk root true.

(** The records of [vendas] and of [custos]. *)
Definition vendas_info : SpreadsheetInfo.t :=
  SpreadsheetInfo.Mk "vendas.xlsx" "SUBORDINADAS/vendas.xlsx" 2048 "datetime(1700000000.0)"
    ".xlsx" true None.

Definition custos_info : SpreadsheetInfo.t :=
  SpreadsheetInfo.Mk "Custos.XLS" "SUBORDINADAS/Custos.XLS" 512 "datetime(1700000100.5)"
    ".xls" true None.

End Folders.

(** * Properties *)

(** ** Generic facts about the Python layer *)

Section PyFacts.

Lemma bind_Ok_inv {A B : Type} (r : Py.Result A) (k : A -> Py.Result B) (b : B) :
  Py.bind r k = Py.Ok b -> exists a, r = Py.Ok a /\ k a = Py.Ok b.
Proof.
  destruct r as [a|e]; simpl; intros H; [eauto | discriminate].
Qed.

Lemma sum_shift (l : list Z) (z : Z) : fold_left Z.add l z = z + fold_left Z.add l 0.
Proof.
  revert z; induction l as [|x l IH]; intros z; simpl; [lia|].
  rewrite (IH (z + x)), (IH (0 + x)). lia.
Qed.

Lemma sum_total {A : Type} (f : A -> Z) (l : list A) :
  Py.sum (map f l) = Spec.total f l.
Proof.
  unfold Py.sum. induction l as [|x l IH]; simpl; [reflexivity|].
  rewrite sum_shift, IH. lia.
Qed.

Lemma accumulate_total {A : Type} (g : A -> Z) (l : list A) (score : Z) :
  fold_left (fun score x => score + g x) l score = score + Spec.total g l.
Proof.
  revert score; induction l as [|x l IH]; intros score; simpl; [lia|].
  rewrite IH. lia.
Qed.

Lemma total_nonneg {A : Type} (f : A -> Z) (l : list A) :
  (forall x, 0 <= f x) -> 0 <= Spec.total f l.
Proof.
  intros Hf; induction l as [|x l IH]; simpl; [lia|]. specialize (Hf x). lia.
Qed.

Lemma len_nonneg {A : Type} (l : list A) : 0 <= Py.len l.
Proof. unfold Py.len. lia. Qed.

Lemma elem_of_range (a b x : Z) : In x (Py.range a b) <-> a <= x < b.
Proof.
  unfold Py.range. rewrite in_map_iff. split.
  - intros (i & <- & Hi). apply in_seq in Hi. lia.
  - intros Hx. exists (Z.to_nat (x - a)). split; [lia|]. apply in_seq. lia.
Qed.

End PyFacts.

Section LoopFacts.

Lemma for_each_app {A S : Type} (body : S -> A -> Py.Result S) (l1 l2 : list A) (s : S) :
  Py.for_each body (l1 ++ l2) s = Py.bind (Py.for_each body l1 s) (Py.for_each body l2).
Proof.
  revert s; induction l1 as [|x l1 IH]; intros s; simpl; [reflexivity|].
  destruct (body s x); simpl; [apply IH | reflexivity].
Qed.

(** Two nested loops visit the cells of the concatenated rows. *)
Lemma for_each_nested {A S : Type} (body : S -> A -> Py.Result S) (rows : list (list A)) (s : S) :
  Py.for_each (fun acc row => Py.for_each body row acc) rows s = Py.for_each body (concat rows) s.
Proof.
  revert s; induction rows as [|row rows IH]; intros s; simpl; [reflexivity|].
  rewrite for_each_app. destruct (Py.for_each body row s); simpl; [apply IH | reflexivity].
Qed.

Lemma range_cons (a b : Z) : a < b -> Py.range a b = a :: Py.range (a + 1) b.
Proof.
  intros Hab. unfold Py.range.
  replace (Z.to_nat (b - a)) with (S (Z.to_nat (b - (a + 1)))) by lia.
  simpl. f_equal; [lia|]. rewrite <- seq_shift, map_map.
  apply map_ext. intros i. lia.
Qed.

Lemma range_nil (a b : Z) : b <= a -> Py.range a b = [].
Proof. intros Hab. unfold Py.range. replace (Z.to_nat (b - a)) with O by lia. reflexivity. Qed.

End LoopFacts.

(** ** Binary64 facts *)

Section FloatFacts.

Import Float64.

Lemma round_small m e : 0 <= m < 2 ^ 53 -> round m e = Mk m e.
Proof.
  intros Hm. unfold round, prec.
  assert (Z.log2 m < 53).
  { destruct (Z.eq_dec m 0) as [->|]; [reflexivity|]. apply Z.log2_lt_pow2; lia. }
  destruct (Z.leb_spec (Z.log2 m + 1 - 53) 0); [reflexivity | lia].
Qed.

Lemma round_mant_pos m e : 0 < m -> 0 < mant (round m e).
Proof.
  intros Hm. unfold round, prec.
  destruct (Z.leb_spec (Z.log2 m + 1 - 53) 0) as [|Hs]; [exact Hm|].
  set (s := Z.log2 m + 1 - 53) in *.
  assert (0 < m / 2 ^ s).
  { apply Z.div_str_pos. split; [apply Z.pow_pos_nonneg; lia|].
    transitivity (2 ^ Z.log2 m); [apply Z.pow_le_mono_r; lia | apply Z.log2_spec; lia]. }
  destruct (_ || _); simpl; lia.
Qed.

Lemma int_mul_0_7_pos n : 0 < n -> 0 < mant (int_mul_0_7 n).
Proof.
  intros Hn. unfold int_mul_0_7, mul. apply round_mant_pos.
  pose proof (round_mant_pos n 0 Hn). unfold of_int. simpl. lia.
Qed.

(** [0 >= n * 0.7] is false for every positive [n]. *)
Lemma zero_below_0_7 n : 0 < n -> int_ge 0 (int_mul_0_7 n) = false.
Proof.
  intros Hn. pose proof (int_mul_0_7_pos n Hn) as Hm. unfold int_ge.
  destruct (0 <=? expo (int_mul_0_7 n)) eqn:He.
  - apply Z.leb_gt. apply Z.mul_pos_pos; [exact Hm|]. apply Z.pow_pos_nonneg; lia.
  - apply Z.leb_gt. lia.
Qed.

Lemma threshold_exact n k :
  0 <= n < 2 ^ 48 -> 0 <= k ->
  int_ge k (int_mul_0_7 n) = (7 * n <=? 10 * k).
Proof.
  intros Hn Hk. unfold int_mul_0_7, mul, of_int.
  rewrite (round_small n 0) by lia. simpl mant; simpl expo.
  set (M := 6305039478318694).
  change (2 ^ 48) with 281474976710656 in Hn.
  unfold round, prec.
  destruct (Z.leb_spec (Z.log2 (n * M) + 1 - 53) 0) as [Hs|Hs].
  - unfold int_ge; simpl. change (2 ^ (- (0 + -53))) with 9007199254740992.
    destruct (Z.leb_spec (n * M) (k * 9007199254740992));
      destruct (Z.leb_spec (7 * n) (10 * k)); try reflexivity; exfalso; subst M; lia.
  - assert (Hn0 : 0 < n) by (destruct (Z.eq_dec n 0) as [->|]; [simpl in Hs; lia | lia]).
    set (s := Z.log2 (n * M) + 1 - 53) in *.
    assert (HP : 0 < n * M) by (subst M; lia).
    assert (Hs48 : s <= 48).
    { assert (Z.log2 (n * M) < 101); [|lia].
      apply Z.log2_lt_pow2; [lia|]. change (2 ^ 101) with (281474976710656 * 9007199254740992).
      subst M. nia. }
    set (X := 2 ^ s). set (T := 2 ^ (53 - s)).
    assert (HXT : X * T = 9007199254740992).
    { subst X T. rewrite <- Z.pow_add_r by lia. replace (s + (53 - s)) with 53 by lia. reflexivity. }
    assert (HX : 0 < X) by (apply Z.pow_pos_nonneg; lia).
    assert (HX48 : X <= 281474976710656).
    { change 281474976710656 with (2 ^ 48). apply Z.pow_le_mono_r; lia. }
    assert (HT : 0 < T) by (apply Z.pow_pos_nonneg; lia).
    pose proof (Z.div_mod (n * M) X ltac:(lia)) as Hdm.
    pose proof (Z.mod_pos_bound (n * M) X HX) as Hr.
    set (q := n * M / X) in *. set (r := (n * M) mod X) in *.
    assert (Hcmp : forall m, (m = q \/ m = q + 1) ->
              (m <=? k * T) = (7 * n <=? 10 * k)).
    { intros m Hm.
      destruct (Z.leb_spec (7 * n) (10 * k)) as [Hle|Hgt].
      - apply Z.leb_le.
        assert (n * M < k * 9007199254740992) by (subst M; lia).
        assert (q * X < (k * T) * X) by nia.
        assert (q < k * T) by (apply (Z.mul_lt_mono_pos_r X); lia).
        lia.
      - apply Z.leb_gt.
        assert (k * 9007199254740992 + X <= n * M) by (subst M; lia).
        assert ((k * T + 1) * X <= n * M) by nia.
        assert ((k * T + 1) * X < (q + 1) * X) by nia.
        assert (k * T + 1 < q + 1) by (apply (Z.mul_lt_mono_pos_r X); lia).
        lia. }
    destruct (_ || _); unfold int_ge; simpl;
      (destruct (Z.leb_spec 0 (0 + -53 + s)); [lia|]);
      replace (- (0 + -53 + s)) with (53 - s) by lia; apply Hcmp; auto.
Qed.

Lemma agree_from_spec (count : nat) : forall n i,
  Binary64.agree_from count n = true -> n <= i < n + Z.of_nat count ->
  Binary64.agree_at i (Z.max 0 ((7 * i - 1) / 10)) = true.
Proof.
  induction count as [|count IH]; intros n i H Hi; [lia|].
  cbn [Binary64.agree_from] in H. apply andb_prop in H as [H1 H2].
  destruct (Z.eq_dec i n) as [->|]; [assumption|].
  apply (IH (n + 1)); [assumption | lia].
Qed.

Lemma agree_up_to_column_limit : Binary64.agree_from (Z.to_nat 18279) 0 = true.
Proof. vm_compute. reflexivity. Qed.

(** The same agreement on a thousand lengths just below 2^48, where the
    product is rounded to 53 bits from 101. *)
Lemma agree_below_bound : Binary64.agree_from (Z.to_nat 1000) (2 ^ 48 - 1000) = true.
Proof. vm_compute. reflexivity. Qed.

(** For every row length that a sheet can have (at most 18278 columns) the
    integer model computes the product and the two comparisons next to
    the threshold as the kernel's binary64 arithmetic does. *)
Lemma model_agrees_with_binary64 (n : Z) :
  0 <= n <= 18278 -> Binary64.agree_at n (Z.max 0 ((7 * n - 1) / 10)) = true.
Proof.
  intros Hn. apply (agree_from_spec (Z.to_nat 18279) 0 n agree_up_to_column_limit). lia.
Qed.

End FloatFacts.

(** ** Logging computations *)

Section IOFacts.

Lemma io_bind_Ok_inv {A B : Type} (m : Logging.IO A) (k : A -> Logging.IO B) log b log' :
  Logging.bind m k log = (Py.Ok b, log') ->
  exists a log1, m log = (Py.Ok a, log1) /\ k a log1 = (Py.Ok b, log').
Proof.
  unfold Logging.bind. destruct (m log) as [[a|e] log1]; intros H; [eauto | discriminate].
Qed.

Lemma io_for_each_inv {A S : Type} (P : S -> Prop) (body : S -> A -> Logging.IO S) (l : list A) :
  (forall s x log s' log', In x l -> P s -> body s x log = (Py.Ok s', log') -> P s') ->
  forall s log s' log', P s -> Logging.for_each body l s log = (Py.Ok s', log') -> P s'.
Proof.
  induction l as [|x l IH]; intros Hbody s log s' log' Hs H; simpl in H.
  - unfold Logging.ret in H. congruence.
  - apply io_bind_Ok_inv in H as (s1 & log1 & H1 & H2).
    eapply IH; [|eapply Hbody; [left; reflexivity|exact Hs|exact H1]|exact H2].
    intros; eapply Hbody; eauto. right; assumption.
Qed.

End IOFacts.

(** ** Complexity score *)

Section Complexity.

Import SpreadsheetAnalyzer Spec.

Lemma visual_count_catalogued sheet :
  catalogued sheet ->
  visual_count sheet = Spec.total (Spec.category_len sheet) Spec.catalog_categories.
Proof.
  unfold catalogued, visual_count, Spec.category_len, Py.dict_keys, Py.dict_values.
  destruct (SheetAnalysis.visual_elements sheet) as [|[k1 v1] [|[k2 v2] [|[k3 v3] [|[k4 v4] [|[k5 v5] [|[k6 v6] [|? ?]]]]]]];
    simpl; try discriminate.
  intros [= -> -> -> -> -> ->]. simpl. unfold Py.sum. simpl. lia.
Qed.

Lemma score_is_spec analysis :
  Forall catalogued (SpreadsheetAnalysis.sheets analysis) ->
  _calculate_complexity_score analysis = Spec.complexity (SpreadsheetAnalysis.sheets analysis).
Proof.
  intros Hcat. unfold _calculate_complexity_score, Spec.complexity.
  rewrite accumulate_total, !sum_total.
  unfold Spec.sheets_term, Spec.formulas_term, Spec.merged_term, Spec.styles_term.
  assert (Hv : Spec.total (fun sheet => Z.min (visual_count sheet * 2) 15) (SpreadsheetAnalysis.sheets analysis)
               = Spec.total Spec.visual_term (SpreadsheetAnalysis.sheets analysis)).
  { induction Hcat as [|sheet l Hs _ IH]; simpl; [reflexivity|].
    rewrite IH. unfold Spec.visual_term. rewrite (visual_count_catalogued _ Hs). f_equal. lia. }
  rewrite Hv. f_equal. lia.
Qed.

Lemma spec_complexity_bounds sheets : 0 <= Spec.complexity sheets <= 100.
Proof.
  unfold Spec.complexity.
  assert (0 <= Spec.sheets_term sheets) by (unfold Spec.sheets_term; pose proof (len_nonneg sheets); lia).
  assert (0 <= Spec.formulas_term sheets).
  { unfold Spec.formulas_term.
    pose proof (total_nonneg (fun sheet => Py.len (SheetAnalysis.formulas sheet)) sheets
                  (fun s => len_nonneg _)). lia. }
  assert (0 <= Spec.merged_term sheets).
  { unfold Spec.merged_term.
    pose proof (total_nonneg (fun sheet => Py.len (SheetAnalysis.merged_cells sheet)) sheets
                  (fun s => len_nonneg _)). lia. }
  assert (0 <= Spec.styles_term sheets).
  { unfold Spec.styles_term.
    assert (0 <= Spec.total (fun sheet => Z.of_nat (size (SheetAnalysis.styles_map sheet))) sheets)
      by (apply total_nonneg; intros; lia).
    assert (0 <= Spec.total (fun sheet => Z.of_nat (size (SheetAnalysis.styles_map sheet))) sheets / 10)
      by (apply Z.div_pos; lia).
    lia. }
  assert (0 <= Spec.total Spec.visual_term sheets).
  { apply total_nonneg. intros sheet. unfold Spec.visual_term.
    assert (0 <= Spec.total (Spec.category_len sheet) Spec.catalog_categories).
    { apply total_nonneg. intros k. unfold Spec.category_len.
      destruct (Py.dict_get _ _); [apply len_nonneg | lia]. }
    lia. }
  lia.
Qed.

End Complexity.

Section Outputs.

Import SpreadsheetAnalyzer Spec.

Lemma analyze_sheet_Ok sheet sheet_name log sa log' :
  _analyze_sheet sheet sheet_name log = (Py.Ok sa, log') ->
  exists ws,
    sheet = Sheet.Work ws
    /\ SheetAnalysis.name sa = sheet_name
    /\ SheetAnalysis.row_count sa = Worksheet.max_row ws
    /\ SheetAnalysis.column_count sa = Worksheet.max_column ws
    /\ _detect_headers ws = Py.Ok (SheetAnalysis.headers sa, SheetAnalysis.header_row sa)
    /\ _extract_formulas ws = Py.Ok (SheetAnalysis.formulas sa)
    /\ SheetAnalysis.merged_cells sa = Worksheet.merged_ranges ws
    /\ _map_cell_styles ws = Py.Ok (SheetAnalysis.styles_map sa)
    /\ _catalog_visual_elements ws = Py.Ok (SheetAnalysis.visual_elements sa)
    /\ _detect_data_types ws (SheetAnalysis.header_row sa) = Py.Ok (SheetAnalysis.data_types sa).
Proof.
  unfold _analyze_sheet. intros H.
  apply io_bind_Ok_inv in H as ([] & log1 & _ & H).
  unfold Logging.lift in H. injection H as H _.
  apply bind_Ok_inv in H as (ws & Hgrid & H).
  destruct sheet as [ws'|]; simpl in Hgrid; [|discriminate]. injection Hgrid as ->.
  apply bind_Ok_inv in H as ([headers header_row] & Hdet & H).
  apply bind_Ok_inv in H as (data_range & _ & H).
  apply bind_Ok_inv in H as (formulas & Hform & H).
  apply bind_Ok_inv in H as (styles_map & Hsty & H).
  apply bind_Ok_inv in H as (visual & Hvis & H).
  apply bind_Ok_inv in H as (data_types & Hdt & H).
  injection H as <-. simpl. exists ws. repeat split; assumption.
Qed.

Lemma catalog_keys ws d :
  _catalog_visual_elements ws = Py.Ok d -> Py.dict_keys d = Spec.catalog_categories.
Proof.
  unfold _catalog_visual_elements. intros H.
  apply bind_Ok_inv in H as (hyperlinks & _ & H). injection H as <-. reflexivity.
Qed.

(** What a successful run of the loop body adds to the analysis. *)
Lemma analyze_step_Ok wb analysis sheet_name log analysis' log' :
  analyze_step wb analysis sheet_name log = (Py.Ok analysis', log') ->
  exists sheet sa log1,
    Workbook.getitem wb sheet_name = Py.Ok sheet
    /\ _analyze_sheet sheet sheet_name log = (Py.Ok sa, log1)
    /\ SpreadsheetAnalysis.sheets analysis' = (SpreadsheetAnalysis.sheets analysis ++ [sa])%list.
Proof.
  unfold analyze_step. intros H.
  apply io_bind_Ok_inv in H as (sheet & log0 & Hget & H).
  unfold Logging.lift in Hget. injection Hget as Hget <-.
  apply io_bind_Ok_inv in H as (sa & log1 & Hsa & H).
  unfold Logging.ret in H. injection H as <- <-.
  exists sheet, sa, log1. repeat split; try assumption.
  destruct (SheetAnalysis.formulas sa), (SheetAnalysis.merged_cells sa); reflexivity.
Qed.

Lemma analyze_spreadsheet_Ok env info log analysis log' :
  analyze_spreadsheet env info log = (Py.Ok analysis, log') ->
  exists wb a0 log1 log2,
    Env.load_workbook env (SpreadsheetInfo.path info) = Py.Ok wb
    /\ Logging.for_each (analyze_step wb) (Workbook.sheetnames wb)
         (SpreadsheetAnalysis.Mk info [] ∅ false false 0 (Some (Env.timestamp_now env))) log1
       = (Py.Ok a0, log2)
    /\ SpreadsheetAnalysis.sheets analysis = SpreadsheetAnalysis.sheets a0
    /\ SpreadsheetAnalysis.complexity_score analysis = _calculate_complexity_score a0.
Proof.
  unfold analyze_spreadsheet. intros H.
  apply io_bind_Ok_inv in H as ([] & log1 & Hlog & H).
  unfold Logging.try_except in H.
  destruct (analyze_body env info log1) as [[a|e] log2] eqn:Hbody.
  - injection H as -> ->. unfold analyze_body in Hbody.
    apply io_bind_Ok_inv in Hbody as (wb & log3 & Hload & Hbody).
    unfold Logging.lift in Hload. injection Hload as Hload <-.
    apply io_bind_Ok_inv in Hbody as (a0 & log4 & Hloop & Hbody).
    apply io_bind_Ok_inv in Hbody as ([] & log5 & _ & Hbody).
    unfold Logging.ret in Hbody. injection Hbody as <- _.
    exists wb, a0, log1, log4. repeat split; assumption.
  - unfold analyze_handler in H.
    apply io_bind_Ok_inv in H as ([] & log3 & _ & H). discriminate.
Qed.

Lemma analyzed_sheets_catalogued env info log analysis log' :
  analyze_spreadsheet env info log = (Py.Ok analysis, log') ->
  Forall catalogued (SpreadsheetAnalysis.sheets analysis).
Proof.
  intros H. apply analyze_spreadsheet_Ok in H as (wb & a0 & log1 & log2 & _ & Hloop & -> & _).
  revert Hloop.
  apply (io_for_each_inv (fun a => Forall catalogued (SpreadsheetAnalysis.sheets a))).
  - intros s x l s' l' _ Hs Hstep.
    apply analyze_step_Ok in Hstep as (sheet & sa & l1 & _ & Hsa & ->).
    apply Forall_app; split; [assumption|]. constructor; [|constructor].
    apply analyze_sheet_Ok in Hsa as (ws & _ & _ & _ & _ & _ & _ & _ & _ & Hvis & _).
    exact (catalog_keys _ _ Hvis).
  - constructor.
Qed.

Lemma score_bounds analysis : 0 <= _calculate_complexity_score analysis <= 100.
Proof.
  unfold _calculate_complexity_score. rewrite accumulate_total, !sum_total.
  set (sheets := SpreadsheetAnalysis.sheets analysis).
  pose proof (len_nonneg sheets).
  pose proof (total_nonneg (fun sheet => Py.len (SheetAnalysis.formulas sheet)) sheets
                (fun s => len_nonneg _)).
  pose proof (total_nonneg (fun sheet => Py.len (SheetAnalysis.merged_cells sheet)) sheets
                (fun s => len_nonneg _)).
  assert (0 <= Spec.total (fun sheet => Z.min (visual_count sheet * 2) 15) sheets).
  { apply total_nonneg. intros sheet. unfold visual_count. rewrite sum_total.
    pose proof (total_nonneg (fun elements : list VisualElement => Py.len elements)
                  (Py.dict_values (SheetAnalysis.visual_elements sheet))
                  (fun l => len_nonneg l)).
    lia. }
  assert (0 <= Spec.total (fun sheet => Z.of_nat (size (SheetAnalysis.styles_map sheet))) sheets / 10).
  { apply Z.div_pos; [|lia]. apply total_nonneg. intros; lia. }
  lia.
Qed.

(** C1: for every analyzed workbook the complexity score is the sum,
    clamped to at most 100, of 5 per sheet capped at 20, 2 per formula
    capped at 30, 3 per merged range capped at 20, for each sheet 2 per
    visual element over the six catalog categories capped at 15 for that
    sheet, and the total number of style-map entries divided by 10 (integer
    division) capped at 15. The score lies between 0 and 100 for every
    input of the scorer. *)
Theorem complexity_score_formula :
  (forall analysis, 0 <= _calculate_complexity_score analysis <= 100)
  /\ (forall analysis,
        Forall catalogued (SpreadsheetAnalysis.sheets analysis) ->
        _calculate_complexity_score analysis
        = Spec.complexity (SpreadsheetAnalysis.sheets analysis))
  /\ (forall env info log analysis log',
        analyze_spreadsheet env info log = (Py.Ok analysis, log') ->
        SpreadsheetAnalysis.complexity_score analysis
        = Spec.complexity (SpreadsheetAnalysis.sheets analysis)
        /\ 0 <= SpreadsheetAnalysis.complexity_score analysis <= 100).
Proof.
  split; [exact score_bounds|]. split; [exact score_is_spec|].
  intros env info log analysis log' H.
  pose proof (analyzed_sheets_catalogued _ _ _ _ _ H) as Hcat.
  apply analyze_spreadsheet_Ok in H as (wb & a0 & log1 & log2 & _ & _ & Hs & ->).
  rewrite Hs in *. rewrite (score_is_spec a0 Hcat).
  split; [reflexivity | apply spec_complexity_bounds].
Qed.

End Outputs.

(** ** Header detection *)

Section Headers.

Import SpreadsheetAnalyzer Spec.

Lemma header_cell_value row_values has_text cell v :
  Cell.value cell = Py.Ok v ->
  header_cell (row_values, has_text) cell
  = Py.Ok ((row_values ++ [entry v])%list, has_text || textual v).
Proof.
  intros Hv. unfold header_cell, entry, textual. rewrite Hv. simpl.
  destruct (Py.is_none v) eqn:Hn; simpl.
  - now rewrite orb_false_r.
  - destruct (Py.isinstance_str v && Py.str_truthy (Py.strip (Py.str v))) eqn:Ht;
      rewrite ?Ht; simpl; [now rewrite orb_true_r | now rewrite orb_false_r].
Qed.

Lemma header_cells_Ok cells : forall row_values has_text row_values' has_text',
  Py.for_each header_cell cells (row_values, has_text) = Py.Ok (row_values', has_text') ->
  exists vs,
    Forall2 (fun cell v => Cell.value cell = Py.Ok v) cells vs
    /\ row_values' = (row_values ++ map entry vs)%list
    /\ has_text' = has_text || existsb textual vs.
Proof.
  induction cells as [|cell cells IH]; intros rv ht rv' ht' H; cbn [Py.for_each] in H.
  - injection H as <- <-. exists []. simpl. rewrite app_nil_r, orb_false_r. auto.
  - apply bind_Ok_inv in H as ([rv1 ht1] & Hc & H).
    destruct (Cell.value cell) as [v|e] eqn:Hv.
    + rewrite (header_cell_value _ _ _ _ Hv) in Hc. injection Hc as <- <-.
      apply IH in H as (vs & Hvs & -> & ->). exists (v :: vs). simpl.
      rewrite <- app_assoc, orb_assoc. auto.
    + unfold header_cell in Hc. rewrite Hv in Hc. discriminate.
Qed.

Lemma header_cells_values cells vs : forall row_values has_text,
  Forall2 (fun cell v => Cell.value cell = Py.Ok v) cells vs ->
  Py.for_each header_cell cells (row_values, has_text)
  = Py.Ok ((row_values ++ map entry vs)%list, has_text || existsb textual vs).
Proof.
  intros rv ht H. revert rv ht.
  induction H as [|cell v cells vs Hv _ IH]; intros rv ht; cbn [Py.for_each map existsb].
  - now rewrite app_nil_r, orb_false_r.
  - rewrite (header_cell_value _ _ _ _ Hv). cbn [Py.bind]. rewrite IH, <- app_assoc, orb_assoc. reflexivity.
Qed.

Lemma textual_entry_truthy v : textual v = true -> Py.str_truthy (entry v) = true.
Proof.
  unfold textual, entry. destruct (Py.is_none v); simpl; [discriminate|].
  intros H. rewrite H. now apply andb_prop in H as [_ H].
Qed.

(** A scanned row that has text has a non-empty entry. *)
Lemma scanned_text_any ws row_num row_values :
  header_scan ws row_num = Py.Ok (row_values, true) ->
  existsb Py.str_truthy row_values = true.
Proof.
  unfold header_scan. intros H. apply header_cells_Ok in H as (vs & _ & -> & Ht).
  simpl in *. symmetry in Ht. apply existsb_exists in Ht as (v & Hin & Hv).
  apply existsb_exists. exists (entry v). split; [now apply in_map | now apply textual_entry_truthy].
Qed.

Lemma sum_ones {A : Type} (l : list A) : Py.sum (map (fun _ => 1) l) = Py.len l.
Proof.
  rewrite sum_total. unfold Py.len. induction l as [|x l IH]; simpl Spec.total; [reflexivity|].
  rewrite IH. simpl length. lia.
Qed.

Lemma text_count_nonneg row_values : 0 <= text_count row_values.
Proof. unfold text_count. rewrite sum_ones. apply len_nonneg. Qed.

(** The test on the entries of a scanned row that contains text: the
    comparison with the floating-point product [len * 0.7] is inclusive
    at the boundary, for fewer than 2^48 non-empty entries. *)
Lemma threshold_on_entries ws row_num row_values :
  header_scan ws row_num = Py.Ok (row_values, true) ->
  Py.len (non_empty row_values) < 2 ^ 48 ->
  (row_qualifies row_values true = true
   <-> 7 * Py.len (non_empty row_values) <= 10 * text_count row_values).
Proof.
  intros Hscan Hlen. unfold row_qualifies.
  rewrite (scanned_text_any _ _ _ Hscan). simpl.
  rewrite threshold_exact by (pose proof (len_nonneg (non_empty row_values));
                              pose proof (text_count_nonneg row_values); lia).
  apply Z.leb_le.
Qed.


Lemma detect_range ws (n : nat) : forall a b headers hr,
  Z.to_nat (b - a) = n ->
  detect_from ws (Py.range a b) = Py.Ok (headers, hr) ->
  match hr with
  | Some r => a <= r < b /\ qualified ws r headers /\ (forall r', a <= r' < r -> disqualified ws r')
  | None => headers = [] /\ (forall r', a <= r' < b -> disqualified ws r')
  end.
Proof.
  induction n as [|n IH]; intros a b headers hr Hn H.
  - rewrite range_nil in H by lia. injection H as <- <-. split; [reflexivity | intros; lia].
  - rewrite range_cons in H by lia. cbn [detect_from] in H.
    apply bind_Ok_inv in H as ([rv ht] & Hscan & H).
    destruct (row_qualifies rv ht) eqn:Hq.
    + injection H as <- <-. split; [lia|]. split; [exists rv, ht; auto | intros; lia].
    + apply IH in H; [|lia].
      assert (Ha : disqualified ws a) by (exists rv, ht; auto).
      destruct hr as [r|].
      * destruct H as (Hr & Hqual & Hbefore). split; [lia|]. split; [assumption|].
        intros r' Hr'. destruct (Z.eq_dec r' a) as [->|]; [assumption | apply Hbefore; lia].
      * destruct H as (-> & Hall). split; [reflexivity|].
        intros r' Hr'. destruct (Z.eq_dec r' a) as [->|]; [assumption | apply Hall; lia].
Qed.

Lemma detect_none ws (rows : list Z) :
  (forall r, In r rows -> disqualified ws r) -> detect_from ws rows = Py.Ok ([], None).
Proof.
  induction rows as [|r rows IH]; intros H; cbn [detect_from]; [reflexivity|].
  destruct (H r (or_introl eq_refl)) as (rv & ht & -> & Hq). cbn [Py.bind]. rewrite Hq.
  apply IH. intros r' Hr'. apply H. now right.
Qed.



Lemma Forall2_choice {A B : Type} (R : A -> B -> Prop) (l : list A) :
  (forall x, In x l -> exists y, R x y) -> exists l', Forall2 R l l'.
Proof.
  induction l as [|x l IH]; intros H; [exists []; constructor|].
  destruct (H x (or_introl eq_refl)) as (y & Hy).
  destruct IH as (l' & Hl'); [intros; apply H; now right|].
  exists (y :: l'). now constructor.
Qed.

Lemma plain_row_disqualified ws (r : Z) :
  (forall c, 1 <= c <= Worksheet.max_column ws -> plain (Worksheet.cells ws r c)) ->
  disqualified ws r.
Proof.
  intros Hplain.
  set (cells := map (fun col_num => Worksheet.cell ws r col_num)
                    (Py.range 1 (Worksheet.max_column ws + 1))).
  destruct (Forall2_choice
              (fun cell v => Cell.value cell = Py.Ok v /\ counts_as_text (entry v) = false) cells)
    as (vs & Hvs).
  { intros cell Hin. apply in_map_iff in Hin as (c & <- & Hc). apply elem_of_range in Hc.
    apply Hplain. lia. }
  assert (Hval : Forall2 (fun cell v => Cell.value cell = Py.Ok v) cells vs)
    by (eapply Forall2_impl; [exact Hvs | now intros ? ? []]).
  assert (Hno : Forall (fun v => counts_as_text (entry v) = false) vs).
  { clear Hval. induction Hvs as [|? ? ? ? [_ ?] _ IH]; constructor; auto. }
  exists (map entry vs), (existsb textual vs). split.
  - unfold header_scan. fold cells. now rewrite (header_cells_values _ _ [] false Hval).
  - unfold row_qualifies.
    assert (Htc : text_count (map entry vs) = 0).
    { unfold text_count. rewrite sum_ones.
      replace (List.filter _ (map entry vs)) with (@nil string); [reflexivity|].
      clear -Hno. induction Hno as [|v vs Hv _ IH]; [reflexivity|].
      cbn [map List.filter]. unfold counts_as_text in Hv. now rewrite Hv. }
    rewrite Htc.
    destruct (existsb Py.str_truthy (map entry vs)) eqn:Hany; [|now rewrite andb_false_r].
    rewrite zero_below_0_7; [now rewrite andb_false_r|].
    apply existsb_exists in Hany as (x & Hin & Hx).
    unfold Py.len, non_empty.
    assert (In x (List.filter (fun v => Py.str_truthy v) (map entry vs)))
      by (apply filter_In; auto).
    destruct (List.filter _ _); [contradiction | simpl; lia].
Qed.

Lemma textless_row_disqualified ws (r : Z) :
  (forall c, 1 <= c <= Worksheet.max_column ws -> textless (Worksheet.cells ws r c)) ->
  disqualified ws r.
Proof.
  intros Hless.
  set (cells := map (fun col_num => Worksheet.cell ws r col_num)
                    (Py.range 1 (Worksheet.max_column ws + 1))).
  destruct (Forall2_choice
              (fun cell v => Cell.value cell = Py.Ok v /\ textual v = false) cells)
    as (vs & Hvs).
  { intros cell Hin. apply in_map_iff in Hin as (c & <- & Hc). apply elem_of_range in Hc.
    apply Hless. lia. }
  assert (Hval : Forall2 (fun cell v => Cell.value cell = Py.Ok v) cells vs)
    by (eapply Forall2_impl; [exact Hvs | now intros ? ? []]).
  assert (Hno : existsb textual vs = false).
  { clear Hval. induction Hvs as [|? v ? ? [_ Hv] _ IH]; [reflexivity|].
    cbn [existsb]. now rewrite Hv, IH. }
  exists (map entry vs), false. split; [|reflexivity].
  unfold header_scan. fold cells. rewrite (header_cells_values _ _ [] false Hval).
  now rewrite Hno.
Qed.

End Headers.

Section HeaderWindow.

Import SpreadsheetAnalyzer Spec.

Lemma detect_headers_found ws headers r :
  _detect_headers ws = Py.Ok (headers, Some r) ->
  1 <= r <= 5 /\ r <= Worksheet.max_row ws /\ qualified ws r headers
  /\ (forall r', 1 <= r' < r -> disqualified ws r').
Proof.
  unfold _detect_headers. intros H.
  apply (detect_range ws _ _ _ _ _ eq_refl) in H as (Hr & Hq & Hbefore).
  repeat split; try assumption; lia.
Qed.

Lemma detect_headers_plain ws :
  (forall r, 1 <= r <= 5 -> r <= Worksheet.max_row ws ->
     (forall c, 1 <= c <= Worksheet.max_column ws -> plain (Worksheet.cells ws r c))
     \/ (forall c, 1 <= c <= Worksheet.max_column ws -> textless (Worksheet.cells ws r c))) ->
  _detect_headers ws = Py.Ok ([], None).
Proof.
  intros Hrows. unfold _detect_headers. apply detect_none.
  intros r Hr. apply elem_of_range in Hr.
  destruct (Hrows r) as [Hplain|Hless]; try lia.
  - now apply plain_row_disqualified.
  - now apply textless_row_disqualified.
Qed.


End HeaderWindow.

(** ** The header rule on the values of a row *)

Section HeaderRuleFacts.

Import SpreadsheetAnalyzer Spec HeaderRule.

Lemma entry_truthy v : Py.str_truthy (entry v) = filled v.
Proof.
  unfold entry, filled. destruct (Py.is_none v) eqn:Hn; [reflexivity|]. cbn [negb andb].
  destruct (Py.isinstance_str v && Py.str_truthy (Py.strip (Py.str v))) eqn:Ht; [|reflexivity].
  apply andb_prop in Ht as [_ Ht]. rewrite Ht.
  destruct (Py.str v); [discriminate Ht|reflexivity].
Qed.

Lemma counts_as_text_wordy v : counts_as_text (entry v) = wordy v.
Proof. unfold counts_as_text, wordy, not_pure_number, pure_numeric. now rewrite entry_truthy. Qed.

Lemma count_nonneg {A : Type} (f : A -> bool) (l : list A) : 0 <= count f l.
Proof. unfold count. induction l as [|x l IH]; cbn [total]; [lia|]. destruct (f x); lia. Qed.

Lemma count_le_len {A : Type} (f : A -> bool) (l : list A) : count f l <= Py.len l.
Proof.
  unfold count, Py.len. induction l as [|x l IH]; cbn [total length]; [lia|].
  destruct (f x); lia.
Qed.

Lemma len_filter_map {A B : Type} (g : A -> B) (f : B -> bool) (l : list A) :
  Py.len (List.filter f (map g l)) = count (fun x => f (g x)) l.
Proof.
  unfold Py.len, count. induction l as [|x l IH]; cbn [map List.filter total]; [reflexivity|].
  destruct (f (g x)); cbn [length]; lia.
Qed.

Lemma count_ext {A : Type} (f g : A -> bool) (l : list A) :
  (forall x, f x = g x) -> count f l = count g l.
Proof.
  intros H. unfold count. induction l as [|x l IH]; cbn [total]; [reflexivity|].
  now rewrite H, IH.
Qed.

Lemma text_count_values vs : text_count (map entry vs) = count wordy vs.
Proof.
  unfold text_count. rewrite sum_ones.
  rewrite (len_filter_map entry (fun val => Py.str_truthy val && not_pure_number val)).
  apply count_ext. intros v. exact (counts_as_text_wordy v).
Qed.

Lemma non_empty_values vs : non_empty (map entry vs) = labels vs.
Proof.
  unfold non_empty, labels. induction vs as [|v vs IH]; cbn [map List.filter]; [reflexivity|].
  rewrite entry_truthy. destruct (filled v); cbn [map]; now rewrite IH.
Qed.

Lemma len_labels vs : Py.len (labels vs) = count filled vs.
Proof.
  unfold labels, Py.len, count. rewrite length_map.
  induction vs as [|v vs IH]; cbn [List.filter total]; [reflexivity|].
  destruct (filled v); cbn [length]; lia.
Qed.

Lemma any_entry_of_text vs : holds_text vs = true -> existsb Py.str_truthy (map entry vs) = true.
Proof.
  unfold holds_text. intros H. apply existsb_exists in H as (v & Hin & Hv).
  apply existsb_exists. exists (entry v). split; [now apply in_map|now apply textual_entry_truthy].
Qed.

(** The test of the code on the entries of a row is the header rule on
    its values. *)
Lemma row_qualifies_passes vs :
  count filled vs < 2 ^ 48 ->
  row_qualifies (map entry vs) (holds_text vs) = passes vs.
Proof.
  intros Hlen. unfold row_qualifies, passes.
  destruct (holds_text vs) eqn:Ht; [|reflexivity].
  rewrite (any_entry_of_text vs Ht). cbn [andb].
  rewrite non_empty_values, len_labels, text_count_values.
  apply threshold_exact; [|apply count_nonneg].
  split; [apply count_nonneg|exact Hlen].
Qed.

Lemma values_read ws r :
  readable ws r ->
  Forall2 (fun cell v => Cell.value cell = Py.Ok v)
    (map (fun col_num => Worksheet.cell ws r col_num) (Py.range 1 (Worksheet.max_column ws + 1)))
    (values ws r).
Proof.
  intros Hread. unfold values.
  assert (H : forall c, In c (Py.range 1 (Worksheet.max_column ws + 1)) ->
                        1 <= c <= Worksheet.max_column ws)
    by (intros c Hc; apply elem_of_range in Hc; lia).
  induction (Py.range 1 (Worksheet.max_column ws + 1)) as [|c l IH]; cbn [map]; constructor.
  - destruct (Hread c (H c (or_introl eq_refl))) as (v & Hv).
    unfold Cell.value, Worksheet.cell. cbn. now rewrite Hv.
  - apply IH. intros c' Hc'. apply H. now right.
Qed.

Lemma header_scan_values ws r :
  readable ws r ->
  header_scan ws r = Py.Ok (map entry (values ws r), holds_text (values ws r)).
Proof.
  intros Hread. unfold header_scan.
  now rewrite (header_cells_values _ _ [] false (values_read ws r Hread)).
Qed.

Lemma count_values_bound ws r (f : Py.Value -> bool) :
  Worksheet.max_column ws < 2 ^ 48 -> count f (values ws r) < 2 ^ 48.
Proof.
  intros Hc. pose proof (count_le_len f (values ws r)) as Hle.
  assert (Hlen : Py.len (values ws r) = Z.of_nat (Z.to_nat (Worksheet.max_column ws + 1 - 1))).
  { unfold values, Py.len, Py.range. now rewrite !length_map, length_seq. }
  change (2 ^ 48) with 281474976710656 in *. lia.
Qed.

Lemma qualified_passes ws r :
  readable ws r -> Worksheet.max_column ws < 2 ^ 48 ->
  (exists headers, qualified ws r headers) <-> passes (values ws r) = true.
Proof.
  intros Hread Hc. pose proof (header_scan_values ws r Hread) as Hscan.
  pose proof (row_qualifies_passes (values ws r) (count_values_bound ws r filled Hc)) as Hq.
  split.
  - intros (headers & rv & ht & Hs & Hrq & _). rewrite Hscan in Hs. injection Hs as <- <-.
    now rewrite <- Hq.
  - intros Hp.
    exists (non_empty (map entry (values ws r))), (map entry (values ws r)),
      (holds_text (values ws r)).
    split; [exact Hscan|]. split; [now rewrite Hq|reflexivity].
Qed.

Lemma detect_step ws r rest :
  readable ws r -> Worksheet.max_column ws < 2 ^ 48 ->
  detect_from ws (r :: rest)
  = if passes (values ws r) then Py.Ok (labels (values ws r), Some r)
    else detect_from ws rest.
Proof.
  intros Hread Hc. cbn [detect_from]. rewrite (header_scan_values ws r Hread). cbn [Py.bind].
  rewrite (row_qualifies_passes (values ws r) (count_values_bound ws r filled Hc)).
  now rewrite non_empty_values.
Qed.




End HeaderRuleFacts.

Section HeaderRuleClaims.

Import SpreadsheetAnalyzer Spec HeaderRule.

(** C5: a scanned row that holds text qualifies as the header row exactly
    when its values that are not pure numeric strings (digits only once
    '.' and ',' are taken out) are at least 70 percent of its non-empty
    values, the boundary included: the comparison with the floating-point
    product [len * 0.7] agrees with [7 * non-empty <= 10 * non-numeric].
    Such a row ends the scan with its row number and the texts of its
    non-empty values; a row below the threshold is passed over. Blank
    cells do not count on either side. The sheet has fewer than 2^48
    columns, so that the length is an exact [float]. *)
Theorem header_threshold_inclusive ws row_num :
  readable ws row_num -> Worksheet.max_column ws < 2 ^ 48 ->
  holds_text (values ws row_num) = true ->
  ((exists headers, qualified ws row_num headers)
   <-> 7 * count filled (values ws row_num) <= 10 * count wordy (values ws row_num))
  /\ (forall rest,
        7 * count filled (values ws row_num) <= 10 * count wordy (values ws row_num) ->
        detect_from ws (row_num :: rest)
        = Py.Ok (labels (values ws row_num), Some row_num))
  /\ (forall rest,
        10 * count wordy (values ws row_num) < 7 * count filled (values ws row_num) ->
        detect_from ws (row_num :: rest) = detect_from ws rest).
Proof.
  intros Hread Hc Ht.
  assert (Hp : passes (values ws row_num)
               = (7 * count filled (values ws row_num) <=? 10 * count wordy (values ws row_num)))
    by (unfold passes; now rewrite Ht).
  split; [|split].
  - rewrite (qualified_passes ws row_num Hread Hc), Hp. apply Z.leb_le.
  - intros rest Hle. rewrite (detect_step ws row_num rest Hread Hc), Hp.
    apply Z.leb_le in Hle. now rewrite Hle.
  - intros rest Hlt. rewrite (detect_step ws row_num rest Hread Hc), Hp.
    apply Z.leb_gt in Hlt. now rewrite Hlt.
Qed.


End HeaderRuleClaims.

Section Cells.

Import SpreadsheetAnalyzer Spec.

(** The cells that [iter_rows] yields are those of the grid from (1, 1) to
    ([max_row], [max_column]). *)
Lemma in_iter_rows ws cell :
  In cell (concat (Worksheet.iter_rows ws)) <->
  exists r c, 1 <= r <= Worksheet.max_row ws /\ 1 <= c <= Worksheet.max_column ws
              /\ cell = Worksheet.cell ws r c.
Proof.
  unfold Worksheet.iter_rows. rewrite in_concat. split.
  - intros (row & Hrow & Hin). apply in_map_iff in Hrow as (r & <- & Hr).
    apply in_map_iff in Hin as (c & <- & Hc). apply elem_of_range in Hr, Hc.
    exists r, c. repeat split; lia.
  - intros (r & c & Hr & Hc & ->).
    exists (map (fun c => Worksheet.cell ws r c) (Py.range 1 (Worksheet.max_column ws + 1))).
    split; apply in_map_iff; [exists r | exists c]; (split; [reflexivity | apply elem_of_range; lia]).
Qed.

Lemma coordinate_Ok cell :
  1 <= Cell.column cell <= 18278 -> exists key, Cell.coordinate cell = Py.Ok key.
Proof.
  intros Hc. unfold Cell.coordinate, get_column_letter.
  destruct (Z.leb_spec 1 (Cell.column cell)); [|lia].
  destruct (Z.leb_spec (Cell.column cell) 18278); [|lia]. simpl. eauto.
Qed.

(** *** Styles *)

Lemma style_wanted_true cell :
  style_wanted cell = Py.Ok true <->
  (exists v, Cell.value cell = Py.Ok v /\ v <> Py.VNone)
  \/ (Cell.value cell = Py.Ok Py.VNone /\ _has_custom_style cell = Py.Ok true).
Proof.
  unfold style_wanted. destruct (Cell.value cell) as [v|e]; simpl.
  - destruct v; simpl; split; intros H;
      try (left; eexists; split; [reflexivity | discriminate]); try reflexivity.
    + right. auto.
    + destruct H as [(v & [= <-] & Hv) | [_ H]]; [contradiction | assumption].
  - split; [discriminate|]. intros [(v & H & _) | [H _]]; discriminate.
Qed.

Lemma style_cells_Ok cells : forall (m m' : gmap string CellStyle.t),
  Py.for_each style_cell cells m = Py.Ok m' ->
  (forall key, is_Some (m !! key) -> is_Some (m' !! key))
  /\ (forall cell, In cell cells -> style_wanted cell = Py.Ok true ->
        exists key, Cell.coordinate cell = Py.Ok key /\ is_Some (m' !! key))
  /\ (forall key, is_Some (m' !! key) ->
        is_Some (m !! key)
        \/ exists cell, In cell cells /\ style_wanted cell = Py.Ok true
                        /\ Cell.coordinate cell = Py.Ok key).
Proof.
  induction cells as [|cell cells IH]; intros m m' H; cbn [Py.for_each] in H.
  - injection H as <-. split; [auto|]. split; [intros ? []|auto].
  - apply bind_Ok_inv in H as (m1 & Hcell & H).
    apply IH in H as (Hmono & Hin & Hkeys).
    unfold style_cell in Hcell.
    apply bind_Ok_inv in Hcell as (wanted & Hw & Hcell).
    destruct wanted.
    + apply bind_Ok_inv in Hcell as (coord & Hcoord & [= <-]).
      split; [|split].
      * intros key Hk. apply Hmono. rewrite lookup_insert.
        destruct (decide (coord = key)); [eauto | assumption].
      * intros cell' [<-|Hin'] Hw'.
        -- exists coord. split; [assumption|]. apply Hmono. rewrite lookup_insert_eq. eauto.
        -- now apply Hin.
      * intros key Hk. apply Hkeys in Hk as [Hk | (cell' & Hin' & Hw' & Hc')].
        -- rewrite lookup_insert in Hk. destruct (decide (coord = key)) as [<-|].
           ++ right. exists cell. auto using in_eq.
           ++ now left.
        -- right. exists cell'. auto using in_cons.
    + injection Hcell as <-. split; [assumption|]. split.
      * intros cell' [<-|Hin'] Hw'; [congruence | now apply Hin].
      * intros key Hk. apply Hkeys in Hk as [Hk | (cell' & Hin' & Hw' & Hc')]; [now left|].
        right. exists cell'. auto using in_cons.
Qed.

Lemma style_cells_total cells : forall (m : gmap string CellStyle.t),
  Forall (fun cell => (exists w, style_wanted cell = Py.Ok w)
                      /\ exists key, Cell.coordinate cell = Py.Ok key) cells ->
  exists m', Py.for_each style_cell cells m = Py.Ok m'.
Proof.
  intros m H. revert m. induction H as [|cell cells [[w Hw] [key Hkey]] _ IH]; intros m.
  - cbn. eauto.
  - cbn [Py.for_each]. unfold style_cell at 1. rewrite Hw. cbn [Py.bind].
    destruct w; [rewrite Hkey; cbn [Py.bind]|]; apply IH.
Qed.

Lemma has_custom_style_total cell :
  Cell.fill cell <> Some Fill.GradientFill -> exists b, _has_custom_style cell = Py.Ok b.
Proof.
  intros Hf. unfold _has_custom_style, fill_is_custom.
  destruct (font_is_custom cell); [eauto|].
  destruct (Cell.fill cell) as [[[?|]|]|]; cbn [Py.bind]; try contradiction;
    repeat (match goal with |- context [if ?b then _ else _] => destruct b end); eauto.
Qed.

(** In the styles map of a sheet, every cell of the grid whose value is
    not [None] has its coordinate as a key, whatever its styling, and
    every key is the coordinate of a cell of the grid that holds a value
    or for which [_has_custom_style] answers yes. The scan returns such a
    map whenever the sheet has at most 18278 columns, every value is
    readable and no blank cell has a gradient fill. *)
Lemma styles_map_coverage (ws : Worksheet.t) :
  (styles_readable ws -> exists m, _map_cell_styles ws = Py.Ok m)
  /\ forall m, _map_cell_styles ws = Py.Ok m ->
       (forall r c v,
           1 <= r <= Worksheet.max_row ws -> 1 <= c <= Worksheet.max_column ws ->
           Cell.value (Worksheet.cell ws r c) = Py.Ok v -> v <> Py.VNone ->
           exists key, Cell.coordinate (Worksheet.cell ws r c) = Py.Ok key /\ is_Some (m !! key))
       /\ (forall key, is_Some (m !! key) ->
             exists r c,
               1 <= r <= Worksheet.max_row ws /\ 1 <= c <= Worksheet.max_column ws
               /\ Cell.coordinate (Worksheet.cell ws r c) = Py.Ok key
               /\ ((exists v, Cell.value (Worksheet.cell ws r c) = Py.Ok v /\ v <> Py.VNone)
                   \/ _has_custom_style (Worksheet.cell ws r c) = Py.Ok true)).
Proof.
  unfold _map_cell_styles. rewrite for_each_nested. split.
  - intros [Hcols Hread]. apply style_cells_total. apply Forall_forall.
    intros cell Hin. apply list_elem_of_In, in_iter_rows in Hin as (r & c & Hr & Hc & ->). split.
    + destruct (Hread r c Hr Hc) as (v & Hv & Hfill). unfold style_wanted, Cell.value. cbn.
      rewrite Hv. cbn. destruct (Py.is_none v) eqn:Hn; cbn; [|eauto].
      apply has_custom_style_total. apply Hfill. now destruct v.
    + apply coordinate_Ok. cbn. lia.
  - intros m H. apply style_cells_Ok in H as (_ & Hin & Hkeys). split.
    + intros r c v Hr Hc Hv Hnn. apply Hin.
      * apply in_iter_rows. eauto 6.
      * apply style_wanted_true. left. eauto.
    + intros key Hk. apply Hkeys in Hk as [Hk | (cell & Hcell & Hw & Hcoord)].
      * rewrite lookup_empty in Hk. now destruct Hk.
      * apply in_iter_rows in Hcell as (r & c & Hr & Hc & ->).
        exists r, c. repeat split; try lia; try assumption.
        apply style_wanted_true in Hw as [Hv | [_ Hcs]]; auto.
Qed.

End Cells.

(** ** Blank cells with the default style objects *)

Section DefaultStyles.

Import SpreadsheetAnalyzer Spec.

Lemma style_cells_wanted cells : forall (m m' : gmap string CellStyle.t) cell,
  Py.for_each style_cell cells m = Py.Ok m' -> In cell cells ->
  exists w, style_wanted cell = Py.Ok w.
Proof.
  induction cells as [|x cells IH]; intros m m' cell H Hin; [contradiction|].
  cbn [Py.for_each] in H. apply bind_Ok_inv in H as (m1 & Hx & H).
  destruct Hin as [-> | Hin]; [|eauto].
  unfold style_cell in Hx. destruct (style_wanted cell) as [w|e]; [eauto|discriminate].
Qed.

(** A border object with a side object passes the border test, whatever
    the style of the side. *)
Lemma side_makes_custom cell border side b :
  Cell.border cell = Some border -> Border.left border = Some side ->
  _has_custom_style cell = Py.Ok b -> b = true.
Proof.
  intros Hb Hs. unfold _has_custom_style, border_is_custom, any_side. rewrite Hb, Hs. cbn.
  destruct (font_is_custom cell); [congruence|].
  destruct (fill_is_custom cell) as [[|]|e]; cbn; congruence.
Qed.

(** C8, on the code: a cell that was never written carries the default
    border, an object whose four sides are objects too; the border test of
    [_has_custom_style] asks whether the sides are truthy, which every
    side object is, so the test answers yes and the blank cell gets an
    entry in the styles map although it is empty and has no formatting of
    its own. *)
Theorem blank_default_cells_are_keys ws (m : gmap string CellStyle.t) r c border side :
  _map_cell_styles ws = Py.Ok m ->
  1 <= r <= Worksheet.max_row ws -> 1 <= c <= Worksheet.max_column ws ->
  Cell.value (Worksheet.cell ws r c) = Py.Ok Py.VNone ->
  Cell.border (Worksheet.cell ws r c) = Some border ->
  Border.left border = Some side ->
  _has_custom_style (Worksheet.cell ws r c) = Py.Ok true
  /\ exists key,
       Cell.coordinate (Worksheet.cell ws r c) = Py.Ok key /\ is_Some (m !! key).
Proof.
  intros Hm Hr Hc Hv Hb Hs. unfold _map_cell_styles in Hm. rewrite for_each_nested in Hm.
  assert (Hin : In (Worksheet.cell ws r c) (concat (Worksheet.iter_rows ws)))
    by (apply in_iter_rows; eauto 6).
  destruct (style_cells_wanted _ _ _ _ Hm Hin) as (w & Hw).
  assert (Hcs : _has_custom_style (Worksheet.cell ws r c) = Py.Ok true).
  { unfold style_wanted in Hw. rewrite Hv in Hw. cbn in Hw.
    rewrite Hw. f_equal. exact (side_makes_custom _ _ _ _ Hb Hs Hw). }
  split; [exact Hcs|].
  apply style_cells_Ok in Hm as (_ & Hkeys & _). apply Hkeys; [exact Hin|].
  apply style_wanted_true. right. auto.
Qed.


End DefaultStyles.

Section Formulas.

Import SpreadsheetAnalyzer Spec.

Lemma formula_cells_Ok cells : forall acc,
  Forall (fun cell => is_formula cell = true ->
                      (exists v, Cell.value cell = Py.Ok v)
                      /\ exists a, Cell.coordinate cell = Py.Ok a) cells ->
  exists infos,
    Py.for_each formula_cell cells acc = Py.Ok (acc ++ infos)%list
    /\ Forall2 recorded (List.filter is_formula cells) infos.
Proof.
  intros acc H. revert acc. induction H as [|cell cells Hcell _ IH]; intros acc.
  - exists []. cbn. rewrite app_nil_r. split; [reflexivity | constructor].
  - cbn [Py.for_each List.filter]. unfold formula_cell at 1. fold (is_formula cell).
    destruct (is_formula cell) eqn:Hf.
    + destruct (Hcell eq_refl) as [[v Hv] [a Ha]]. rewrite Ha, Hv. cbn [Py.bind].
      destruct (IH (acc ++ [CellInfo.Mk (Cell.row cell) (Cell.column cell) a v CellType.FORMULA
                              (_extract_cell_style cell) (Some v) false None])%list)
        as (infos & -> & Hrec).
      eexists (_ :: infos). rewrite <- app_assoc. split; [reflexivity|].
      constructor; [|assumption]. exists a, v. auto.
    + cbn [Py.bind]. apply IH.
Qed.

Lemma formula_cells_raise cells : forall acc cell e,
  In cell cells -> is_formula cell = true -> Cell.value cell = Py.Raise e ->
  exists e', Py.for_each formula_cell cells acc = Py.Raise e'.
Proof.
  induction cells as [|x cells IH]; intros acc cell e Hin Hf Hv; [contradiction|].
  cbn [Py.for_each]. destruct (formula_cell acc x) as [acc'|e'] eqn:Hx; cbn [Py.bind]; [|eauto].
  destruct Hin as [->|Hin]; [|eauto].
  unfold formula_cell in Hx. fold (is_formula cell) in Hx. rewrite Hf, Hv in Hx.
  destruct (Cell.coordinate cell); discriminate.
Qed.

(** C3, as the code has it: the formula scan has no handler around a cell.
    When reading the value of a formula cell raises, the scan raises: no
    cell is skipped and no list is returned; the exception is the one of
    the first such cell in iteration order. When every formula cell is
    readable (and the sheet has at most 18278 columns), the scan returns
    exactly one FORMULA [CellInfo] per formula cell, in iteration order. *)
Theorem formula_scan_propagates (ws : Worksheet.t) :
  (forall r c e,
      1 <= r <= Worksheet.max_row ws -> 1 <= c <= Worksheet.max_column ws ->
      is_formula (Worksheet.cell ws r c) = true ->
      Cell.value (Worksheet.cell ws r c) = Py.Raise e ->
      exists e', _extract_formulas ws = Py.Raise e')
  /\ (forall before cell after e,
        concat (Worksheet.iter_rows ws) = (before ++ cell :: after)%list ->
        Worksheet.max_column ws <= 18278 ->
        (forall x, In x before -> is_formula x = true -> exists v, Cell.value x = Py.Ok v) ->
        is_formula cell = true -> Cell.value cell = Py.Raise e ->
        _extract_formulas ws = Py.Raise e)
  /\ (Worksheet.max_column ws <= 18278 ->
      (forall r c,
          1 <= r <= Worksheet.max_row ws -> 1 <= c <= Worksheet.max_column ws ->
          is_formula (Worksheet.cell ws r c) = true ->
          exists v, Cell.value (Worksheet.cell ws r c) = Py.Ok v) ->
      exists formulas,
        _extract_formulas ws = Py.Ok formulas
        /\ Forall2 recorded (List.filter is_formula (concat (Worksheet.iter_rows ws))) formulas).
Proof.
  unfold _extract_formulas. rewrite for_each_nested.
  assert (Hcoord : Worksheet.max_column ws <= 18278 ->
                   forall x, In x (concat (Worksheet.iter_rows ws)) ->
                             exists a, Cell.coordinate x = Py.Ok a).
  { intros Hcols x Hin. apply in_iter_rows in Hin as (r & c & _ & Hc & ->).
    apply coordinate_Ok. cbn. lia. }
  split; [|split].
  - intros r c e Hr Hc Hf Hv. eapply formula_cells_raise; eauto.
    apply in_iter_rows. eauto 6.
  - intros before cell after e Hsplit Hcols Hbefore Hf Hv.
    specialize (Hcoord Hcols). rewrite Hsplit in *. rewrite for_each_app.
    destruct (formula_cells_Ok before []) as (infos & -> & _).
    { apply Forall_forall. intros x Hx%list_elem_of_In Hfx. split; [auto|].
      apply Hcoord, in_or_app. now left. }
    cbn [Py.bind Py.for_each]. unfold formula_cell at 1. fold (is_formula cell).
    rewrite Hf, Hv.
    destruct (Hcoord cell) as [a ->]; [apply in_or_app; right; apply in_eq | reflexivity].
  - intros Hcols Hread. destruct (formula_cells_Ok (concat (Worksheet.iter_rows ws)) [])
      as (infos & Hrun & Hrec); [|eauto].
    apply Forall_forall. intros x Hx%list_elem_of_In Hfx. split; [|now apply Hcoord].
    apply in_iter_rows in Hx as (r & c & Hr & Hc & ->). now apply Hread.
Qed.

End Formulas.

Section ColumnLetters.

Import Spec.

Lemma letters_read_back_spec (n : nat) : forall idx i,
  letters_read_back n idx = true -> idx <= i < idx + Z.of_nat n ->
  column_index (Py.of_chars (column_letters 3 i [])) = i.
Proof.
  induction n as [|n IH]; intros idx i H Hi; [lia|].
  cbn [letters_read_back] in H. apply andb_prop in H as [H1 H2].
  destruct (Z.eq_dec i idx) as [->|]; [now apply Z.eqb_eq|].
  apply (IH (idx + 1)); [assumption | lia].
Qed.

Lemma column_letters_roundtrip : letters_read_back (Z.to_nat 18278) 1 = true.
Proof. vm_compute. reflexivity. Qed.

Lemma get_column_letter_Ok idx letter :
  get_column_letter idx = Py.Ok letter -> 1 <= idx <= 18278 /\ column_index letter = idx.
Proof.
  unfold get_column_letter.
  destruct (Z.leb_spec 1 idx); [|discriminate].
  destruct (Z.leb_spec idx 18278); [|discriminate]. cbn [andb].
  intros [= <-]. split; [lia|].
  apply (letters_read_back_spec (Z.to_nat 18278) 1 idx column_letters_roundtrip). lia.
Qed.

(** Distinct columns have distinct letters. *)
Lemma get_column_letter_inj i j letter :
  get_column_letter i = Py.Ok letter -> get_column_letter j = Py.Ok letter -> i = j.
Proof.
  intros Hi Hj. apply get_column_letter_Ok in Hi as [_ <-], Hj as [_ <-]. reflexivity.
Qed.

Lemma get_column_letter_total idx :
  1 <= idx <= 18278 -> exists letter, get_column_letter idx = Py.Ok letter.
Proof.
  intros H. unfold get_column_letter.
  destruct (Z.leb_spec 1 idx); [|lia]. destruct (Z.leb_spec idx 18278); [|lia]. cbn. eauto.
Qed.

End ColumnLetters.

Section TypeInference.

Import SpreadsheetAnalyzer Spec.

Lemma type_key_cases v :
  type_key v = "number" \/ type_key v = "date" \/ type_key v = "text".
Proof.
  unfold type_key. destruct (Py.isinstance_int_float v) eqn:Hn; [auto|].
  destruct (_ || _); [auto|].
  destruct v; cbn in *; try discriminate; auto.
Qed.

Lemma tally_cons v values key :
  tally (v :: values) key = (if String.eqb (type_key v) key then 1 else 0) + tally values key.
Proof.
  unfold tally, Py.len. cbn [List.filter]. cbv beta.
  destruct (String.eqb (type_key v) key); cbn [length]; rewrite ?Nat2Z.inj_succ; lia.
Qed.

Lemma tally_nonneg values key : 0 <= tally values key.
Proof. apply len_nonneg. Qed.

Lemma counts_fold values : forall a b c d,
  fold_left count_value values [("number", a); ("date", b); ("text", c); ("boolean", d)]
  = [("number", a + tally values "number"); ("date", b + tally values "date");
     ("text", c + tally values "text"); ("boolean", d + tally values "boolean")].
Proof.
  induction values as [|v values IH]; intros a b c d.
  - unfold tally. cbn. now rewrite !Z.add_0_r.
  - cbn [fold_left]. rewrite !tally_cons. unfold count_value at 2.
    destruct (type_key_cases v) as [-> | [-> | ->]]; cbn; rewrite IH;
      repeat match goal with
             | |- (_ :: _) = (_ :: _) => f_equal
             | |- (_, _) = (_, _) => f_equal
             end; lia.
Qed.

Lemma max_of_four a b c d :
  exists k i,
    max_key [("number", a); ("date", b); ("text", c); ("boolean", d)] = Py.Ok k
    /\ type_order !! i = Some k
    /\ match i with
       | 0%nat => b <= a /\ c <= a /\ d <= a
       | 1%nat => a < b /\ c <= b /\ d <= b
       | 2%nat => a < c /\ b < c /\ d <= c
       | _ => a < d /\ b < d /\ c < d
       end.
Proof.
  unfold max_key, Py.max_by. cbn.
  destruct (Z.ltb_spec a b); destruct (Z.ltb_spec a c); destruct (Z.ltb_spec b c);
    destruct (Z.ltb_spec a d); destruct (Z.ltb_spec b d); destruct (Z.ltb_spec c d);
    try lia;
    first [ exists "number", 0%nat; cbn; repeat split; auto; lia
          | exists "date", 1%nat; cbn; repeat split; auto; lia
          | exists "text", 2%nat; cbn; repeat split; auto; lia
          | exists "boolean", 3%nat; cbn; repeat split; auto; lia ].
Qed.


Lemma infer_Ok_of_counts v values :
  _infer_data_type (v :: values)
  = max_key [("number", 0 + tally (v :: values) "number"); ("date", 0 + tally (v :: values) "date");
             ("text", 0 + tally (v :: values) "text"); ("boolean", 0 + tally (v :: values) "boolean")].
Proof. unfold _infer_data_type. now rewrite counts_fold. Qed.

Lemma infer_first_maximal (values : list Py.Value) :
  values <> [] ->
  exists k i,
    _infer_data_type values = Py.Ok k
    /\ type_order !! i = Some k
    /\ (forall k', In k' type_order -> tally values k' <= tally values k)
    /\ (forall j k', (j < i)%nat -> type_order !! j = Some k' ->
                     tally values k' < tally values k).
Proof.
  destruct values as [|v values]; [contradiction|]. intros _.
  rewrite infer_Ok_of_counts.
  destruct (max_of_four (0 + tally (v :: values) "number") (0 + tally (v :: values) "date")
              (0 + tally (v :: values) "text") (0 + tally (v :: values) "boolean"))
    as (k & i & Hk & Hi & Hcmp).
  exists k, i. split; [assumption|]. split; [assumption|].
  destruct i as [|[|[|[|i]]]]; cbn in Hi; try discriminate; injection Hi as <-; split.
  all: try (intros k' [<-|[<-|[<-|[<-|[]]]]]; lia).
  all: intros j k' Hj Hk'; destruct j as [|[|[|j]]]; cbn in Hk'; try lia;
       injection Hk' as <-; lia.
Qed.

(** C10: on a non-empty list of sampled values the inferred type is the
    earliest key, in the order number, date, text, boolean, whose count is
    maximal: no key has a greater count, and every earlier key has a
    strictly smaller one. *)
Theorem infer_ties_first (values : list Py.Value) :
  values <> [] ->
  exists k i,
    _infer_data_type values = Py.Ok k
    /\ type_order !! i = Some k
    /\ (forall k', In k' type_order -> tally values k' <= tally values k)
    /\ (forall j k', (j < i)%nat -> type_order !! j = Some k' ->
                     tally values k' < tally values k).
Proof. exact (infer_first_maximal values). Qed.

(** C4, on the code: a native boolean is an [int] for [isinstance], so it
    increments the number counter; no value ever increments the boolean
    counter, and a column of booleans is inferred as "number". *)
Theorem booleans_counted_as_numbers :
  (forall b, type_key (Py.VBool b) = "number")
  /\ (forall v, type_key v <> "boolean")
  /\ _infer_data_type [Py.VBool true; Py.VBool false; Py.VBool true] = Py.Ok "number".
Proof.
  split; [reflexivity|]. split; [|reflexivity].
  intros v. destruct (type_key_cases v) as [-> | [-> | ->]]; discriminate.
Qed.

Lemma infer_in_order values k :
  values <> [] -> _infer_data_type values = Py.Ok k -> In k type_order.
Proof.
  intros Hne Hk. destruct (infer_first_maximal values Hne) as (k' & i & Hk' & Hi & _).
  rewrite Hk in Hk'. injection Hk' as <-.
  apply list_elem_of_In, list_elem_of_lookup. eauto.
Qed.

Lemma infer_total values : exists k, _infer_data_type values = Py.Ok k.
Proof.
  destruct values as [|v values]; [cbn; eauto|].
  destruct (infer_first_maximal (v :: values)) as (k & _ & Hk & _); [discriminate | eauto].
Qed.

End TypeInference.

Section DataTypes.

Import SpreadsheetAnalyzer Spec.

Lemma sample_cells_Ok ws col rows : forall acc vals,
  Py.for_each (sample_cell ws col) rows acc = Py.Ok vals ->
  exists vs,
    Forall2 (fun r v => CellData.value (Worksheet.cells ws r col) = Py.Ok v) rows vs
    /\ vals = (acc ++ List.filter (fun v => negb (Py.is_none v)) vs)%list.
Proof.
  induction rows as [|r rows IH]; intros acc vals H; cbn [Py.for_each] in H.
  - injection H as <-. exists []. cbn. now rewrite app_nil_r.
  - apply bind_Ok_inv in H as (acc1 & Hcell & H).
    unfold sample_cell, Cell.value, Worksheet.cell in Hcell. cbn in Hcell.
    apply bind_Ok_inv in Hcell as (v & Hv & Hcell).
    apply IH in H as (vs & Hvs & ->). exists (v :: vs). split; [now constructor|].
    cbn [List.filter]. destruct (negb (Py.is_none v)); injection Hcell as <-;
      [now rewrite <- app_assoc | reflexivity].
Qed.

Lemma sample_cells_total ws col rows : forall acc,
  (forall r, In r rows -> exists v, CellData.value (Worksheet.cells ws r col) = Py.Ok v) ->
  exists vals, Py.for_each (sample_cell ws col) rows acc = Py.Ok vals.
Proof.
  induction rows as [|r rows IH]; intros acc H; cbn [Py.for_each]; [eauto|].
  destruct (H r (or_introl eq_refl)) as (v & Hv).
  unfold sample_cell at 1, Cell.value, Worksheet.cell. cbn. rewrite Hv. cbn.
  destruct (negb (Py.is_none v)); cbn; apply IH; intros; apply H; now right.
Qed.

Lemma sample_nonempty ws col rows vals :
  Py.for_each (sample_cell ws col) rows [] = Py.Ok vals ->
  vals <> [] <-> has_sample ws rows col.
Proof.
  intros H. apply sample_cells_Ok in H as (vs & Hvs & ->). cbn [app]. unfold has_sample.
  induction Hvs as [|r v rows vs Hv _ IH]; cbn [List.filter].
  - split; [congruence | intros (? & ? & [] & _)].
  - destruct (Py.is_none v) eqn:Hn; cbn [negb].
    + rewrite IH. split.
      * intros (r' & v' & Hin & Hv' & Hnn). exists r', v'. auto using in_cons.
      * intros (r' & v' & [<-|Hin] & Hv' & Hnn); [|eauto].
        rewrite Hv in Hv'. injection Hv' as <-. now destruct v.
    + split; [|discriminate]. intros _. exists r, v. split; [apply in_eq|].
      split; [assumption|]. intros ->. discriminate.
Qed.

Lemma type_column_Ok ws rows (dt dt' : gmap string string) col :
  type_column ws rows dt col = Py.Ok dt' ->
  exists letter,
    get_column_letter col = Py.Ok letter
    /\ ((has_sample ws rows col /\ exists k, In k type_order /\ dt' = <[letter := k]> dt)
        \/ (~ has_sample ws rows col /\ dt' = dt)).
Proof.
  unfold type_column. intros H.
  apply bind_Ok_inv in H as (letter & Hl & H).
  apply bind_Ok_inv in H as (vals & Hvals & H).
  exists letter. split; [assumption|].
  pose proof (sample_nonempty _ _ _ _ Hvals) as Hne.
  destruct vals as [|v vals].
  - injection H as <-. right. split; [|reflexivity]. intros Hs. now apply Hne in Hs.
  - apply bind_Ok_inv in H as (k & Hk & [= <-]). left. split; [now apply Hne|].
    exists k. split; [|reflexivity]. now apply (infer_in_order (v :: vals)).
Qed.

Lemma type_columns_Ok ws rows cols : forall (dt dt' : gmap string string),
  Py.for_each (type_column ws rows) cols dt = Py.Ok dt' ->
  (forall key, is_Some (dt !! key) -> is_Some (dt' !! key))
  /\ (forall col, In col cols ->
        exists letter, get_column_letter col = Py.Ok letter
                       /\ (has_sample ws rows col -> is_Some (dt' !! letter)))
  /\ (forall key, is_Some (dt' !! key) ->
        is_Some (dt !! key)
        \/ exists col, In col cols /\ get_column_letter col = Py.Ok key /\ has_sample ws rows col)
  /\ (forall key k, dt' !! key = Some k -> dt !! key = Some k \/ In k type_order).
Proof.
  induction cols as [|col cols IH]; intros dt dt' H; cbn [Py.for_each] in H.
  - injection H as <-. repeat split; auto. intros ? [].
  - apply bind_Ok_inv in H as (dt1 & Hcol & H).
    apply IH in H as (Hmono & Hin & Hkeys & Hvals).
    apply type_column_Ok in Hcol as (letter & Hl & [(Hs & k & Hk & ->) | (Hns & ->)]).
    + repeat split.
      * intros key Hkey. apply Hmono. rewrite lookup_insert.
        destruct (decide (letter = key)); [eauto | assumption].
      * intros col' [<-|Hin'].
        -- exists letter. split; [assumption|]. intros _. apply Hmono.
           rewrite lookup_insert_eq. eauto.
        -- now apply Hin.
      * intros key Hkey. apply Hkeys in Hkey as [Hkey | (col' & Hin' & Hl' & Hs')].
        -- rewrite lookup_insert in Hkey. destruct (decide (letter = key)) as [<-|].
           ++ right. exists col. auto using in_eq.
           ++ now left.
        -- right. exists col'. auto using in_cons.
      * intros key k' Hkey. apply Hvals in Hkey as [Hkey|]; [|now right].
        rewrite lookup_insert in Hkey. destruct (decide (letter = key)).
        -- injection Hkey as <-. now right.
        -- now left.
    + repeat split; try assumption.
      * intros col' [<-|Hin'].
        -- exists letter. split; [assumption|]. intros Hs. contradiction.
        -- now apply Hin.
      * intros key Hkey. apply Hkeys in Hkey as [Hkey | (col' & Hin' & Hl' & Hs')]; [now left|].
        right. exists col'. auto using in_cons.
Qed.

Lemma type_columns_total ws rows cols : forall (dt : gmap string string),
  (forall col, In col cols ->
      1 <= col <= 18278
      /\ forall r, In r rows -> exists v, CellData.value (Worksheet.cells ws r col) = Py.Ok v) ->
  exists dt', Py.for_each (type_column ws rows) cols dt = Py.Ok dt'.
Proof.
  induction cols as [|col cols IH]; intros dt H; cbn [Py.for_each]; [eauto|].
  destruct (H col (or_introl eq_refl)) as (Hc & Hread).
  destruct (get_column_letter_total col Hc) as (letter & Hl).
  destruct (sample_cells_total ws col rows [] Hread) as (vals & Hvals).
  unfold type_column at 1. rewrite Hl. cbn [Py.bind]. rewrite Hvals. cbn [Py.bind].
  destruct vals as [|v vals].
  - cbn [Py.bind]. apply IH. intros; apply H; now right.
  - destruct (infer_total (v :: vals)) as (k & ->). cbn [Py.bind].
    apply IH. intros; apply H; now right.
Qed.

(** C7: the data-type map is empty when no header row was detected;
    otherwise the letter of a column is a key exactly when one of the
    sampled cells beneath the header row (at most ten rows, none past the
    last row) holds a value that is not [None] in that column. Every key is
    the letter of a column of the sheet, and no key is mapped to "empty".
    The map is returned whenever the sampled cells are readable and the
    sheet has at most 18278 columns. *)
Theorem data_types_keys (ws : Worksheet.t) (header_row : option Z) :
  (header_row_truthy header_row = false -> _detect_data_types ws header_row = Py.Ok ∅)
  /\ (forall h,
        header_row = Some h -> h <> 0 -> Worksheet.max_column ws <= 18278 ->
        (forall r c, In r (sample_window ws h) -> 1 <= c <= Worksheet.max_column ws ->
                     exists v, CellData.value (Worksheet.cells ws r c) = Py.Ok v) ->
        exists dt, _detect_data_types ws header_row = Py.Ok dt)
  /\ forall dt : gmap string string,
       _detect_data_types ws header_row = Py.Ok dt ->
       (forall col letter,
           1 <= col <= Worksheet.max_column ws -> get_column_letter col = Py.Ok letter ->
           (is_Some (dt !! letter) <->
            exists h, header_row = Some h /\ h <> 0 /\ has_sample ws (sample_window ws h) col))
       /\ (forall key, is_Some (dt !! key) ->
             exists col, 1 <= col <= Worksheet.max_column ws /\ get_column_letter col = Py.Ok key)
       /\ (forall key, dt !! key <> Some "empty").
Proof.
  unfold _detect_data_types. split; [|split].
  - intros Hf. destruct header_row as [h|]; [|reflexivity]. now rewrite Hf.
  - intros h -> Hh Hcols Hread. cbn [header_row_truthy].
    destruct (Z.eqb_spec h 0); [contradiction|]. cbn [negb].
    apply type_columns_total. intros col Hcol%elem_of_range. split; [lia|].
    intros r Hr. apply Hread; [assumption | lia].
  - intros dt H.
    destruct header_row as [h|]; cbn [header_row_truthy] in H.
    + destruct (Z.eqb_spec h 0) as [->|Hh]; cbn [negb] in H.
      * injection H as <-. split; [|split].
        -- intros col letter _ _. split.
           ++ intros Hk. rewrite lookup_empty in Hk. now destruct Hk.
           ++ intros (h & [= <-] & Hh & _). contradiction.
        -- intros key Hk. rewrite lookup_empty in Hk. now destruct Hk.
        -- intros key. now rewrite lookup_empty.
      * apply type_columns_Ok in H as (_ & Hin & Hkeys & Hvals). split; [|split].
        -- intros col letter Hcol Hl. split.
           ++ intros Hk. exists h. split; [reflexivity|]. split; [assumption|].
              apply Hkeys in Hk as [Hk | (col' & Hin' & Hl' & Hs')].
              ** rewrite lookup_empty in Hk. now destruct Hk.
              ** now rewrite (get_column_letter_inj _ _ _ Hl Hl').
           ++ intros (h' & [= <-] & _ & Hs).
              destruct (Hin col) as (letter' & Hl' & Himp); [apply elem_of_range; lia|].
              rewrite Hl in Hl'. injection Hl' as <-. auto.
        -- intros key Hk. apply Hkeys in Hk as [Hk | (col' & Hin' & Hl' & _)].
           ++ rewrite lookup_empty in Hk. now destruct Hk.
           ++ apply elem_of_range in Hin'. exists col'. split; [lia | assumption].
        -- intros key Hk. apply Hvals in Hk as [Hk|Hk].
           ++ now rewrite lookup_empty in Hk.
           ++ cbn in Hk. intuition discriminate.
    + injection H as <-. split; [|split].
      * intros col letter _ _. split.
        -- intros Hk. rewrite lookup_empty in Hk. now destruct Hk.
        -- intros (h & [=] & _).
      * intros key Hk. rewrite lookup_empty in Hk. now destruct Hk.
      * intros key. now rewrite lookup_empty.
Qed.

End DataTypes.

Section Failures.

Import SpreadsheetAnalyzer Spec.

Lemma analyze_sheet_log sheet sheet_name log :
  _analyze_sheet sheet sheet_name log
  = (sheet_outcome sheet sheet_name,
     (log ++ [(Logging.DEBUG, "Analisando aba: " +:+ sheet_name)])%list).
Proof.
  unfold sheet_outcome, _analyze_sheet, Logging.bind, Logging.emit, Logging.lift.
  match goal with |- (?r, _) = _ => destruct r end; reflexivity.
Qed.

Lemma getitem_listed wb sheet_name :
  In sheet_name (Workbook.sheetnames wb) -> exists sheet, Workbook.getitem wb sheet_name = Py.Ok sheet.
Proof.
  unfold Workbook.sheetnames, Workbook.getitem. intros Hin.
  apply in_map_iff in Hin as (sheet & <- & Hin).
  destruct (find _ _) as [s|] eqn:Hfind; [eauto|].
  apply (find_none _ _ Hfind) in Hin. now rewrite String.eqb_refl in Hin.
Qed.

Lemma analyze_step_outcome wb analysis sheet_name log sheet :
  Workbook.getitem wb sheet_name = Py.Ok sheet ->
  match sheet_outcome sheet sheet_name with
  | Py.Ok sa =>
      exists analysis' log',
        analyze_step wb analysis sheet_name log = (Py.Ok analysis', log')
        /\ SpreadsheetAnalysis.sheets analysis'
           = (SpreadsheetAnalysis.sheets analysis ++ [sa])%list
  | Py.Raise e => exists log', analyze_step wb analysis sheet_name log = (Py.Raise e, log')
  end.
Proof.
  intros Hget. unfold analyze_step, Logging.bind, Logging.lift. rewrite Hget.
  rewrite analyze_sheet_log. destruct (sheet_outcome sheet sheet_name) as [sa|e]; [|eauto].
  unfold Logging.ret. eexists _, _. split; [reflexivity|].
  destruct (SheetAnalysis.formulas sa), (SheetAnalysis.merged_cells sa); reflexivity.
Qed.

(** The loop over the sheet names either analyses every sheet, or stops
    at the first sheet whose analysis raises, with that exception. *)
Lemma loop_outcome wb names : forall analysis log,
  (forall n, In n names -> In n (Workbook.sheetnames wb)) ->
  (exists analysis' log',
      Logging.for_each (analyze_step wb) names analysis log = (Py.Ok analysis', log')
      /\ Forall (sheet_ok wb) names
      /\ map SheetAnalysis.name (SpreadsheetAnalysis.sheets analysis')
         = (map SheetAnalysis.name (SpreadsheetAnalysis.sheets analysis) ++ names)%list)
  \/ (exists before n after sheet e log',
        names = (before ++ n :: after)%list
        /\ Forall (sheet_ok wb) before
        /\ Workbook.getitem wb n = Py.Ok sheet
        /\ sheet_outcome sheet n = Py.Raise e
        /\ Logging.for_each (analyze_step wb) names analysis log = (Py.Raise e, log')).
Proof.
  induction names as [|n names IH]; intros analysis log Hlisted.
  - left. exists analysis, log. cbn. rewrite app_nil_r. auto.
  - destruct (getitem_listed wb n) as (sheet & Hget); [apply Hlisted, in_eq|].
    pose proof (analyze_step_outcome wb analysis n log sheet Hget) as Hstep.
    destruct (sheet_outcome sheet n) as [sa|e] eqn:Hout.
    + destruct Hstep as (a1 & log1 & Hstep & Hsheets).
      assert (Hn : sheet_ok wb n) by (exists sheet, sa; auto).
      assert (Hname : SheetAnalysis.name sa = n).
      { unfold sheet_outcome in Hout.
        destruct (_analyze_sheet sheet n []) as [r l] eqn:Hrun. cbn in Hout. subst r.
        now apply analyze_sheet_Ok in Hrun as (ws & _ & Hname & _). }
      destruct (IH a1 log1) as [(a' & log' & Hrun & Hall & Hnames)
                               | (before & n' & after & sheet' & e & log' & -> & Hall & Hget' & Hout' & Hrun)];
        [intros; apply Hlisted; now right | |].
      * left. exists a', log'. cbn [Logging.for_each]. unfold Logging.bind at 1. rewrite Hstep.
        split; [assumption|]. split; [now constructor|].
        rewrite Hnames, Hsheets, map_app, <- app_assoc. cbn. now rewrite Hname.
      * right. exists (n :: before), n', after, sheet', e, log'.
        cbn [Logging.for_each]. unfold Logging.bind at 1. rewrite Hstep.
        repeat split; try assumption. now constructor.
    + destruct Hstep as (log' & Hstep). right.
      exists [], n, names, sheet, e, log'. cbn [Logging.for_each app].
      unfold Logging.bind at 1. rewrite Hstep. repeat split; auto.
Qed.

(** C2, as the code has it: the [try] block covers the whole analysis.
    When the workbook cannot be opened, the call raises an
    [AnalysisException] whose context is the cause. When it opens, either
    every sheet is analysed and the result has one [SheetAnalysis] per
    sheet name, in order, or the call raises the [AnalysisException] built
    on the exception of the first sheet whose analysis raises. No other
    exception leaves the call and no partial result is returned. *)
Theorem analysis_failures_wrapped (env : Env.t) (info : SpreadsheetInfo.t) (log : Logging.Records) :
  (forall e, Py.exn_cls (AnalysisException e) = "AnalysisException"
             /\ Py.exn_context (AnalysisException e) = Some e)
  /\ match Env.load_workbook env (SpreadsheetInfo.path info) with
     | Py.Raise e => fst (analyze_spreadsheet env info log) = Py.Raise (AnalysisException e)
     | Py.Ok wb =>
         (exists analysis,
             fst (analyze_spreadsheet env info log) = Py.Ok analysis
             /\ Forall (sheet_ok wb) (Workbook.sheetnames wb)
             /\ map SheetAnalysis.name (SpreadsheetAnalysis.sheets analysis) = Workbook.sheetnames wb)
         \/ (exists before n after sheet e,
               Workbook.sheetnames wb = (before ++ n :: after)%list
               /\ Forall (sheet_ok wb) before
               /\ Workbook.getitem wb n = Py.Ok sheet
               /\ sheet_outcome sheet n = Py.Raise e
               /\ fst (analyze_spreadsheet env info log) = Py.Raise (AnalysisException e))
     end.
Proof.
  split; [intros e; split; reflexivity|].
  cbv [analyze_spreadsheet analyze_body analyze_handler Logging.bind Logging.emit
       Logging.try_except Logging.lift Logging.raise Logging.ret].
  set (log1 := (log ++ _)%list).
  destruct (Env.load_workbook env (SpreadsheetInfo.path info)) as [wb|e]; [|reflexivity].
  destruct (loop_outcome wb (Workbook.sheetnames wb)
              (SpreadsheetAnalysis.Mk info [] ∅ false false 0 (Some (Env.timestamp_now env))) log1)
    as [(a' & log' & Hrun & Hall & Hnames)
       | (before & n & after & sheet & e & log' & Hsplit & Hall & Hget & Hout & Hrun)];
    [auto | |]; rewrite Hrun.
  - left. eexists. split; [reflexivity|]. split; [assumption|]. exact Hnames.
  - right. exists before, n, after, sheet, e. repeat split; try assumption.
Qed.

End Failures.

(** ** Worked examples *)

Section Examples.

Import SpreadsheetAnalyzer Spec HeaderRule.

(** The score of the one-sheet sales workbook, by the theorem of C1. *)
Lemma complexity_score_formula_witness :
  SpreadsheetAnalysis.complexity_score Samples.sales_analysis
  = Spec.complexity (SpreadsheetAnalysis.sheets Samples.sales_analysis)
  /\ 0 <= SpreadsheetAnalysis.complexity_score Samples.sales_analysis <= 100.
Proof.
  apply (proj2 (proj2 complexity_score_formula) (Samples.env_of Samples.sales_book)
           Samples.info [] Samples.sales_analysis Samples.sales_log).
  vm_compute. reflexivity.
Defined.

Example sales_score : SpreadsheetAnalysis.complexity_score Samples.sales_analysis = 10.
Proof. vm_compute. reflexivity. Qed.

Lemma grid_readable rows r c :
  Forall (Forall (fun d => exists v, CellData.value d = Py.Ok v)) rows ->
  exists v, CellData.value (Samples.grid_cells rows r c) = Py.Ok v.
Proof.
  intros H. unfold Samples.grid_cells.
  destruct (rows !! Z.to_nat (r - 1)) as [row|] eqn:Hrow; [|now exists Py.VNone].
  destruct (row !! Z.to_nat (c - 1)) as [d|] eqn:Hd; [|now exists Py.VNone].
  rewrite Forall_forall in H. apply list_elem_of_lookup_2 in Hrow. apply H in Hrow.
  rewrite Forall_forall in Hrow. apply list_elem_of_lookup_2 in Hd. now apply Hrow.
Qed.

(** Seven titles and three years among fifteen cells, five of them
    blank: exactly 70 percent of the ten non-empty values. *)
Lemma header_threshold_inclusive_witness :
  Py.len (values Fresh.sparse 1) = 15
  /\ count filled (values Fresh.sparse 1) = 10
  /\ count wordy (values Fresh.sparse 1) = 7
  /\ _detect_headers Fresh.sparse
     = Py.Ok (["Data"; "Produto"; "Loja"; "2023"; "Cidade"; "Vendedor"; "2024"; "Canal"; "Obs";
               "2025"], Some 1).
Proof.
  split; [reflexivity|]. split; [reflexivity|]. split; [reflexivity|].
  change (_detect_headers Fresh.sparse) with (detect_from Fresh.sparse [1]).
  change ["Data"; "Produto"; "Loja"; "2023"; "Cidade"; "Vendedor"; "2024"; "Canal"; "Obs"; "2025"]
    with (labels (values Fresh.sparse 1)).
  apply (proj1 (proj2 (header_threshold_inclusive Fresh.sparse 1
                         ltac:(intros c _; apply grid_readable;
                               repeat constructor; eexists; reflexivity)
                         ltac:(vm_compute; reflexivity)
                         ltac:(vm_compute; reflexivity)))).
  vm_compute. discriminate.
Defined.

(** One title less, and the row is passed over. *)
Example six_of_ten_with_blanks_fails :
  _detect_headers
    (Samples.sheet_of "Seis"
       [ [Samples.holding (Py.VStr "Data"); Samples.blank; Samples.holding (Py.VStr "Produto");
          Samples.holding (Py.VStr "Loja"); Samples.blank; Samples.holding (Py.VInt 2023);
          Samples.holding (Py.VStr "Cidade"); Samples.holding (Py.VStr "Vendedor");
          Samples.blank; Samples.holding (Py.VInt 2024); Samples.holding (Py.VStr "Canal");
          Samples.blank; Samples.holding (Py.VInt 7); Samples.holding (Py.VInt 2025);
          Samples.blank] ])
  = Py.Ok ([], None).
Proof. vm_compute. reflexivity. Qed.

(** The same boundary on entries without blanks. *)
Example seven_of_ten_entries :
  text_count Samples.seven_of_ten_row = 7
  /\ Py.len (non_empty Samples.seven_of_ten_row) = 10
  /\ row_qualifies Samples.seven_of_ten_row true = true.
Proof. repeat split; vm_compute; reflexivity. Qed.

Example six_of_ten_fails :
  row_qualifies ["Data"; "Produto"; "Loja"; "Cidade"; "Vendedor"; "Canal";
                 "7"; "2023"; "2024"; "2025"] true = false.
Proof. vm_compute. reflexivity. Qed.

(** A negative number does not print as digits, so the text count takes
    it: a digit string followed by negative numbers passes the test. *)
Example negative_numbers_count_as_text :
  _detect_headers
    (Samples.sheet_of "Negativos"
       [ [Samples.holding (Py.VStr "123"); Samples.holding (Py.VInt (-1));
          Samples.holding (Py.VInt (-2)); Samples.holding (Py.VInt (-3))] ])
  = Py.Ok (["123"; "-1"; "-2"; "-3"], Some 1).
Proof. vm_compute. reflexivity. Qed.

Example late_header_row_six :
  header_scan Samples.late_header 6 = Py.Ok (["Nome"; "Valor"; "Data"], true)
  /\ row_qualifies ["Nome"; "Valor"; "Data"] true = true.
Proof. split; vm_compute; reflexivity. Qed.


Example late_header_not_found :
  _detect_headers Samples.late_header = Py.Ok ([], None)
  /\ passes (values Samples.late_header 6) = true.
Proof. split; vm_compute; reflexivity. Qed.


(** Column C of [sales] has numbers beneath the header. *)
Lemma data_types_keys_witness :
  is_Some (Samples.sales_types !! "C")
  <-> exists h, Some 1 = Some h /\ h <> 0
                /\ has_sample Samples.sales (sample_window Samples.sales h) 3.
Proof.
  apply (proj1 (proj2 (proj2 (data_types_keys Samples.sales (Some 1))) Samples.sales_types
                  ltac:(vm_compute; reflexivity)) 3 "C").
  - vm_compute. split; discriminate.
  - reflexivity.
Defined.

Example sales_column_types :
  Samples.sales_types !! "A" = Some "date" /\ Samples.sales_types !! "B" = Some "text"
  /\ Samples.sales_types !! "C" = Some "number" /\ Samples.sales_types !! "E" = None.
Proof. repeat split; vm_compute; reflexivity. Qed.

(** Cell C2 of [sales] holds 3 and has no styling of its own. *)
Lemma styles_map_coverage_witness :
  exists key,
    Cell.coordinate (Worksheet.cell Samples.sales 2 3) = Py.Ok key
    /\ is_Some (Samples.sales_styles !! key).
Proof.
  apply (proj1 (proj2 (styles_map_coverage Samples.sales) Samples.sales_styles
                  ltac:(vm_compute; reflexivity)) 2 3 (Py.VInt 3)).
  - vm_compute. split; discriminate.
  - vm_compute. split; discriminate.
  - reflexivity.
  - discriminate.
Defined.

(** The blank cell B2 of the fresh sheet is a key of its styles map. *)
Lemma blank_default_cells_are_keys_witness :
  _has_custom_style (Worksheet.cell Fresh.sheet 2 2) = Py.Ok true
  /\ exists key,
       Cell.coordinate (Worksheet.cell Fresh.sheet 2 2) = Py.Ok key
       /\ is_Some (FreshMaps.styles !! key).
Proof.
  apply (blank_default_cells_are_keys Fresh.sheet FreshMaps.styles 2 2 Fresh.border Fresh.side).
  - vm_compute. reflexivity.
  - vm_compute. split; discriminate.
  - vm_compute. split; discriminate.
  - reflexivity.
  - reflexivity.
  - reflexivity.
Defined.

(** Only A1 of the fresh sheet holds a value, and all four cells are
    keys. *)
Example fresh_sheet_keys :
  size FreshMaps.styles = 4%nat
  /\ is_Some (FreshMaps.styles !! "A1") /\ is_Some (FreshMaps.styles !! "A2")
  /\ is_Some (FreshMaps.styles !! "B1") /\ is_Some (FreshMaps.styles !! "B2")
  /\ Cell.value (Worksheet.cell Fresh.sheet 1 2) = Py.Ok Py.VNone
  /\ Cell.value (Worksheet.cell Fresh.sheet 2 1) = Py.Ok Py.VNone
  /\ Cell.value (Worksheet.cell Fresh.sheet 2 2) = Py.Ok Py.VNone.
Proof. repeat split; try (vm_compute; eauto; fail); reflexivity. Qed.

(** C3, counterexample: cell A1 of [broken] is a formula cell whose value
    cannot be read and B1 is a readable formula cell; the scan raises the
    exception of A1 instead of skipping the cell, so no list is returned
    and B1 is not reported. *)
Lemma formula_scan_aborts_on_bad_cell :
  is_formula (Worksheet.cell Samples.broken 1 2) = true
  /\ Cell.value (Worksheet.cell Samples.broken 1 2) = Py.Ok (Py.VStr "=1+1")
  /\ _extract_formulas Samples.broken = Py.Raise Samples.unreadable
  /\ ~ (exists formulas, _extract_formulas Samples.broken = Py.Ok formulas).
Proof.
  split; [reflexivity|]. split; [reflexivity|]. split; [reflexivity|].
  intros (formulas & H). discriminate H.
Qed.

Lemma formula_scan_propagates_witness :
  exists e', _extract_formulas Samples.broken = Py.Raise e'.
Proof.
  apply (proj1 (formula_scan_propagates Samples.broken) 1 1 Samples.unreadable).
  - vm_compute. split; discriminate.
  - vm_compute. split; discriminate.
  - reflexivity.
  - reflexivity.
Defined.

Example sales_formulas :
  exists formulas,
    _extract_formulas Samples.sales = Py.Ok formulas
    /\ map CellInfo.address formulas = ["D2"; "D3"].
Proof. eexists. split; [vm_compute; reflexivity | reflexivity]. Qed.

(** C2, counterexample: the workbook opens, the analysis of its chart
    sheet raises [AttributeError], and the call raises an
    [AnalysisException] built on it, not the [AttributeError] itself. *)
Lemma per_sheet_failure_is_wrapped :
  Env.load_workbook (Samples.env_of Samples.with_chart) (SpreadsheetInfo.path Samples.info)
  = Py.Ok Samples.with_chart
  /\ sheet_outcome (Sheet.Chartsheet "Grafico") "Grafico" = Py.Raise Samples.no_attribute
  /\ fst (analyze_spreadsheet (Samples.env_of Samples.with_chart) Samples.info [])
     = Py.Raise (AnalysisException Samples.no_attribute)
  /\ fst (analyze_spreadsheet (Samples.env_of Samples.with_chart) Samples.info [])
     <> Py.Raise Samples.no_attribute.
Proof.
  split; [reflexivity|]. split; [reflexivity|]. split; [vm_compute; reflexivity|].
  vm_compute. discriminate.
Qed.

Example open_failure_is_wrapped :
  fst (analyze_spreadsheet
         (Env.Mk (fun _ => Py.Raise (Py.Exc "BadZipFile" "File is not a zip file")) "now")
         Samples.info [])
  = Py.Raise (AnalysisException (Py.Exc "BadZipFile" "File is not a zip file")).
Proof. reflexivity. Qed.

(** Two numbers and two date-like values: the tie goes to "number". *)
Lemma infer_ties_first_witness :
  exists k i,
    _infer_data_type Samples.tie = Py.Ok k
    /\ type_order !! i = Some k
    /\ (forall k', In k' type_order -> tally Samples.tie k' <= tally Samples.tie k)
    /\ (forall j k', (j < i)%nat -> type_order !! j = Some k' ->
                     tally Samples.tie k' < tally Samples.tie k).
Proof.
  apply (infer_ties_first Samples.tie). discriminate.
Defined.

Example tie_is_number :
  tally Samples.tie "number" = 2 /\ tally Samples.tie "date" = 2
  /\ _infer_data_type Samples.tie = Py.Ok "number".
Proof. repeat split; reflexivity. Qed.

Example time_of_day_is_text :
  _infer_data_type [Py.VTime (Py.MkTimeOfDay 10 30 0)] = Py.Ok "text"
  /\ _infer_data_type [Py.VDatetime (Py.MkDateTime 2024 1 15 0 0 0)] = Py.Ok "date".
Proof. split; reflexivity. Qed.

End Examples.

(** * Further properties of the analyzer *)

Section Orchestration.

Import SpreadsheetAnalyzer Spec Terms.

(** The state of the analysis after a sheet was analysed. *)
Lemma analyze_step_result wb analysis sheet_name log analysis' log' :
  analyze_step wb analysis sheet_name log = (Py.Ok analysis', log') ->
  exists sa,
    SpreadsheetAnalysis.sheets analysis' = (SpreadsheetAnalysis.sheets analysis ++ [sa])%list
    /\ SpreadsheetAnalysis.has_formulas analysis'
       = (SpreadsheetAnalysis.has_formulas analysis
          || match SheetAnalysis.formulas sa with [] => false | _ => true end)
    /\ SpreadsheetAnalysis.has_merged_cells analysis'
       = (SpreadsheetAnalysis.has_merged_cells analysis
          || match SheetAnalysis.merged_cells sa with [] => false | _ => true end)
    /\ SpreadsheetAnalysis.spreadsheet_info analysis' = SpreadsheetAnalysis.spreadsheet_info analysis
    /\ SpreadsheetAnalysis.analysis_timestamp analysis'
       = SpreadsheetAnalysis.analysis_timestamp analysis
    /\ log' = (log ++ [entered sheet_name])%list.
Proof.
  unfold analyze_step. intros H.
  apply io_bind_Ok_inv in H as (sheet & log0 & Hget & H).
  unfold Logging.lift in Hget. injection Hget as Hget <-.
  apply io_bind_Ok_inv in H as (sa & log1 & Hsa & H).
  rewrite analyze_sheet_log in Hsa. injection Hsa as _ <-.
  unfold Logging.ret in H. injection H as <- <-.
  exists sa.
  destruct (SheetAnalysis.formulas sa), (SheetAnalysis.merged_cells sa); cbn;
    rewrite ?orb_false_r, ?orb_true_r; auto 10.
Qed.

Lemma loop_state wb names : forall analysis log analysis' log',
  Logging.for_each (analyze_step wb) names analysis log = (Py.Ok analysis', log') ->
  exists added,
    SpreadsheetAnalysis.sheets analysis' = (SpreadsheetAnalysis.sheets analysis ++ added)%list
    /\ SpreadsheetAnalysis.has_formulas analysis'
       = (SpreadsheetAnalysis.has_formulas analysis
          || existsb (fun sa => has_some (SheetAnalysis.formulas sa)) added)
    /\ SpreadsheetAnalysis.has_merged_cells analysis'
       = (SpreadsheetAnalysis.has_merged_cells analysis
          || existsb (fun sa => has_some (SheetAnalysis.merged_cells sa)) added)
    /\ SpreadsheetAnalysis.spreadsheet_info analysis' = SpreadsheetAnalysis.spreadsheet_info analysis
    /\ SpreadsheetAnalysis.analysis_timestamp analysis'
       = SpreadsheetAnalysis.analysis_timestamp analysis
    /\ log' = (log ++ map entered names)%list.
Proof.
  induction names as [|n names IH]; intros analysis log analysis' log' H; cbn [Logging.for_each] in H.
  - unfold Logging.ret in H. injection H as <- <-. exists []. cbn.
    rewrite !app_nil_r, !orb_false_r. auto 10.
  - apply io_bind_Ok_inv in H as (a1 & log1 & Hstep & H).
    apply analyze_step_result in Hstep as (sa & Hs & Hf & Hm & Hi & Ht & ->).
    apply IH in H as (added & Hs' & Hf' & Hm' & Hi' & Ht' & ->).
    exists (sa :: added). cbn [existsb map].
    rewrite Hs', Hs, Hf', Hf, Hm', Hm, Hi', Hi, Ht', Ht, <- !app_assoc, !orb_assoc.
    unfold has_some. auto 10.
Qed.

(** The analysis that a successful run returns, from the state the loop
    leaves. *)
Lemma analyze_spreadsheet_result env info log analysis log' :
  analyze_spreadsheet env info log = (Py.Ok analysis, log') ->
  exists wb a0,
    Env.load_workbook env (SpreadsheetInfo.path info) = Py.Ok wb
    /\ Logging.for_each (analyze_step wb) (Workbook.sheetnames wb)
         (SpreadsheetAnalysis.Mk info [] ∅ false false 0 (Some (Env.timestamp_now env)))
         (log ++ [started info])%list
       = (Py.Ok a0, (log ++ [started info] ++ map entered (Workbook.sheetnames wb))%list)
    /\ analysis
       = SpreadsheetAnalysis.with_global_styles
           (SpreadsheetAnalysis.with_complexity_score a0 (_calculate_complexity_score a0))
           (_extract_global_styles
              (SpreadsheetAnalysis.with_complexity_score a0 (_calculate_complexity_score a0)))
    /\ log' = (log ++ [started info] ++ map entered (Workbook.sheetnames wb)
                   ++ [concluded analysis])%list.
Proof.
  cbv [analyze_spreadsheet analyze_body analyze_handler Logging.bind Logging.emit
       Logging.try_except Logging.lift Logging.raise Logging.ret].
  fold (started info).
  destruct (Env.load_workbook env (SpreadsheetInfo.path info)) as [wb|e]; [|discriminate].
  destruct (Logging.for_each _ _ _ _) as [[a0|e] log2] eqn:Hloop; [|discriminate].
  intros [= <- <-].
  pose proof (loop_state _ _ _ _ _ _ Hloop) as (added & _ & _ & _ & _ & _ & ->).
  exists wb, a0. rewrite <- !app_assoc in *. repeat split; try reflexivity. exact Hloop.
Qed.

(** X1: in the analysis that [analyze_spreadsheet] returns, [has_formulas]
    is set exactly when some sheet of the result has a formula, and
    [has_merged_cells] exactly when some sheet has a merged range. *)
Theorem flags_tell_sheets env info log analysis log' :
  analyze_spreadsheet env info log = (Py.Ok analysis, log') ->
  (SpreadsheetAnalysis.has_formulas analysis = true
   <-> exists sheet, In sheet (SpreadsheetAnalysis.sheets analysis)
                     /\ SheetAnalysis.formulas sheet <> [])
  /\ (SpreadsheetAnalysis.has_merged_cells analysis = true
      <-> exists sheet, In sheet (SpreadsheetAnalysis.sheets analysis)
                        /\ SheetAnalysis.merged_cells sheet <> []).
Proof.
  intros H. apply analyze_spreadsheet_result in H as (wb & a0 & _ & Hloop & -> & _).
  apply loop_state in Hloop as (added & Hs & Hf & Hm & _). cbn in *.
  rewrite Hs, Hf, Hm. cbn.
  assert (Hex : forall (A : Type) (f : SheetAnalysis.t -> list A),
             existsb (fun sa => has_some (f sa)) added = true
             <-> exists sheet, In sheet added /\ f sheet <> []).
  { intros A f. rewrite existsb_exists. split; intros (sheet & Hin & Hne); exists sheet;
      (split; [assumption|]); destruct (f sheet); cbn in *; congruence. }
  split; apply Hex.
Qed.

(** X2: the returned analysis carries the [SpreadsheetInfo] it was given
    and the timestamp taken after the workbook opened, and its global
    styles are the style map of the first sheet only (empty for a workbook
    without sheets). *)
Theorem result_carries_inputs env info log analysis log' :
  analyze_spreadsheet env info log = (Py.Ok analysis, log') ->
  SpreadsheetAnalysis.spreadsheet_info analysis = info
  /\ SpreadsheetAnalysis.analysis_timestamp analysis = Some (Env.timestamp_now env)
  /\ SpreadsheetAnalysis.global_styles analysis
     = match SpreadsheetAnalysis.sheets analysis with
       | first :: _ => SheetAnalysis.styles_map first
       | [] => ∅
       end.
Proof.
  intros H. apply analyze_spreadsheet_result in H as (wb & a0 & _ & Hloop & -> & _).
  apply loop_state in Hloop as (added & _ & _ & _ & Hi & Ht & _). cbn in *.
  auto.
Qed.

Lemma loop_failure_log wb names : forall analysis log e log',
  (forall n, In n names -> In n (Workbook.sheetnames wb)) ->
  Logging.for_each (analyze_step wb) names analysis log = (Py.Raise e, log') ->
  exists entries rest,
    names = (entries ++ rest)%list /\ entries <> []
    /\ log' = (log ++ map entered entries)%list.
Proof.
  induction names as [|n names IH]; intros analysis log e log' Hlisted H;
    cbn [Logging.for_each] in H; [discriminate|].
  unfold Logging.bind in H.
  destruct (analyze_step wb analysis n log) as [[a1|e1] log1] eqn:Hstep.
  - apply analyze_step_result in Hstep as (sa & _ & _ & _ & _ & _ & ->).
    apply IH in H as (entries & rest & -> & _ & ->); [|intros; apply Hlisted; now right].
    exists (n :: entries), rest. cbn. rewrite <- app_assoc. repeat split; discriminate.
  - injection H as <- <-.
    destruct (getitem_listed wb n) as (sheet & Hget); [apply Hlisted, in_eq|].
    unfold analyze_step, Logging.bind, Logging.lift in Hstep. rewrite Hget in Hstep.
    rewrite analyze_sheet_log in Hstep.
    destruct (sheet_outcome sheet n); [discriminate|]. injection Hstep as _ <-.
    exists [n], names. repeat split; discriminate.
Qed.

(** X3: what a run writes to the logger, after the records that were
    there: the opening INFO record, one DEBUG record per sheet entered, in
    workbook order, and then either the closing INFO record with the sheet
    count and the score (success), or a single ERROR record with the text
    of the cause (failure). A failed run entered no sheet when the workbook
    did not open, and otherwise a non-empty prefix of the sheet names. *)
Theorem log_protocol env info log :
  match analyze_spreadsheet env info log with
  | (Py.Ok analysis, log') =>
      exists wb,
        Env.load_workbook env (SpreadsheetInfo.path info) = Py.Ok wb
        /\ log' = (log ++ [started info] ++ map entered (Workbook.sheetnames wb)
                       ++ [concluded analysis])%list
  | (Py.Raise x, log') =>
      exists e entries,
        x = AnalysisException e
        /\ log' = (log ++ [started info] ++ map entered entries ++ [failed info e])%list
        /\ match Env.load_workbook env (SpreadsheetInfo.path info) with
           | Py.Ok wb => exists rest, Workbook.sheetnames wb = (entries ++ rest)%list /\ entries <> []
           | Py.Raise e' => e' = e /\ entries = []
           end
  end.
Proof.
  destruct (analyze_spreadsheet env info log) as [[analysis|x] log'] eqn:Hrun.
  - apply analyze_spreadsheet_result in Hrun as (wb & a0 & Hload & _ & _ & ->). eauto.
  - revert Hrun.
    cbv [analyze_spreadsheet analyze_body analyze_handler Logging.bind Logging.emit
         Logging.try_except Logging.lift Logging.raise Logging.ret].
    fold (started info).
    destruct (Env.load_workbook env (SpreadsheetInfo.path info)) as [wb|e].
    + destruct (Logging.for_each _ _ _ _) as [[a0|e] log2] eqn:Hloop; [discriminate|].
      intros [= <- <-].
      apply loop_failure_log in Hloop as (entries & rest & Hnames & Hne & ->); [|auto].
      exists e, entries. rewrite <- !app_assoc. eauto 6.
    + intros [= <- <-]. exists e, []. cbn. rewrite <- app_assoc. auto.
Qed.

End Orchestration.

Section SheetSummary.

Import SpreadsheetAnalyzer Spec Terms.

Lemma header_scan_length ws row_num row_values has_text :
  header_scan ws row_num = Py.Ok (row_values, has_text) ->
  Py.len row_values = Z.max 0 (Worksheet.max_column ws).
Proof.
  unfold header_scan. intros H. apply header_cells_Ok in H as (vs & Hvs & -> & _).
  apply Forall2_length in Hvs. unfold Py.len. cbn [app].
  rewrite length_map, <- Hvs, length_map. unfold Py.range. rewrite length_map, length_seq. lia.
Qed.

Lemma non_empty_shape row_values :
  Forall (fun h => Py.str_truthy h = true) (non_empty row_values)
  /\ Py.len (non_empty row_values) <= Py.len row_values.
Proof.
  unfold non_empty, Py.len. split.
  - apply Forall_forall. intros h Hin%list_elem_of_In. now apply filter_In in Hin as [_ Hh].
  - pose proof (filter_length_le (fun v => Py.str_truthy v) row_values). lia.
Qed.

Lemma qualifying_row_has_headers row_values has_text :
  row_qualifies row_values has_text = true -> non_empty row_values <> [].
Proof.
  unfold row_qualifies. intros H.
  apply andb_prop in H as [H _]. apply andb_prop in H as [_ H].
  apply existsb_exists in H as (x & Hin & Hx). intros Hnil.
  assert (Hx' : In x (non_empty row_values)) by (apply filter_In; auto).
  now rewrite Hnil in Hx'.
Qed.

Lemma detect_headers_shape ws headers hr :
  _detect_headers ws = Py.Ok (headers, hr) ->
  (hr = None <-> headers = [])
  /\ Forall (fun h => Py.str_truthy h = true) headers
  /\ Py.len headers <= Z.max 0 (Worksheet.max_column ws).
Proof.
  unfold _detect_headers. intros H.
  apply (detect_range ws _ _ _ _ _ eq_refl) in H. destruct hr as [r|].
  - destruct H as (_ & (rv & ht & Hscan & Hq & ->) & _).
    pose proof (non_empty_shape rv) as [Hall Hlen].
    pose proof (header_scan_length _ _ _ _ Hscan).
    repeat split; try assumption; try lia; try discriminate.
    intros Hnil. now apply qualifying_row_has_headers in Hq.
  - destruct H as [-> _]. repeat split; auto. unfold Py.len. cbn [length]. lia.
Qed.

(** X4: the header detector returns no header row exactly when it returns
    no headers; every header is a non-empty string and there are at most
    as many headers as the sheet has columns. *)
Theorem headers_shape ws headers hr :
  _detect_headers ws = Py.Ok (headers, hr) ->
  (hr = None <-> headers = [])
  /\ Forall (fun h => Py.str_truthy h = true) headers
  /\ Py.len headers <= Z.max 0 (Worksheet.max_column ws).
Proof. exact (detect_headers_shape ws headers hr). Qed.

Lemma analyze_sheet_range ws sheet_name log sa log' :
  _analyze_sheet (Sheet.Work ws) sheet_name log = (Py.Ok sa, log') ->
  data_range_of (SheetAnalysis.header_row sa) (Worksheet.max_row ws) (Worksheet.max_column ws)
  = Py.Ok (SheetAnalysis.data_range sa).
Proof.
  unfold _analyze_sheet. intros H.
  apply io_bind_Ok_inv in H as ([] & log1 & _ & H).
  unfold Logging.lift in H. injection H as H _. cbn [grid Py.bind] in H.
  apply bind_Ok_inv in H as ([headers header_row] & Hdet & H).
  apply bind_Ok_inv in H as (data_range & Hrange & H).
  apply bind_Ok_inv in H as (formulas & Hform & H).
  apply bind_Ok_inv in H as (styles_map & Hsty & H).
  apply bind_Ok_inv in H as (visual & Hvis & H).
  apply bind_Ok_inv in H as (data_types & Hdt & H).
  injection H as <-. exact Hrange.
Qed.

(** X5: a sheet analysis records the name it was given, the dimensions
    and the merged ranges of the worksheet. Without a header row it has no
    headers, no data range and no data types; with header row [h] it has
    headers, and its data range is "A", [h + 1], ":", the letter of the
    last column and the last row. *)
Theorem sheet_summary ws sheet_name log sa log' :
  _analyze_sheet (Sheet.Work ws) sheet_name log = (Py.Ok sa, log') ->
  SheetAnalysis.name sa = sheet_name
  /\ SheetAnalysis.row_count sa = Worksheet.max_row ws
  /\ SheetAnalysis.column_count sa = Worksheet.max_column ws
  /\ SheetAnalysis.merged_cells sa = Worksheet.merged_ranges ws
  /\ match SheetAnalysis.header_row sa with
     | None =>
         SheetAnalysis.headers sa = [] /\ SheetAnalysis.data_range sa = None
         /\ SheetAnalysis.data_types sa = ∅
     | Some h =>
         SheetAnalysis.headers sa <> []
         /\ exists letter,
              get_column_letter (Worksheet.max_column ws) = Py.Ok letter
              /\ SheetAnalysis.data_range sa
                 = Some ("A" +:+ Py.str_of_int (h + 1) +:+ ":" +:+ letter
                         +:+ Py.str_of_int (Worksheet.max_row ws))
     end.
Proof.
  intros H. pose proof (analyze_sheet_range _ _ _ _ _ H) as Hrange.
  apply analyze_sheet_Ok in H
    as (ws0 & [= <-] & Hname & Hrows & Hcols & Hdet & _ & Hmerged & _ & _ & Hdt).
  repeat (split; [assumption|]).
  pose proof (detect_headers_shape _ _ _ Hdet) as (Hnone & _ & _).
  destruct (SheetAnalysis.header_row sa) as [h|] eqn:Hh.
  - split; [intros Hnil; apply Hnone in Hnil; discriminate|].
    apply detect_headers_found in Hdet as (Hr & _).
    unfold data_range_of in Hrange. cbn [header_row_truthy] in Hrange.
    destruct (Z.eqb_spec h 0); [lia|]. cbn [negb] in Hrange.
    apply bind_Ok_inv in Hrange as (letter & Hl & [= <-]). eauto.
  - split; [now apply Hnone|]. cbn in Hrange, Hdt. injection Hrange as <-. injection Hdt as <-. auto.
Qed.

Lemma type_columns_unsampled ws cols : forall (dt : gmap string string),
  (forall col, In col cols -> 1 <= col <= 18278) ->
  Py.for_each (type_column ws []) cols dt = Py.Ok dt.
Proof.
  induction cols as [|col cols IH]; intros dt H; cbn [Py.for_each]; [reflexivity|].
  destruct (get_column_letter_total col (H col (or_introl eq_refl))) as (letter & Hl).
  unfold type_column at 1. rewrite Hl. cbn. apply IH. intros; apply H; now right.
Qed.

(** X6: when the header row is the last row of the sheet (or beyond it)
    no row is sampled: the data-type map is empty, whatever the cells hold,
    on a sheet of at most 18278 columns. *)
Theorem header_on_last_row ws h :
  h <> 0 -> Worksheet.max_row ws <= h -> Worksheet.max_column ws <= 18278 ->
  _detect_data_types ws (Some h) = Py.Ok ∅.
Proof.
  intros Hh Hlast Hcols. unfold _detect_data_types. cbn [header_row_truthy].
  destruct (Z.eqb_spec h 0); [contradiction|]. cbn [negb].
  rewrite (range_nil (h + 1)) by lia.
  apply type_columns_unsampled. intros col Hcol%elem_of_range. lia.
Qed.

Lemma hyperlink_cells_Ok cells : forall acc,
  Forall (fun cell => linked cell = true -> exists a, Cell.coordinate cell = Py.Ok a) cells ->
  exists entries,
    Py.for_each hyperlink_cell cells acc = Py.Ok (acc ++ entries)%list
    /\ Forall2 link_entry (List.filter linked cells) entries.
Proof.
  intros acc H. revert acc. induction H as [|cell cells Hcell _ IH]; intros acc.
  - exists []. cbn. rewrite app_nil_r. split; [reflexivity | constructor].
  - cbn [Py.for_each List.filter]. unfold hyperlink_cell at 1. unfold linked in *.
    destruct (Cell.hyperlink cell) as [link|] eqn:Hlink.
    + destruct (Hcell eq_refl) as [a Ha]. rewrite Ha. cbn [Py.bind].
      destruct (IH (acc ++ [HyperlinkEntry a (Hyperlink.target link)])%list) as (entries & -> & Hrec).
      eexists (_ :: entries). rewrite <- app_assoc. split; [reflexivity|].
      constructor; [|assumption]. exists link, a. auto.
    + cbn [Py.bind]. apply IH.
Qed.

(** X7: on a sheet of at most 18278 columns the visual catalog does not
    raise. It has the six keys in a fixed order, "shapes" is always empty,
    charts and images are listed when the worksheet has the attribute,
    each conditional-formatting group is listed with its number of rules,
    and there is exactly one hyperlink entry, with coordinate and target,
    per cell that carries a hyperlink, in iteration order. *)
Theorem visual_catalog ws :
  Worksheet.max_column ws <= 18278 ->
  exists hyperlinks,
    _catalog_visual_elements ws
    = Py.Ok [ ("charts", map (fun chart => ChartEntry (Chart.type_name chart))
                             (listed (Worksheet._charts ws)));
              ("images", map (fun img => ImageEntry (Image.anchor img))
                             (listed (Worksheet._images ws)));
              ("shapes", []);
              ("conditional_formatting",
               map (fun cf => ConditionalFormattingEntry (ConditionalFormatting.sqref cf)
                                (Py.len (ConditionalFormatting.cfRule cf)))
                   (Worksheet.conditional_formatting ws));
              ("data_validation",
               map (fun dv => DataValidationEntry (DataValidation.sqref dv) (DataValidation.type dv))
                   (Worksheet.data_validations ws));
              ("hyperlinks", hyperlinks) ]
    /\ Forall2 link_entry (List.filter linked (concat (Worksheet.iter_rows ws))) hyperlinks.
Proof.
  intros Hcols. unfold _catalog_visual_elements. rewrite for_each_nested.
  destruct (hyperlink_cells_Ok (concat (Worksheet.iter_rows ws)) []) as (entries & -> & Hrec).
  { apply Forall_forall. intros cell Hin%list_elem_of_In _.
    apply in_iter_rows in Hin as (r & c & _ & Hc & ->). apply coordinate_Ok. cbn. lia. }
  exists entries. split; [|assumption]. cbn [Py.bind app].
  destruct (Worksheet._charts ws), (Worksheet._images ws); reflexivity.
Qed.

End SheetSummary.

Section StyleScan.

Import SpreadsheetAnalyzer Spec Terms.

Lemma style_cells_raise cells : forall (m : gmap string CellStyle.t) cell e,
  In cell cells -> style_wanted cell = Py.Raise e ->
  exists e', Py.for_each style_cell cells m = Py.Raise e'.
Proof.
  induction cells as [|x cells IH]; intros m cell e Hin Hw; [contradiction|].
  cbn [Py.for_each]. destruct (style_cell m x) as [m'|e'] eqn:Hx; cbn [Py.bind]; [|eauto].
  destruct Hin as [->|Hin]; [|eauto].
  unfold style_cell in Hx. rewrite Hw in Hx. discriminate.
Qed.

Lemma gradient_raises cell :
  font_is_custom cell = false -> Cell.fill cell = Some Fill.GradientFill ->
  _has_custom_style cell
  = Py.Raise (Py.Exc "AttributeError" "'GradientFill' object has no attribute 'start_color'").
Proof.
  intros Hfont Hfill. unfold _has_custom_style, fill_is_custom. now rewrite Hfont, Hfill.
Qed.

Lemma style_cells_raise_class cells : forall (m : gmap string CellStyle.t) e,
  Forall (fun cell => (exists v, Cell.value cell = Py.Ok v)
                      /\ exists key, Cell.coordinate cell = Py.Ok key) cells ->
  Py.for_each style_cell cells m = Py.Raise e ->
  e = Py.Exc "AttributeError" "'GradientFill' object has no attribute 'start_color'".
Proof.
  intros m e H. revert m.
  induction H as [|cell cells [[v Hv] [key Hkey]] _ IH]; intros m Hrun; [discriminate|].
  cbn [Py.for_each] in Hrun.
  destruct (style_cell m cell) as [m1|e1] eqn:Hcell; cbn [Py.bind] in Hrun; [eauto|].
  injection Hrun as <-. unfold style_cell, style_wanted in Hcell. rewrite Hv in Hcell.
  cbn [Py.bind] in Hcell.
  destruct (negb (Py.is_none v)); cbn [Py.bind] in Hcell.
  { rewrite Hkey in Hcell. discriminate. }
  unfold _has_custom_style, fill_is_custom in Hcell.
  destruct (font_is_custom cell); cbn [Py.bind] in Hcell.
  { rewrite Hkey in Hcell. discriminate. }
  destruct (Cell.fill cell) as [[[col|]|]|]; cbn [Py.bind] in Hcell;
    repeat (match type of Hcell with context [if ?b then _ else _] => destruct b end;
            cbn [Py.bind] in Hcell);
    rewrite ?Hkey in Hcell; try discriminate Hcell.
  now injection Hcell as <-.
Qed.

(** X8: a blank cell whose font is not custom and whose fill is a gradient
    fill makes the style scan of the whole sheet raise: the custom-style
    test reads [start_color], which a gradient fill does not have. On a
    sheet of at most 18278 columns whose values can all be read, what the
    scan raises is that [AttributeError]. *)
Theorem gradient_fill_aborts_style_scan ws r c :
  1 <= r <= Worksheet.max_row ws -> 1 <= c <= Worksheet.max_column ws ->
  Cell.value (Worksheet.cell ws r c) = Py.Ok Py.VNone ->
  font_is_custom (Worksheet.cell ws r c) = false ->
  Cell.fill (Worksheet.cell ws r c) = Some Fill.GradientFill ->
  (exists e, _map_cell_styles ws = Py.Raise e)
  /\ (Worksheet.max_column ws <= 18278 ->
      (forall r' c', 1 <= r' <= Worksheet.max_row ws -> 1 <= c' <= Worksheet.max_column ws ->
                     exists v, CellData.value (Worksheet.cells ws r' c') = Py.Ok v) ->
      _map_cell_styles ws
      = Py.Raise (Py.Exc "AttributeError" "'GradientFill' object has no attribute 'start_color'")).
Proof.
  intros Hr Hc Hv Hfont Hfill.
  assert (Hraise : exists e, _map_cell_styles ws = Py.Raise e).
  { unfold _map_cell_styles. rewrite for_each_nested.
    eapply style_cells_raise.
    - apply in_iter_rows. eauto 6.
    - unfold style_wanted. rewrite Hv. cbn. now apply gradient_raises. }
  split; [exact Hraise|].
  intros Hcols Hread. destruct Hraise as (e & He). rewrite He. f_equal.
  unfold _map_cell_styles in He. rewrite for_each_nested in He.
  eapply style_cells_raise_class; [|exact He].
  apply Forall_forall. intros cell Hin. apply list_elem_of_In, in_iter_rows in Hin.
  destruct Hin as (r' & c' & Hr' & Hc' & ->). split.
  - exact (Hread r' c' Hr' Hc').
  - apply coordinate_Ok. cbn. lia.
Qed.

(** X9: when the custom-style test answers no for a cell, the style
    extracted from that cell is not bold, not italic, has no border, no
    alignment, a fill colour that is absent or the all-zero colour, and, if
    the cell has a font, size 11; its number format is the cell's. *)
Theorem plain_cell_plain_style cell :
  _has_custom_style cell = Py.Ok false ->
  let style := _extract_cell_style cell in
  CellStyle.font_bold style = false
  /\ CellStyle.font_italic style = false
  /\ (Cell.font cell = None \/ ne_int (CellStyle.font_size style) 11 = false)
  /\ (CellStyle.fill_color style = None \/ CellStyle.fill_color style = Some "00000000")
  /\ CellStyle.border_style style = None
  /\ opt_str_truthy (CellStyle.alignment_horizontal style) = false
  /\ opt_str_truthy (CellStyle.alignment_vertical style) = false
  /\ CellStyle.number_format style = Some (Cell.number_format cell).
Proof.
  unfold _has_custom_style, fill_is_custom, font_is_custom, border_is_custom, alignment_is_custom,
    _extract_cell_style.
  destruct (Cell.font cell) as [font|]; cbn.
  - destruct (flag_truthy (Font.bold font)) eqn:Hb; cbn; [discriminate|].
    destruct (flag_truthy (Font.italic font)) eqn:Hi; cbn; [discriminate|].
    destruct (ne_int (Font.size font) 11) eqn:Hs; cbn; [discriminate|].
    destruct (Cell.fill cell) as [[[color|]|]|]; cbn; try discriminate;
      destruct (Cell.border cell) as [border|]; cbn;
      destruct (Cell.alignment cell) as [alignment|]; cbn;
      repeat match goal with
             | |- context [String.eqb ?a ?b] => destruct (String.eqb_spec a b); cbn
             | |- context [any_side ?b] => destruct (any_side b); cbn
             | |- context [opt_str_truthy ?o || _] => destruct (opt_str_truthy o) eqn:?; cbn
             | |- context [if opt_str_truthy ?o then _ else _] => destruct (opt_str_truthy o) eqn:?; cbn
             end; try discriminate; intros _; repeat split; auto; try congruence;
      try (right; congruence).
  - destruct (Cell.fill cell) as [[[color|]|]|]; cbn; try discriminate;
      destruct (Cell.border cell) as [border|]; cbn;
      destruct (Cell.alignment cell) as [alignment|]; cbn;
      repeat match goal with
             | |- context [String.eqb ?a ?b] => destruct (String.eqb_spec a b); cbn
             | |- context [any_side ?b] => destruct (any_side b); cbn
             | |- context [opt_str_truthy ?o || _] => destruct (opt_str_truthy o) eqn:?; cbn
             | |- context [if opt_str_truthy ?o then _ else _] => destruct (opt_str_truthy o) eqn:?; cbn
             end; try discriminate; intros _; repeat split; auto; try congruence;
      try (right; congruence).
Qed.

End StyleScan.

Section TypeValues.

Import SpreadsheetAnalyzer Spec Terms.

Lemma type_column_value ws rows (dt dt' : gmap string string) col :
  type_column ws rows dt col = Py.Ok dt' ->
  exists letter values,
    get_column_letter col = Py.Ok letter /\ sampled ws rows col values
    /\ match values with
       | [] => dt' = dt
       | _ => exists k, _infer_data_type values = Py.Ok k /\ dt' = <[letter := k]> dt
       end.
Proof.
  unfold type_column. intros H.
  apply bind_Ok_inv in H as (letter & Hl & H).
  apply bind_Ok_inv in H as (vals & Hvals & H).
  exists letter, vals. split; [assumption|].
  apply sample_cells_Ok in Hvals as (read & Hread & ->). cbn [app] in *.
  split; [exists read; auto|].
  destruct (List.filter _ read) as [|v vals].
  - now injection H as <-.
  - apply bind_Ok_inv in H as (k & Hk & [= <-]). eauto.
Qed.

Lemma type_columns_value ws rows cols : forall (dt dt' : gmap string string),
  Py.for_each (type_column ws rows) cols dt = Py.Ok dt' ->
  forall key k, dt' !! key = Some k ->
    dt !! key = Some k
    \/ exists col values,
         In col cols /\ get_column_letter col = Py.Ok key /\ sampled ws rows col values
         /\ values <> [] /\ _infer_data_type values = Py.Ok k.
Proof.
  induction cols as [|col cols IH]; intros dt dt' H key k Hk; cbn [Py.for_each] in H.
  - injection H as <-. now left.
  - apply bind_Ok_inv in H as (dt1 & Hcol & H).
    destruct (IH _ _ H key k Hk) as [Hk1 | (col' & values & Hin & Hl & Hs & Hne & Hinf)].
    + apply type_column_value in Hcol as (letter & values & Hl & Hs & Hcase).
      destruct values as [|v values].
      * subst dt1. now left.
      * destruct Hcase as (k' & Hinf & ->). rewrite lookup_insert in Hk1.
        destruct (decide (letter = key)) as [<-|]; [|now left].
        injection Hk1 as <-. right. exists col, (v :: values).
        repeat split; auto using in_eq.
    + right. exists col', values. auto using in_cons.
Qed.

(** X10: the type stored under the letter of a column is the type
    inferred from the non-null values of that column in the sampled rows,
    top to bottom, and there is at least one such value. *)
Theorem data_type_of_column ws h (dt : gmap string string) col letter k :
  _detect_data_types ws (Some h) = Py.Ok dt ->
  1 <= col <= Worksheet.max_column ws ->
  get_column_letter col = Py.Ok letter ->
  dt !! letter = Some k ->
  exists values,
    sampled ws (sample_window ws h) col values
    /\ values <> [] /\ _infer_data_type values = Py.Ok k.
Proof.
  unfold _detect_data_types. cbn [header_row_truthy]. intros H Hcol Hl Hk.
  destruct (negb (h =? 0)).
  - destruct (type_columns_value _ _ _ _ _ H letter k Hk)
      as [Hk0 | (col' & values & Hin & Hl' & Hs & Hne & Hinf)].
    + now rewrite lookup_empty in Hk0.
    + rewrite (get_column_letter_inj _ _ _ Hl Hl'). eauto.
  - injection H as <-. now rewrite lookup_empty in Hk.
Qed.

Lemma tally_pair values k k' :
  k <> k' -> tally values k + tally values k' <= Py.len values.
Proof.
  intros Hne. induction values as [|v values IH]; [unfold tally, Py.len; cbn; lia|].
  rewrite !tally_cons. unfold Py.len in *. cbn [length]. rewrite Nat2Z.inj_succ.
  destruct (String.eqb_spec (type_key v) k) as [E1|]; destruct (String.eqb_spec (type_key v) k') as [E2|];
    try lia. congruence.
Qed.

(** X11: a class that holds more than half of the sampled values is the
    inferred type. *)
Theorem majority_wins values k :
  In k type_order -> Py.len values < 2 * tally values k ->
  _infer_data_type values = Py.Ok k.
Proof.
  intros Hk Hmaj.
  assert (Hne : values <> []) by (intros ->; unfold tally, Py.len in Hmaj; cbn in Hmaj; lia).
  destruct (infer_first_maximal values Hne) as (k' & i & Hinf & _ & Hmax & _).
  rewrite Hinf. f_equal. destruct (String.eqb_spec k' k) as [|Hd]; [assumption|].
  pose proof (Hmax k Hk). pose proof (tally_pair values k' k Hd). lia.
Qed.

End TypeValues.

Section ScoreOrder.

Import SpreadsheetAnalyzer Spec.

Lemma total_app {A : Type} (f : A -> Z) (l1 l2 : list A) :
  Spec.total f (l1 ++ l2) = Spec.total f l1 + Spec.total f l2.
Proof. induction l1 as [|x l1 IH]; cbn [app Spec.total]; lia. Qed.

(** X12: adding sheets to an analysis never lowers its complexity
    score. *)
Theorem more_sheets_no_lower_score analysis analysis' extra :
  SpreadsheetAnalysis.sheets analysis' = (SpreadsheetAnalysis.sheets analysis ++ extra)%list ->
  _calculate_complexity_score analysis <= _calculate_complexity_score analysis'.
Proof.
  intros Hs. unfold _calculate_complexity_score. rewrite !accumulate_total, !sum_total, Hs.
  set (sheets := SpreadsheetAnalysis.sheets analysis).
  rewrite !total_app. unfold Py.len. rewrite length_app, Nat2Z.inj_add.
  pose proof (total_nonneg (fun sheet => Z.of_nat (length (SheetAnalysis.formulas sheet))) extra
                (fun s => Nat2Z.is_nonneg _)).
  pose proof (total_nonneg (fun sheet => Z.of_nat (length (SheetAnalysis.merged_cells sheet))) extra
                (fun s => Nat2Z.is_nonneg _)).
  pose proof (total_nonneg (fun sheet => Z.of_nat (size (SheetAnalysis.styles_map sheet))) extra
                (fun s => Nat2Z.is_nonneg _)).
  assert (0 <= Spec.total (fun sheet => Z.min (visual_count sheet * 2) 15) extra).
  { apply total_nonneg. intros sheet. unfold visual_count. rewrite sum_total.
    pose proof (total_nonneg (fun elements : list VisualElement => Py.len elements)
                  (Py.dict_values (SheetAnalysis.visual_elements sheet))
                  (fun l => len_nonneg l)).
    lia. }
  set (s1 := Spec.total (fun sheet => Z.of_nat (size (SheetAnalysis.styles_map sheet))) sheets) in *.
  set (s2 := Spec.total (fun sheet => Z.of_nat (size (SheetAnalysis.styles_map sheet))) extra) in *.
  assert (s1 / 10 <= (s1 + s2) / 10) by (apply Z.div_le_mono; lia).
  lia.
Qed.

End ScoreOrder.

Section Coordinates.

Import SpreadsheetAnalyzer Spec Terms.

Lemma capital_chr (x : Z) : 65 <= x <= 90 -> capital (Py.chr (Z.to_nat x)) = true.
Proof.
  intros Hx. unfold capital, Py.ord, Py.chr.
  rewrite nat_ascii_embedding by lia.
  apply andb_true_intro. split; apply Nat.leb_le; lia.
Qed.

Lemma column_letters_capital (fuel : nat) : forall idx acc,
  forallb capital acc = true -> forallb capital (column_letters fuel idx acc) = true.
Proof.
  induction fuel as [|fuel IH]; intros idx acc Hacc; cbn [column_letters]; [assumption|].
  destruct (0 <? idx); [|assumption].
  destruct (Z.eqb_spec (idx mod 26) 0) as [|Hr]; apply IH; cbn [forallb]; rewrite Hacc.
  - reflexivity.
  - rewrite capital_chr; [reflexivity|]. pose proof (Z.mod_pos_bound idx 26 ltac:(lia)). lia.
Qed.

Lemma split_letters (letters : list ascii) (rest : string) :
  forallb capital letters = true ->
  match rest with EmptyString => True | String c _ => capital c = false end ->
  split_coordinate (Py.of_chars letters +:+ rest) = (Py.of_chars letters, rest).
Proof.
  intros Hl Hrest. induction letters as [|c letters IH].
  - change (Py.of_chars [] +:+ rest) with rest.
    destruct rest as [|c rest]; [reflexivity|]. cbn [split_coordinate]. now rewrite Hrest.
  - cbn [forallb] in Hl. apply andb_prop in Hl as [Hc Hl].
    change (Py.of_chars (c :: letters) +:+ rest) with (String c (Py.of_chars letters +:+ rest)).
    cbn [split_coordinate Py.of_chars]. now rewrite Hc, (IH Hl).
Qed.

Lemma str_of_int_head (n : Z) :
  match Py.str_of_int n with EmptyString => True | String c _ => capital c = false end.
Proof.
  unfold Py.str_of_int, NilZero.string_of_int.
  destruct (Z.to_int n) as [d|d]; [|exact eq_refl].
  unfold NilZero.string_of_uint. destruct d; cbn; reflexivity.
Qed.

Lemma to_int_proper (n : Z) : Z.to_int n <> Decimal.Pos Decimal.Nil /\ Z.to_int n <> Decimal.Neg Decimal.Nil.
Proof.
  destruct n as [|p|p]; cbn; split; try discriminate;
    intros [= H]; now apply DecimalPos.Unsigned.to_uint_nonnil in H.
Qed.

Lemma str_of_int_inj (a b : Z) : Py.str_of_int a = Py.str_of_int b -> a = b.
Proof.
  unfold Py.str_of_int. intros H.
  assert (Hd : Some (Z.to_int a) = Some (Z.to_int b)).
  { destruct (to_int_proper a), (to_int_proper b).
    rewrite <- (NilZero.isi (Z.to_int a)), <- (NilZero.isi (Z.to_int b)) by assumption.
    now rewrite H. }
  injection Hd as Hd. rewrite <- (DecimalZ.of_to a), <- (DecimalZ.of_to b). now rewrite Hd.
Qed.

(** Two cells with the same coordinate are at the same position. *)
Lemma coordinate_inj (c1 c2 : Cell.t) key :
  Cell.coordinate c1 = Py.Ok key -> Cell.coordinate c2 = Py.Ok key ->
  Cell.row c1 = Cell.row c2 /\ Cell.column c1 = Cell.column c2.
Proof.
  unfold Cell.coordinate. intros H1 H2.
  apply bind_Ok_inv in H1 as (l1 & Hl1 & [= <-]).
  apply bind_Ok_inv in H2 as (l2 & Hl2 & [= Heq]).
  assert (Hsplit : forall col l row, get_column_letter col = Py.Ok l ->
             split_coordinate (l +:+ Py.str_of_int row) = (l, Py.str_of_int row)).
  { intros col l row Hl. unfold get_column_letter in Hl.
    destruct (_ && _); [|discriminate].
    replace l with (Py.of_chars (column_letters 3 col [])) by congruence.
    apply split_letters; [now apply column_letters_capital | apply str_of_int_head]. }
  pose proof (Hsplit _ _ (Cell.row c1) Hl1) as S1.
  pose proof (Hsplit _ _ (Cell.row c2) Hl2) as S2.
  rewrite <- Heq, S2 in S1. injection S1 as <- Hrow.
  split; [symmetry; now apply str_of_int_inj | exact (get_column_letter_inj _ _ _ Hl1 Hl2)].
Qed.

Lemma style_cells_value cells : forall (m m' : gmap string CellStyle.t),
  Py.for_each style_cell cells m = Py.Ok m' ->
  forall key style, m' !! key = Some style ->
    m !! key = Some style
    \/ exists cell, In cell cells /\ Cell.coordinate cell = Py.Ok key
                    /\ style = _extract_cell_style cell.
Proof.
  induction cells as [|cell cells IH]; intros m m' H key style Hk; cbn [Py.for_each] in H.
  - injection H as <-. now left.
  - apply bind_Ok_inv in H as (m1 & Hcell & H).
    destruct (IH _ _ H key style Hk) as [Hk1 | (cell' & Hin & Hc & Hs)].
    + unfold style_cell in Hcell. apply bind_Ok_inv in Hcell as (wanted & _ & Hcell).
      destruct wanted.
      * apply bind_Ok_inv in Hcell as (coord & Hcoord & [= <-]).
        rewrite lookup_insert in Hk1. destruct (decide (coord = key)) as [<-|]; [|now left].
        injection Hk1 as <-. right. exists cell. auto using in_eq.
      * injection Hcell as <-. now left.
    + right. exists cell'. auto using in_cons.
Qed.

(** X13: the style stored under the coordinate of a cell is the style
    extracted from that cell: distinct cells have distinct coordinates, so
    no other cell writes under that key. *)
Theorem style_of_cell ws (m : gmap string CellStyle.t) r c key style :
  _map_cell_styles ws = Py.Ok m ->
  Cell.coordinate (Worksheet.cell ws r c) = Py.Ok key ->
  m !! key = Some style ->
  style = _extract_cell_style (Worksheet.cell ws r c).
Proof.
  unfold _map_cell_styles. rewrite for_each_nested. intros H Hkey Hk.
  destruct (style_cells_value _ _ _ H key style Hk) as [Hk0 | (cell & Hin & Hc & ->)].
  - now rewrite lookup_empty in Hk0.
  - apply in_iter_rows in Hin as (r' & c' & _ & _ & ->).
    destruct (coordinate_inj _ _ _ Hc Hkey) as [Hr Hcol]. cbn in Hr, Hcol. now subst.
Qed.

End Coordinates.

Section SampleWindow.

Import SpreadsheetAnalyzer Spec.

Lemma for_each_ext {A S : Type} (f g : S -> A -> Py.Result S) (l : list A) :
  (forall s x, In x l -> f s x = g s x) ->
  forall s, Py.for_each f l s = Py.for_each g l s.
Proof.
  induction l as [|x l IH]; intros H s; cbn [Py.for_each]; [reflexivity|].
  rewrite (H s x (or_introl eq_refl)). destruct (g s x); cbn [Py.bind]; [|reflexivity].
  apply IH. intros; apply H; now right.
Qed.

(** X14: data-type detection reads the values of the (at most ten) rows
    beneath the header row only: two sheets with the same number of
    columns, the same number of sampled rows and the same values in rows
    [h + 1] to [h + 10] get the same data-type map. *)
Theorem only_sample_window_read ws ws' h :
  Worksheet.max_column ws' = Worksheet.max_column ws ->
  Z.min 10 (Worksheet.max_row ws' - h) = Z.min 10 (Worksheet.max_row ws - h) ->
  (forall r c, h + 1 <= r <= h + 10 -> 1 <= c <= Worksheet.max_column ws ->
               CellData.value (Worksheet.cells ws' r c) = CellData.value (Worksheet.cells ws r c)) ->
  _detect_data_types ws' (Some h) = _detect_data_types ws (Some h).
Proof.
  intros Hc Hr Hcells. unfold _detect_data_types. rewrite Hc, Hr.
  destruct (header_row_truthy (Some h)); [|reflexivity].
  apply for_each_ext. intros dt col Hcol%elem_of_range. unfold type_column.
  destruct (get_column_letter col); cbn [Py.bind]; [|reflexivity].
  rewrite (for_each_ext (sample_cell ws' col) (sample_cell ws col)); [reflexivity|].
  intros vals r Hrow%elem_of_range. unfold sample_cell, Cell.value, Worksheet.cell. cbn.
  rewrite Hcells by lia. reflexivity.
Qed.

End SampleWindow.

Section FurtherExamples.

Import SpreadsheetAnalyzer Spec Terms.

Lemma flags_tell_sheets_witness :
  (SpreadsheetAnalysis.has_formulas Samples.sales_analysis = true
   <-> exists sheet, In sheet (SpreadsheetAnalysis.sheets Samples.sales_analysis)
                     /\ SheetAnalysis.formulas sheet <> [])
  /\ (SpreadsheetAnalysis.has_merged_cells Samples.sales_analysis = true
      <-> exists sheet, In sheet (SpreadsheetAnalysis.sheets Samples.sales_analysis)
                        /\ SheetAnalysis.merged_cells sheet <> []).
Proof.
  apply (flags_tell_sheets (Samples.env_of Samples.sales_book) Samples.info []
           Samples.sales_analysis Samples.sales_log).
  vm_compute. reflexivity.
Defined.

Example sales_flags :
  SpreadsheetAnalysis.has_formulas Samples.sales_analysis = true
  /\ SpreadsheetAnalysis.has_merged_cells Samples.sales_analysis = false.
Proof. split; vm_compute; reflexivity. Qed.

Lemma result_carries_inputs_witness :
  SpreadsheetAnalysis.spreadsheet_info Samples.sales_analysis = Samples.info
  /\ SpreadsheetAnalysis.analysis_timestamp Samples.sales_analysis
     = Some (Env.timestamp_now (Samples.env_of Samples.sales_book))
  /\ SpreadsheetAnalysis.global_styles Samples.sales_analysis
     = match SpreadsheetAnalysis.sheets Samples.sales_analysis with
       | first :: _ => SheetAnalysis.styles_map first
       | [] => ∅
       end.
Proof.
  apply (result_carries_inputs (Samples.env_of Samples.sales_book) Samples.info []
           Samples.sales_analysis Samples.sales_log).
  vm_compute. reflexivity.
Defined.

Example failed_run_log :
  snd (analyze_spreadsheet (Samples.env_of Samples.with_chart) Samples.info [])
  = [started Samples.info; entered "Vendas"; entered "Grafico";
     failed Samples.info Samples.no_attribute].
Proof. vm_compute. reflexivity. Qed.

Lemma headers_shape_witness :
  (Some 1 = None <-> ["Data"; "Produto"; "Quantidade"; "Total"] = [])
  /\ Forall (fun h => Py.str_truthy h = true) ["Data"; "Produto"; "Quantidade"; "Total"]
  /\ Py.len ["Data"; "Produto"; "Quantidade"; "Total"]
     <= Z.max 0 (Worksheet.max_column Samples.sales).
Proof.
  apply (headers_shape Samples.sales ["Data"; "Produto"; "Quantidade"; "Total"] (Some 1)).
  vm_compute. reflexivity.
Defined.

Lemma sheet_summary_witness :
  SheetAnalysis.name Cases.sales_sheet = "Vendas"
  /\ SheetAnalysis.row_count Cases.sales_sheet = Worksheet.max_row Samples.sales
  /\ SheetAnalysis.column_count Cases.sales_sheet = Worksheet.max_column Samples.sales
  /\ SheetAnalysis.merged_cells Cases.sales_sheet = Worksheet.merged_ranges Samples.sales
  /\ match SheetAnalysis.header_row Cases.sales_sheet with
     | None =>
         SheetAnalysis.headers Cases.sales_sheet = []
         /\ SheetAnalysis.data_range Cases.sales_sheet = None
         /\ SheetAnalysis.data_types Cases.sales_sheet = ∅
     | Some h =>
         SheetAnalysis.headers Cases.sales_sheet <> []
         /\ exists letter,
              get_column_letter (Worksheet.max_column Samples.sales) = Py.Ok letter
              /\ SheetAnalysis.data_range Cases.sales_sheet
                 = Some ("A" +:+ Py.str_of_int (h + 1) +:+ ":" +:+ letter
                         +:+ Py.str_of_int (Worksheet.max_row Samples.sales))
     end.
Proof.
  apply (sheet_summary Samples.sales "Vendas" [] Cases.sales_sheet [entered "Vendas"]).
  vm_compute. reflexivity.
Defined.

Example sales_data_range : SheetAnalysis.data_range Cases.sales_sheet = Some "A2:D3".
Proof. vm_compute. reflexivity. Qed.

Lemma header_on_last_row_witness :
  _detect_data_types Cases.titles_only (Some 1) = Py.Ok ∅.
Proof.
  apply (header_on_last_row Cases.titles_only 1).
  - discriminate.
  - vm_compute. discriminate.
  - vm_compute. discriminate.
Defined.

(** The data range of a sheet with titles only runs from row 2 to row 1. *)
Example titles_only_range :
  match fst (_analyze_sheet (Sheet.Work Cases.titles_only) "Titulos" []) with
  | Py.Ok sa => SheetAnalysis.data_range sa = Some "A2:B1" /\ SheetAnalysis.data_types sa = ∅
  | Py.Raise _ => False
  end.
Proof. vm_compute. split; reflexivity. Qed.

Lemma visual_catalog_witness :
  exists hyperlinks,
    _catalog_visual_elements Cases.with_links
    = Py.Ok [ ("charts", [ChartEntry "BarChart"]);
              ("images", []);
              ("shapes", []);
              ("conditional_formatting", [ConditionalFormattingEntry "A1:A2" 2]);
              ("data_validation", [DataValidationEntry "B1" (Some "list")]);
              ("hyperlinks", hyperlinks) ]
    /\ Forall2 link_entry
         (List.filter linked (concat (Worksheet.iter_rows Cases.with_links))) hyperlinks.
Proof.
  apply (visual_catalog Cases.with_links). vm_compute. discriminate.
Defined.

Example with_links_hyperlinks :
  exists d,
    _catalog_visual_elements Cases.with_links = Py.Ok d
    /\ Py.dict_get d "hyperlinks"
       = Some [HyperlinkEntry "A1" (Some "https://example.org");
               HyperlinkEntry "B2" (Some "mailto:a@example.org")].
Proof. eexists. split; [vm_compute; reflexivity | reflexivity]. Qed.

Lemma gradient_fill_aborts_style_scan_witness :
  _map_cell_styles Cases.with_gradient
  = Py.Raise (Py.Exc "AttributeError" "'GradientFill' object has no attribute 'start_color'").
Proof.
  apply (proj2 (gradient_fill_aborts_style_scan Cases.with_gradient 1 2
                  ltac:(vm_compute; split; discriminate)
                  ltac:(vm_compute; split; discriminate)
                  eq_refl eq_refl eq_refl)).
  - vm_compute. discriminate.
  - intros r' c' _ _. apply grid_readable. repeat constructor; eexists; reflexivity.
Defined.

Example gradient_with_value_is_mapped :
  exists m,
    _map_cell_styles
      (Samples.sheet_of "Degrade"
         [ [CellData.Mk (Py.Ok (Py.VInt 1)) "n" None (Some Fill.GradientFill) None None
              "General" None] ])
    = Py.Ok m
    /\ is_Some (m !! "A1").
Proof. eexists. split; [vm_compute; reflexivity | vm_compute; eauto]. Qed.

Lemma plain_cell_plain_style_witness :
  let style := _extract_cell_style (Worksheet.cell Samples.sales 2 3) in
  CellStyle.font_bold style = false
  /\ CellStyle.font_italic style = false
  /\ (Cell.font (Worksheet.cell Samples.sales 2 3) = None
      \/ ne_int (CellStyle.font_size style) 11 = false)
  /\ (CellStyle.fill_color style = None \/ CellStyle.fill_color style = Some "00000000")
  /\ CellStyle.border_style style = None
  /\ opt_str_truthy (CellStyle.alignment_horizontal style) = false
  /\ opt_str_truthy (CellStyle.alignment_vertical style) = false
  /\ CellStyle.number_format style = Some (Cell.number_format (Worksheet.cell Samples.sales 2 3)).
Proof.
  apply (plain_cell_plain_style (Worksheet.cell Samples.sales 2 3)). reflexivity.
Defined.

Lemma data_type_of_column_witness :
  exists values,
    sampled Samples.sales (sample_window Samples.sales 1) 3 values
    /\ values <> [] /\ _infer_data_type values = Py.Ok "number".
Proof.
  apply (data_type_of_column Samples.sales 1 Samples.sales_types 3 "C" "number").
  - vm_compute. reflexivity.
  - vm_compute. split; discriminate.
  - reflexivity.
  - vm_compute. reflexivity.
Defined.

Lemma majority_wins_witness : _infer_data_type Cases.mostly_numbers = Py.Ok "number".
Proof.
  apply (majority_wins Cases.mostly_numbers "number").
  - left. reflexivity.
  - vm_compute. reflexivity.
Defined.

Lemma more_sheets_no_lower_score_witness :
  _calculate_complexity_score Samples.sales_analysis
  <= _calculate_complexity_score Cases.sales_and_more.
Proof.
  apply (more_sheets_no_lower_score Samples.sales_analysis Cases.sales_and_more
           [SheetAnalysis.Mk "Extra" 1 1 [] None None [] ["A1:B2"] ∅ [] ∅]).
  reflexivity.
Defined.

Example sales_and_more_score :
  _calculate_complexity_score Samples.sales_analysis = 10
  /\ _calculate_complexity_score Cases.sales_and_more = 18.
Proof. split; vm_compute; reflexivity. Qed.

Lemma style_of_cell_witness :
  Samples.sales_styles !! "C2" = Some Cases.unstyled
  /\ Cases.unstyled = _extract_cell_style (Worksheet.cell Samples.sales 2 3).
Proof.
  split; [vm_compute; reflexivity|].
  apply (style_of_cell Samples.sales Samples.sales_styles 2 3 "C2" Cases.unstyled).
  - vm_compute. reflexivity.
  - reflexivity.
  - vm_compute. reflexivity.
Defined.

Lemma only_sample_window_read_witness :
  _detect_data_types (Cases.tall (Py.VStr "fim")) (Some 1)
  = _detect_data_types (Cases.tall (Py.VInt 0)) (Some 1).
Proof.
  apply (only_sample_window_read (Cases.tall (Py.VInt 0)) (Cases.tall (Py.VStr "fim")) 1).
  - reflexivity.
  - reflexivity.
  - intros r c Hr _. cbn.
    destruct (Z.eqb_spec r 1); [reflexivity|].
    destruct (Z.leb_spec r 11); [reflexivity | lia].
Defined.

End FurtherExamples.

(** * Properties of the scanner *)

Section Scanner.

Import SpreadsheetScanner ScanTerms.

Lemma member_two x a b : Str.member x [a; b] = String.eqb x a || String.eqb x b.
Proof. unfold Str.member. cbn. now rewrite orb_false_r. Qed.

Lemma member_supported self x :
  Str.member x (supported_extensions self) = Str.member x [".xlsx"; ".xls"].
Proof.
  unfold supported_extensions. destruct (xlsx_first self); [reflexivity|].
  rewrite !member_two. apply orb_comm.
Qed.

(** One call of [_analyze_file]: it returns, and what it returns and what
    it logs do not depend on the records so far. *)
Lemma analyze_file_run fs self p log :
  exists o recs,
    _analyze_file fs self p log = (Py.Ok o, (log ++ recs)%list)
    /\ _analyze_file fs self p [] = (Py.Ok o, recs)
    /\ (length recs <= 1)%nat.
Proof.
  unfold _analyze_file, Logging.try_except.
  destruct (Str.startswith "." (PathObj.name p)).
  { exists None, []. cbn. rewrite app_nil_r. auto. }
  destruct (Str.startswith "~" (PathObj.name p) || Str.endswith "~" (PathObj.stem p)).
  { exists None, []. cbn. rewrite app_nil_r. auto. }
  destruct (negb _).
  { exists None, []. cbn. rewrite app_nil_r. auto. }
  unfold Logging.bind, Logging.lift, Logging.emit, Logging.ret.
  destruct (FileSystem.stat fs p) as [st|e].
  2:{ eexists None, [_]. cbn. auto. }
  destruct (FileSystem.fromtimestamp fs (Stat.st_mtime st)) as [mt|e].
  2:{ eexists None, [_]. cbn. auto. }
  eexists (Some _), [_]. cbn. auto.
Qed.

Lemma analyze_file_found fs self p log :
  exists recs, _analyze_file fs self p log = (Py.Ok (found fs self p), (log ++ recs)%list).
Proof.
  destruct (analyze_file_run fs self p log) as (o & recs & H & H0 & _).
  exists recs. unfold found. now rewrite H0.
Qed.


Lemma io_for_each_pure {A S : Type} (body : S -> A -> Logging.IO S) (f : S -> A -> S) (l : list A) :
  (forall s x log, In x l -> exists recs, body s x log = (Py.Ok (f s x), (log ++ recs)%list)) ->
  forall s log,
    exists recs, Logging.for_each body l s log = (Py.Ok (fold_left f l s), (log ++ recs)%list).
Proof.
  induction l as [|x l IH]; intros Hbody s log; cbn [Logging.for_each fold_left].
  - exists []. unfold Logging.ret. now rewrite app_nil_r.
  - unfold Logging.bind.
    destruct (Hbody s x log (or_introl eq_refl)) as (recs & ->).
    destruct (IH (fun s x log H => Hbody s x log (or_intror H)) (f s x) (log ++ recs)%list)
      as (recs' & ->).
    exists (recs ++ recs')%list. now rewrite app_assoc.
Qed.

Lemma fold_keep fs self l : forall acc,
  fold_left (keep fs self) l acc = (acc ++ omap (found fs self) l)%list.
Proof.
  induction l as [|p l IH]; intros acc; cbn [fold_left omap].
  - now rewrite app_nil_r.
  - rewrite IH. unfold keep. cbn. destruct (found fs self p); cbn; [|reflexivity].
    now rewrite <- app_assoc.
Qed.

Lemma pattern_step_run fs self acc p log :
  exists recs, pattern_step fs self acc p log = (Py.Ok (keep fs self acc p), (log ++ recs)%list).
Proof.
  unfold pattern_step, Logging.bind.
  destruct (analyze_file_found fs self p log) as (recs & ->).
  exists recs. unfold keep. now destruct (found fs self p).
Qed.

Lemma pattern_loop fs self paths log :
  exists recs,
    Logging.for_each (pattern_step fs self) paths [] log
    = (Py.Ok (omap (found fs self) paths), (log ++ recs)%list).
Proof.
  edestruct (io_for_each_pure (pattern_step fs self) (keep fs self) paths) as (recs & ->).
  { intros s x l _. apply pattern_step_run. }
  rewrite fold_keep. cbn [app]. now exists recs.
Qed.

Lemma scan_with_pattern_run fs self pattern log :
  exists recs,
    scan_with_pattern fs self pattern log
    = (match FileSystem.glob fs (subordinadas_path self) pattern with
       | Py.Ok paths => Py.Ok (omap (found fs self) paths)
       | Py.Raise e => Py.Raise e
       end,
       (log ++ recs)%list).
Proof.
  unfold scan_with_pattern, Logging.bind, Logging.emit, Logging.lift.
  destruct (FileSystem.glob fs (subordinadas_path self) pattern) as [paths|e].
  - match goal with |- context [Logging.for_each _ _ _ ?l] =>
      destruct (pattern_loop fs self paths l) as (recs & ->) end.
    eexists (_ :: recs). now rewrite <- app_assoc.
  - eexists [_]. reflexivity.
Qed.

(** ** [_analyze_file] *)

Lemma excel_suffix_supported self p :
  Str.member (Str.lower (PathObj.suffix p)) (supported_extensions self) = excel_suffix p.
Proof. apply member_supported. Qed.

Lemma member_two_inv x a b : Str.member x [a; b] = true -> x = a \/ x = b.
Proof.
  rewrite member_two. intros [H|H]%orb_true_iff; apply String.eqb_eq in H; auto.
Qed.

Lemma lower_idem s : Str.lower (Str.lower s) = Str.lower s.
Proof.
  induction s as [|c s IH]; cbn; [reflexivity|]. f_equal; [|exact IH].
  clear. unfold Str.char_lower, Py.ord, Py.chr.
  destruct c as [[] [] [] [] [] [] [] []]; vm_compute; reflexivity.
Qed.

(** The outcome of [_analyze_file], case by case. *)
Lemma analyze_file_cases fs self p log :
  (hidden p || temporary p || negb (excel_suffix p) = true
   /\ _analyze_file fs self p log = (Py.Ok None, log))
  \/ (hidden p = false /\ temporary p = false /\ excel_suffix p = true
      /\ ((exists e,
             (FileSystem.stat fs p = Py.Raise e
              \/ exists st, FileSystem.stat fs p = Py.Ok st
                            /\ FileSystem.fromtimestamp fs (Stat.st_mtime st) = Py.Raise e)
             /\ _analyze_file fs self p log
                = (Py.Ok None,
                   (log ++ [(Logging.WARNING,
                             "Erro ao analisar arquivo " +:+ PathObj.text p +:+ ": "
                             +:+ Py.exn_str e)])%list))
          \/ (exists st mt,
                FileSystem.stat fs p = Py.Ok st
                /\ FileSystem.fromtimestamp fs (Stat.st_mtime st) = Py.Ok mt
                /\ _analyze_file fs self p log
                   = (Py.Ok (Some (SpreadsheetInfo.Mk (PathObj.name p) (PathObj.text p)
                                     (Stat.st_size st) mt (Str.lower (PathObj.suffix p))
                                     true None)),
                      (log ++ [(Logging.DEBUG,
                                "Arquivo analisado: " +:+ PathObj.name p +:+ " ("
                                +:+ Py.str_of_int (Stat.st_size st) +:+ " bytes)")])%list)))).
Proof.
  unfold _analyze_file, Logging.try_except, hidden, temporary.
  rewrite excel_suffix_supported.
  destruct (Str.startswith "." (PathObj.name p)); [left; auto|].
  destruct (Str.startswith "~" (PathObj.name p) || Str.endswith "~" (PathObj.stem p));
    [left; auto|].
  destruct (excel_suffix p); [|left; auto].
  right. do 3 (split; [reflexivity|]).
  unfold Logging.bind, Logging.lift, Logging.emit, Logging.ret. cbn [negb].
  destruct (FileSystem.stat fs p) as [st|e].
  2:{ left. exists e. split; [left; reflexivity|reflexivity]. }
  destruct (FileSystem.fromtimestamp fs (Stat.st_mtime st)) as [mt|e] eqn:Hmt.
  2:{ left. exists e. split; [right; exists st; split; [reflexivity|exact Hmt]|reflexivity]. }
  right. exists st, mt. split; [reflexivity|]. split; [exact Hmt|reflexivity].
Qed.


(** X15: [_analyze_file] never raises and logs at most one record; it
    returns a record exactly for a path whose name is neither hidden nor
    temporary, whose suffix is an Excel suffix, and whose [stat()] and
    modification time can be read. *)
Theorem analyze_file_never_raises fs self p log :
  exists o recs,
    _analyze_file fs self p log = (Py.Ok o, (log ++ recs)%list)
    /\ (length recs <= 1)%nat
    /\ (o <> None <->
        hidden p = false /\ temporary p = false /\ excel_suffix p = true
        /\ exists st mt,
             FileSystem.stat fs p = Py.Ok st
             /\ FileSystem.fromtimestamp fs (Stat.st_mtime st) = Py.Ok mt).
Proof.
  destruct (analyze_file_cases fs self p log)
    as [[Hskip ->] | (Hh & Ht & Hx & [(e & Hfail & ->) | (st & mt & Hst & Hmt & ->)])].
  - exists None, []. rewrite app_nil_r. split; [reflexivity|]. split; [cbn; lia|].
    split; [congruence|]. intros (Hh & Ht & Hx & _). rewrite Hh, Ht, Hx in Hskip. discriminate.
  - eexists None, [_]. split; [reflexivity|]. split; [cbn; lia|].
    split; [congruence|]. intros (_ & _ & _ & st & mt & Hst & Hmt).
    destruct Hfail as [Hfail | (st' & Hst' & Hfail)]; congruence.
  - eexists (Some _), [_]. split; [reflexivity|]. split; [cbn; lia|].
    split; [|discriminate]. intros _. do 3 (split; [assumption|]). eauto.
Qed.

(** X16: a hidden file, a temporary file and a file with another suffix
    are skipped without a trace: [None] is returned and nothing is
    logged. *)
Theorem skipped_without_record fs self p log :
  hidden p || temporary p || negb (excel_suffix p) = true ->
  _analyze_file fs self p log = (Py.Ok None, log).
Proof.
  intros H.
  destruct (analyze_file_cases fs self p log) as [[_ Hrun] | (Hh & Ht & Hx & _)];
    [exact Hrun|].
  rewrite Hh, Ht, Hx in H. discriminate.
Qed.

(** X17: when [stat()] raises on a file that passes the name tests, the
    exception is swallowed: [None] is returned and one warning that
    carries the path and the text of the exception is logged. *)
Theorem stat_failure_swallowed fs self p log e :
  hidden p = false -> temporary p = false -> excel_suffix p = true ->
  FileSystem.stat fs p = Py.Raise e ->
  _analyze_file fs self p log
  = (Py.Ok None,
     (log ++ [(Logging.WARNING,
               "Erro ao analisar arquivo " +:+ PathObj.text p +:+ ": " +:+ Py.exn_str e)])%list).
Proof.
  intros Hh Ht Hx He.
  destruct (analyze_file_cases fs self p log)
    as [[Hskip _] | (_ & _ & _ & [(e' & Hfail & Hrun) | (st & mt & Hst & _)])].
  - rewrite Hh, Ht, Hx in Hskip. discriminate.
  - destruct Hfail as [Hfail | (st & Hst & _)]; [|congruence].
    rewrite Hrun. congruence.
  - congruence.
Qed.

Lemma analyzed_file_facts fs self p log info log' :
  _analyze_file fs self p log = (Py.Ok (Some info), log') ->
  SpreadsheetInfo.path info = PathObj.text p
  /\ SpreadsheetInfo.is_valid info = true
  /\ (SpreadsheetInfo.extension info = ".xlsx" \/ SpreadsheetInfo.extension info = ".xls")
  /\ is_excel info = true.
Proof.
  intros H.
  destruct (analyze_file_cases fs self p log)
    as [[_ Hrun] | (Hh & Ht & Hx & [(e & _ & Hrun) | (st & mt & Hst & Hmt & Hrun)])];
    rewrite Hrun in H; try discriminate.
  injection H as <- <-. cbn.
  repeat split.
  - exact (member_two_inv _ _ _ Hx).
  - unfold is_excel. cbn. rewrite lower_idem. exact Hx.
Qed.

(** X18: a record returned by [_analyze_file] carries the name and the path
    of the file and the size read by [stat()]; its extension is the
    suffix in lower case, and is [.xlsx] or [.xls]; it is marked valid, is
    an Excel record, and has no error message; the name is neither hidden
    nor temporary; one debug record was logged. *)
Theorem analyzed_file_record fs self p log info log' :
  _analyze_file fs self p log = (Py.Ok (Some info), log') ->
  SpreadsheetInfo.name info = PathObj.name p
  /\ SpreadsheetInfo.path info = PathObj.text p
  /\ (exists st,
        FileSystem.stat fs p = Py.Ok st
        /\ SpreadsheetInfo.size info = Stat.st_size st
        /\ FileSystem.fromtimestamp fs (Stat.st_mtime st)
           = Py.Ok (SpreadsheetInfo.modified_date info))
  /\ SpreadsheetInfo.extension info = Str.lower (PathObj.suffix p)
  /\ (SpreadsheetInfo.extension info = ".xlsx" \/ SpreadsheetInfo.extension info = ".xls")
  /\ SpreadsheetInfo.is_valid info = true
  /\ is_excel info = true
  /\ SpreadsheetInfo.error_message info = None
  /\ hidden p = false /\ temporary p = false
  /\ log' = (log ++ [(Logging.DEBUG,
                      "Arquivo analisado: " +:+ SpreadsheetInfo.name info +:+ " ("
                      +:+ Py.str_of_int (SpreadsheetInfo.size info) +:+ " bytes)")])%list.
Proof.
  intros H.
  destruct (analyze_file_cases fs self p log)
    as [[_ Hrun] | (Hh & Ht & Hx & [(e & _ & Hrun) | (st & mt & Hst & Hmt & Hrun)])];
    rewrite Hrun in H; try discriminate.
  injection H as <- <-. cbn.
  repeat split; try assumption; try reflexivity.
  - exists st. auto.
  - exact (member_two_inv _ _ _ Hx).
  - unfold is_excel. cbn. rewrite lower_idem. exact Hx.
Qed.


(** ** [filter_spreadsheets] *)

Lemma filter_loop self files : forall acc log,
  exists recs,
    Logging.for_each (filter_step self) files acc log
    = (Py.Ok (acc ++ List.filter excel_suffix files)%list, (log ++ recs)%list)
    /\ length recs = length files
    /\ Forall (fun r => fst r = Logging.DEBUG) recs.
Proof.
  induction files as [|p files IH]; intros acc log; cbn [Logging.for_each List.filter].
  - exists []. rewrite !app_nil_r. repeat split. constructor.
  - unfold Logging.bind, filter_step at 1. rewrite excel_suffix_supported.
    destruct (excel_suffix p); cbn [Logging.bind Logging.emit Logging.ret].
    + unfold Logging.bind, Logging.emit, Logging.ret.
      destruct (IH (acc ++ [p])%list
                  (log ++ [(Logging.DEBUG, "Arquivo de planilha encontrado: " +:+ PathObj.name p)])%list)
        as (recs & -> & Hlen & Hall).
      eexists (_ :: recs). rewrite <- !app_assoc. cbn.
      split; [reflexivity|]. split; [now rewrite Hlen|]. constructor; [reflexivity|exact Hall].
    + unfold Logging.bind, Logging.emit, Logging.ret.
      match goal with |- context [Logging.for_each _ _ _ (log ++ [?r])%list] =>
        destruct (IH acc (log ++ [r])%list) as (recs & -> & Hlen & Hall) end.
      eexists (_ :: recs). rewrite <- !app_assoc. cbn.
      split; [reflexivity|]. split; [now rewrite Hlen|]. constructor; [reflexivity|exact Hall].
Qed.

(** X19: [filter_spreadsheets] never raises; it returns, in their order,
    the paths whose suffix in lower case is [.xlsx] or [.xls] (hidden and
    temporary names included), and logs one debug record per path. *)
Theorem filter_keeps_excel_suffixes self files log :
  exists recs,
    filter_spreadsheets self files log
    = (Py.Ok (List.filter excel_suffix files), (log ++ recs)%list)
    /\ length recs = length files
    /\ Forall (fun r => fst r = Logging.DEBUG) recs.
Proof. exact (filter_loop self files [] log). Qed.

(** ** [scan_with_pattern] and [get_all_spreadsheets] *)

Lemma found_inv fs self p info :
  found fs self p = Some info ->
  SpreadsheetInfo.path info = PathObj.text p
  /\ SpreadsheetInfo.is_valid info = true
  /\ (SpreadsheetInfo.extension info = ".xlsx" \/ SpreadsheetInfo.extension info = ".xls")
  /\ is_excel info = true.
Proof.
  unfold found. intros H.
  destruct (analyze_file_run fs self p []) as (o & recs & Hrun & _ & _).
  rewrite Hrun in H. cbn in H. subst o.
  destruct (analyzed_file_facts fs self p [] info _ Hrun) as (? & ? & ? & ?). auto.
Qed.


(** X20: [scan_with_pattern] first logs the pattern. When [glob.glob]
    raises, its exception leaves [scan_with_pattern] as it is; otherwise
    the call returns, in the order of the glob, the records that
    [_analyze_file] gives for the paths matched, so only valid Excel
    records whatever the pattern. *)
Theorem scan_with_pattern_records fs self pattern log :
  match FileSystem.glob fs (subordinadas_path self) pattern with
  | Py.Ok paths =>
      exists recs,
        scan_with_pattern fs self pattern log
        = (Py.Ok (omap (found fs self) paths),
           (log ++ (Logging.INFO, "Escaneando com padr" +:+ Str.a_tilde +:+ "o: " +:+ pattern)
                   :: recs)%list)
        /\ Forall (fun info => is_excel info = true /\ SpreadsheetInfo.is_valid info = true)
             (omap (found fs self) paths)
  | Py.Raise e =>
      scan_with_pattern fs self pattern log
      = (Py.Raise e,
         (log ++ [(Logging.INFO, "Escaneando com padr" +:+ Str.a_tilde +:+ "o: " +:+ pattern)])%list)
  end.
Proof.
  unfold scan_with_pattern, Logging.bind, Logging.emit, Logging.lift.
  destruct (FileSystem.glob fs (subordinadas_path self) pattern) as [paths|e]; [|reflexivity].
  match goal with |- context [Logging.for_each _ _ _ ?l] =>
    destruct (pattern_loop fs self paths l) as (recs & ->) end.
  exists recs. rewrite <- app_assoc. split; [reflexivity|].
  apply Forall_forall. intros info Hin. apply list_elem_of_omap in Hin.
  destruct Hin as (p & _ & Hp). apply found_inv in Hp. tauto.
Qed.

(** The loop that drops the records whose path was seen. *)
Lemma unique_loop l : forall done u seen,
  first_of_each_path done u ->
  (forall x, x ∈ seen <-> In x (map SpreadsheetInfo.path u)) ->
  (forall x, In x (map SpreadsheetInfo.path u) -> In x (map SpreadsheetInfo.path done)) ->
  first_of_each_path (done ++ l) (fst (fold_left unique_step l (u, seen))).
Proof.
  induction l as [|x l IH]; intros done u seen Hfirst Hseen Hsub; cbn [fold_left].
  - now rewrite app_nil_r.
  - replace (done ++ x :: l)%list with ((done ++ [x]) ++ l)%list by now rewrite <- app_assoc.
    destruct Hfirst as (Hnd & Hsl & Hcov & Hfst).
    assert (Hstep : unique_step (u, seen) x
                    = if decide (SpreadsheetInfo.path x ∈ seen) then (u, seen)
                      else ((u ++ [x])%list, {[SpreadsheetInfo.path x]} ∪ seen)) by reflexivity.
    rewrite Hstep. clear Hstep.
    destruct (decide (SpreadsheetInfo.path x ∈ seen)) as [Hin | Hnin].
    + apply IH; [|exact Hseen|].
      * split; [exact Hnd|]. split; [now apply sublist_inserts_r|]. split.
        -- intros y Hy. rewrite map_app in Hy. apply in_app_or in Hy as [Hy | [Hy | []]].
           ++ now apply Hcov.
           ++ cbn in Hy. subst y. now apply Hseen.
        -- intros i Hi. destruct (Hfst i Hi) as (b & a & -> & Hb).
           exists b, (a ++ [x])%list. split; [now rewrite <- app_assoc|exact Hb].
      * intros y Hy. rewrite map_app. apply in_or_app. left. now apply Hsub.
    + apply IH.
      * split.
        { rewrite map_app. apply NoDup_app. split; [exact Hnd|]. split.
          - intros y Hy [Hx|[]]%list_elem_of_In. subst y. apply Hnin, Hseen. now apply list_elem_of_In.
          - cbn. apply NoDup_singleton. }
        split; [apply sublist_app; [exact Hsl|reflexivity]|]. split.
        -- intros y Hy. rewrite map_app in *. apply in_or_app.
           apply in_app_or in Hy as [Hy | Hy]; [left; now apply Hcov|now right].
        -- intros i Hi. apply in_app_or in Hi as [Hi | [<- | []]].
           ++ destruct (Hfst i Hi) as (b & a & -> & Hb).
              exists b, (a ++ [x])%list. split; [now rewrite <- app_assoc|exact Hb].
           ++ exists done, []. split; [reflexivity|].
              intros Hd. apply Hnin, Hseen.
              (* the paths of [done] are those of [u] *)
              now apply Hcov.
      * intros y. rewrite map_app, elem_of_union, elem_of_singleton. cbn.
        rewrite in_app_iff, Hseen. cbn. intuition.
      * intros y Hy. rewrite map_app in *. apply in_or_app.
        apply in_app_or in Hy as [Hy | Hy]; [left; now apply Hsub|now right].
Qed.

Lemma unique_all all :
  first_of_each_path all (fst (fold_left unique_step all ([], ∅))).
Proof.
  apply (unique_loop all [] [] ∅).
  - split; [constructor|]. split; [constructor|]. split; [auto|]. intros i [].
  - intros x. cbn. split; [intros H; now apply not_elem_of_empty in H|intros []].
  - auto.
Qed.

(** The scans of [get_all_spreadsheets], one per extension. *)
Lemma scans_run fs self exts : forall acc log,
  exists recs,
    match
      Logging.for_each
        (fun all_spreadsheets ext =>
           spreadsheets <~ scan_with_pattern fs self ("*" +:+ ext) ;;
           Logging.ret (all_spreadsheets ++ spreadsheets)%list)
        exts acc log
    with
    | (Py.Ok all, log') =>
        all = (acc ++ flat_map (fun ext => omap (found fs self) (matched fs self ("*" +:+ ext)))
                        exts)%list
        /\ log' = (log ++ recs)%list
        /\ (forall ext, In ext exts ->
              exists paths,
                FileSystem.glob fs (subordinadas_path self) ("*" +:+ ext) = Py.Ok paths)
    | (Py.Raise e, log') =>
        log' = (log ++ recs)%list
        /\ exists ext,
             In ext exts
             /\ FileSystem.glob fs (subordinadas_path self) ("*" +:+ ext) = Py.Raise e
    end.
Proof.
  induction exts as [|ext exts IH]; intros acc log; cbn [Logging.for_each flat_map].
  - exists []. unfold Logging.ret. rewrite !app_nil_r. repeat split. intros ? [].
  - unfold Logging.bind at 1. unfold Logging.bind at 1.
    destruct (scan_with_pattern_run fs self ("*" +:+ ext) log) as (recs & ->).
    unfold matched at 1.
    destruct (FileSystem.glob fs (subordinadas_path self) ("*" +:+ ext)) as [paths|e] eqn:Hg.
    + unfold Logging.ret at 1.
      destruct (IH (acc ++ omap (found fs self) paths)%list (log ++ recs)%list) as (recs' & H).
      exists (recs ++ recs')%list. rewrite !app_assoc.
      destruct (Logging.for_each _ exts _ _) as [[all|e] log'].
      * destruct H as (-> & -> & Hall). repeat split. intros x [<- | Hx]; eauto.
      * destruct H as (-> & ext' & Hin & He). split; [reflexivity|].
        exists ext'. split; [now right|exact He].
    + exists recs. split; [reflexivity|]. exists ext. split; [now left|exact Hg].
Qed.

Lemma supported_either self ext :
  In ext (supported_extensions self) <-> In ext [".xlsx"; ".xls"].
Proof. unfold supported_extensions. destruct (xlsx_first self); cbn; tauto. Qed.

Lemma get_all_spreadsheets_run fs self log :
  exists recs,
    (globs_return fs self
     /\ get_all_spreadsheets fs self log
        = (Py.Ok (fst (fold_left unique_step (all_found fs self) ([], ∅))), (log ++ recs)%list))
    \/ exists e,
         glob_fails fs self e
         /\ get_all_spreadsheets fs self log = (Py.Raise e, (log ++ recs)%list).
Proof.
  destruct (scans_run fs self (supported_extensions self) [] log) as (recs & H).
  destruct (get_all_spreadsheets fs self log) as [r l] eqn:Hrun.
  unfold get_all_spreadsheets in Hrun. unfold Logging.bind at 1 in Hrun.
  destruct (Logging.for_each _ (supported_extensions self) _ _) as [[all|e] log'].
  - destruct H as (-> & -> & Hall). cbn [app] in Hrun. fold (all_found fs self) in Hrun.
    destruct (fold_left unique_step (all_found fs self) ([], ∅)) as [u seen] eqn:Hu.
    unfold Logging.bind, Logging.emit, Logging.ret in Hrun. cbn [fst].
    injection Hrun as <- <-.
    eexists (recs ++ [_])%list. left. rewrite app_assoc. split; [|reflexivity].
    intros ext Hext. apply Hall. apply (proj2 (supported_either self ext)). exact Hext.
  - destruct H as (-> & ext & Hin & He). injection Hrun as <- <-.
    exists recs. right. exists e. split; [|reflexivity].
    exists ext. split; [apply (proj1 (supported_either self ext)); exact Hin|exact He].
Qed.

Lemma globs_return_or_fail fs self e : globs_return fs self -> glob_fails fs self e -> False.
Proof. intros Hret (ext & Hin & He). destruct (Hret ext Hin) as (paths & Hp). congruence. Qed.

Lemma in_all_found fs self info :
  In info (all_found fs self) <-> exists p, globbed fs self p /\ found fs self p = Some info.
Proof.
  unfold all_found, globbed.
  change "*.xlsx" with ("*" +:+ ".xlsx"). change "*.xls" with ("*" +:+ ".xls").
  rewrite in_flat_map. split.
  - intros (ext & Hext & Hin). apply list_elem_of_In, list_elem_of_omap in Hin.
    destruct Hin as (p & Hp & Hf). apply list_elem_of_In in Hp. exists p. split; [|exact Hf].
    apply supported_either in Hext. destruct Hext as [<- | [<- | []]]; auto.
  - intros (p & Hg & Hf).
    assert (Hom : forall pattern,
               In p (matched fs self pattern) ->
               In info (omap (found fs self) (matched fs self pattern))).
    { intros pattern Hp. apply list_elem_of_In, list_elem_of_omap. exists p.
      split; [now apply list_elem_of_In|exact Hf]. }
    destruct Hg as [Hg | Hg].
    + exists ".xlsx". split; [apply supported_either; cbn; auto|]. now apply Hom.
    + exists ".xls". split; [apply supported_either; cbn; auto|]. now apply Hom.
Qed.

(** X21: [get_all_spreadsheets] returns exactly when [glob.glob] returns
    for both patterns [*.xlsx] and [*.xls]; an exception of [glob.glob]
    leaves it as it is. No two of the records returned have the same
    path; each is the record that [_analyze_file] gives for a path
    matched by one of the patterns; and the path of every such record is
    among them, whichever extension is scanned first. *)
Theorem all_spreadsheets_unique fs self log :
  match fst (get_all_spreadsheets fs self log) with
  | Py.Ok infos =>
      globs_return fs self
      /\ NoDup (map SpreadsheetInfo.path infos)
      /\ (forall info, In info infos ->
            exists p, globbed fs self p /\ found fs self p = Some info)
      /\ (forall p info, globbed fs self p -> found fs self p = Some info ->
            In (PathObj.text p) (map SpreadsheetInfo.path infos))
  | Py.Raise e => glob_fails fs self e
  end
  /\ (globs_return fs self -> exists infos, fst (get_all_spreadsheets fs self log) = Py.Ok infos).
Proof.
  destruct (get_all_spreadsheets_run fs self log) as (recs & [[Hret ->] | (e & He & ->)]);
    cbn [fst].
  - split; [|eauto]. split; [exact Hret|].
    destruct (unique_all (all_found fs self)) as (Hnd & Hsl & Hcov & _).
    split; [exact Hnd|]. split.
    + intros info Hin. apply in_all_found.
      apply list_elem_of_In. eapply elem_of_sublist; [|exact Hsl]. now apply list_elem_of_In.
    + intros p info Hg Hf. apply Hcov.
      destruct (found_inv _ _ _ _ Hf) as (<- & _).
      apply in_map. apply in_all_found. eauto.
  - split; [exact He|]. intros Hret. destruct (globs_return_or_fail _ _ _ Hret He).
Qed.

(** X22: of several records with one path, [get_all_spreadsheets] keeps
    the first: when [glob.glob] returns for both patterns the call
    returns, and what it returns is always, in the order of the scans,
    the first record for each path among the records of the scans, one
    scan per extension in the iteration order of the set. *)
Theorem first_record_of_each_path fs self log :
  (globs_return fs self ->
   exists infos,
     fst (get_all_spreadsheets fs self log) = Py.Ok infos
     /\ first_of_each_path (all_found fs self) infos)
  /\ (forall infos,
        fst (get_all_spreadsheets fs self log) = Py.Ok infos ->
        first_of_each_path (all_found fs self) infos).
Proof.
  destruct (get_all_spreadsheets_run fs self log) as (recs & [[Hret ->] | (e & He & ->)]);
    cbn [fst]; split.
  - intros _. eexists. split; [reflexivity|]. apply unique_all.
  - intros infos [= <-]. apply unique_all.
  - intros Hret. destruct (globs_return_or_fail _ _ _ Hret He).
  - discriminate.
Qed.

(** ** [get_statistics] *)

Lemma filter_split {A : Type} (f g : A -> bool) (l : list A) :
  Forall (fun x => (f x = true /\ g x = false) \/ (f x = false /\ g x = true)) l ->
  Py.len l = Py.len (List.filter f l) + Py.len (List.filter g l).
Proof.
  unfold Py.len. induction 1 as [|x l [[Hf Hg] | [Hf Hg]] _ IH]; cbn [List.filter length].
  - reflexivity.
  - rewrite Hf, Hg. cbn [length]. lia.
  - rewrite Hf, Hg. cbn [length]. lia.
Qed.

Lemma filter_all {A : Type} (f : A -> bool) (l : list A) :
  Forall (fun x => f x = true) l -> List.filter f l = l.
Proof.
  induction 1 as [|x l Hf _ IH]; cbn [List.filter]; [reflexivity|]. now rewrite Hf, IH.
Qed.

(** X23: [get_statistics] returns exactly when [glob.glob] returns for
    both patterns; an exception of [glob.glob] leaves it as it is. In the
    dictionary returned, the [.xlsx] and the [.xls] counts add up to the
    total, and every file is counted as valid: the scan does not
    validate. *)
Theorem statistics_add_up fs self log :
  match fst (get_statistics fs self log) with
  | Py.Ok stats =>
      globs_return fs self
      /\ Py.dict_keys stats
         = ["total_files"; "xlsx_files"; "xls_files"; "total_size"; "valid_files"]
      /\ stat_of stats "total_files"
         = stat_of stats "xlsx_files" + stat_of stats "xls_files"
      /\ stat_of stats "valid_files" = stat_of stats "total_files"
  | Py.Raise e => glob_fails fs self e
  end
  /\ (globs_return fs self -> exists stats, fst (get_statistics fs self log) = Py.Ok stats).
Proof.
  destruct (get_statistics fs self log) as [r l] eqn:Hrun.
  unfold get_statistics, Logging.bind in Hrun.
  destruct (get_all_spreadsheets_run fs self log) as (recs & [[Hret Hall] | (e & He & Hall)]);
    rewrite Hall in Hrun; unfold Logging.ret in Hrun; injection Hrun as <- <-; cbn [fst].
  2:{ split; [exact He|]. intros Hret. destruct (globs_return_or_fail _ _ _ Hret He). }
  clear Hall. set (infos := fst (fold_left unique_step (all_found fs self) ([], ∅))).
  assert (Hall : Forall (fun info =>
                   SpreadsheetInfo.is_valid info = true
                   /\ (SpreadsheetInfo.extension info = ".xlsx"
                       \/ SpreadsheetInfo.extension info = ".xls")) infos).
  { apply Forall_forall. intros info Hin.
    destruct (unique_all (all_found fs self)) as (_ & Hsl & _).
    eapply elem_of_sublist in Hin; [|exact Hsl].
    apply list_elem_of_In, in_all_found in Hin as (p & _ & Hf).
    apply found_inv in Hf. tauto. }
  split; [|eauto].
  split; [exact Hret|]. split; [reflexivity|].
  unfold stat_of. cbn. split.
  - apply filter_split. eapply Forall_impl; [exact Hall|].
    intros info (_ & [-> | ->]); [left | right]; split; reflexivity.
  - f_equal. apply filter_all. eapply Forall_impl; [exact Hall|].
    intros info [Hv _]. exact Hv.
Qed.

(** ** [scan_folder] *)

Lemma omap_step {A B : Type} (f : A -> option B) (x : A) (l : list A) :
  omap f (x :: l) = match f x with Some y => y :: omap f l | None => omap f l end.
Proof. reflexivity. Qed.

Lemma scan_step_run fs self acc item log :
  match item with
  | Py.Raise e => scan_step fs self acc item log = (Py.Raise e, log)
  | Py.Ok p =>
      match FileSystem.is_file fs p with
      | Py.Raise e => scan_step fs self acc item log = (Py.Raise e, log)
      | Py.Ok false => scan_step fs self acc item log = (Py.Ok acc, log)
      | Py.Ok true =>
          exists recs,
            scan_step fs self acc item log = (Py.Ok (keep fs self acc p), (log ++ recs)%list)
      end
  end.
Proof.
  unfold scan_step, Logging.bind, Logging.lift.
  destruct item as [p|e]; [|reflexivity].
  destruct (FileSystem.is_file fs p) as [[|]|e]; try reflexivity.
  destruct (analyze_file_found fs self p log) as (recs & ->).
  exists recs. unfold keep. now destruct (found fs self p).
Qed.

(** The loop of [scan_folder]: it ends with the records of the regular
    files when every step of the listing and every [is_file()] goes
    through, and with the first exception otherwise. *)
Lemma scan_loop fs self items : forall acc log,
  exists log',
    (exists paths,
       items = map Py.Ok paths
       /\ Forall (fun p => exists b, FileSystem.is_file fs p = Py.Ok b) paths
       /\ Logging.for_each (scan_step fs self) items acc log
          = (Py.Ok (acc ++ omap (found fs self) (List.filter (regular fs) paths))%list, log'))
    \/ (exists e,
          (In (Py.Raise e) items
           \/ exists p, In (Py.Ok p) items /\ FileSystem.is_file fs p = Py.Raise e)
          /\ Logging.for_each (scan_step fs self) items acc log = (Py.Raise e, log')).
Proof.
  induction items as [|item items IH]; intros acc log; cbn [Logging.for_each].
  - exists log. left. exists []. cbn. rewrite app_nil_r. repeat split. constructor.
  - unfold Logging.bind. pose proof (scan_step_run fs self acc item log) as Hstep.
    destruct item as [p|e].
    2:{ rewrite Hstep. exists log. right. exists e. split; [left; now left|reflexivity]. }
    destruct (FileSystem.is_file fs p) as [[|]|e] eqn:Hfile.
    + destruct Hstep as (recs & ->).
      destruct (IH (keep fs self acc p) (log ++ recs)%list)
        as (log' & [(paths & -> & Hall & ->) | (e & Hwhere & ->)]); exists log'.
      * left. exists (p :: paths). split; [reflexivity|]. split; [constructor; eauto|].
        assert (Hreg : regular fs p = true) by (unfold regular; now rewrite Hfile).
        cbn [List.filter]. rewrite Hreg, omap_step. unfold keep.
        destruct (found fs self p); [now rewrite <- app_assoc|reflexivity].
      * right. exists e. split; [|reflexivity].
        destruct Hwhere as [H | (q & H & Hq)]; [left; now right|right; exists q; split; [now right|exact Hq]].
    + rewrite Hstep.
      destruct (IH acc log)
        as (log' & [(paths & -> & Hall & ->) | (e & Hwhere & ->)]); exists log'.
      * left. exists (p :: paths). split; [reflexivity|]. split; [constructor; eauto|].
        assert (Hreg : regular fs p = false) by (unfold regular; now rewrite Hfile).
        cbn [List.filter]. now rewrite Hreg.
      * right. exists e. split; [|reflexivity].
        destruct Hwhere as [H | (q & H & Hq)]; [left; now right|right; exists q; split; [now right|exact Hq]].
    + rewrite Hstep. exists log. right. exists e. split; [|reflexivity].
      right. exists p. split; [now left|exact Hfile].
Qed.


(** The outcome of [scan_folder], case by case. *)
Lemma scan_folder_cases fs self folder_path log :
  let folder := target self folder_path in
  exists log',
    (exists e, FileSystem.exists_ fs folder = Py.Raise e
               /\ scan_folder fs self folder_path log = (Py.Raise e, log'))
    \/ (FileSystem.exists_ fs folder = Py.Ok false
        /\ scan_folder fs self folder_path log = (Py.Raise (not_found folder), log'))
    \/ (FileSystem.exists_ fs folder = Py.Ok true
        /\ ((exists e, FileSystem.is_dir fs folder = Py.Raise e
                       /\ scan_folder fs self folder_path log = (Py.Raise e, log'))
            \/ (FileSystem.is_dir fs folder = Py.Ok false
                /\ scan_folder fs self folder_path log = (Py.Raise (not_a_folder folder), log'))
            \/ (FileSystem.is_dir fs folder = Py.Ok true
                /\ ((exists paths,
                       lists fs folder paths
                       /\ scan_folder fs self folder_path log
                          = (Py.Ok (omap (found fs self) (List.filter (regular fs) paths)), log'))
                    \/ (exists cause,
                          met fs folder cause
                          /\ scan_folder fs self folder_path log
                             = (Py.Raise (scan_failure cause), log')))))).
Proof.
  intros folder.
  cbv [scan_folder Logging.bind Logging.emit Logging.lift Logging.raise Logging.try_except
       Logging.ret].
  fold (target self folder_path). fold folder.
  destruct (FileSystem.exists_ fs folder) as [[|]|e].
  3:{ eexists. left. exists e. split; reflexivity. }
  2:{ eexists. right. left. split; reflexivity. }
  cbn [negb].
  destruct (FileSystem.is_dir fs folder) as [[|]|e].
  3:{ eexists. right. right. split; [reflexivity|]. left. exists e. split; reflexivity. }
  2:{ eexists. right. right. split; [reflexivity|]. right. left. split; reflexivity. }
  cbn [negb].
  match goal with |- context [Logging.for_each _ _ [] ?l] =>
    destruct (scan_loop fs self (FileSystem.rglob fs folder) [] l)
      as (log' & [(paths & Hl & Hall & Hrun) | (cause & Hmet & Hrun)]) end.
  - rewrite Hl in *. rewrite Hrun. cbn [app].
    eexists. right. right. split; [reflexivity|]. right. right. split; [reflexivity|].
    left. exists paths. split; [split; assumption|reflexivity].
  - rewrite Hrun.
    exists log'. right. right. split; [reflexivity|]. right. right. split; [reflexivity|].
    right. exists cause. split; [exact Hmet|].
    unfold scan_failure. destruct (String.eqb (Py.exn_cls cause) "PermissionError"); reflexivity.
Qed.

(** X24: when [scan_folder] returns, the folder exists and is a directory,
    every step of the recursive listing and every [is_file()] went
    through, and the list holds, in the order of the listing, the records
    [_analyze_file] gives for the regular files. *)
Theorem scan_folder_records fs self folder_path log infos log' :
  scan_folder fs self folder_path log = (Py.Ok infos, log') ->
  FileSystem.exists_ fs (target self folder_path) = Py.Ok true
  /\ FileSystem.is_dir fs (target self folder_path) = Py.Ok true
  /\ exists paths,
       lists fs (target self folder_path) paths
       /\ infos = omap (found fs self) (List.filter (regular fs) paths).
Proof.
  intros H.
  destruct (scan_folder_cases fs self folder_path log)
    as (l & [(e & _ & Hrun) | [(_ & Hrun) | (Hex & [(e & _ & Hrun) | [(_ & Hrun)
        | (Hdir & [(paths & Hl & Hrun) | (cause & _ & Hrun)])]])]]);
    rewrite Hrun in H; try discriminate.
  injection H as <- <-. eauto.
Qed.

(** X25: an exception that leaves [scan_folder] is a [FileException],
    unless [exists()] or [is_dir()] raised on the folder: their exception
    passes unwrapped. A missing folder and a path that is not a folder
    have their own message; a failure met during the scan is wrapped with
    its text, as a permission failure when it is a [PermissionError]. *)
Theorem scan_folder_failures fs self folder_path log e log' :
  scan_folder fs self folder_path log = (Py.Raise e, log') ->
  let folder := target self folder_path in
  FileSystem.exists_ fs folder = Py.Raise e
  \/ FileSystem.is_dir fs folder = Py.Raise e
  \/ (Py.exn_cls e = "FileException"
      /\ ((FileSystem.exists_ fs folder = Py.Ok false /\ e = not_found folder)
          \/ (FileSystem.is_dir fs folder = Py.Ok false /\ e = not_a_folder folder)
          \/ exists cause, met fs folder cause /\ e = scan_failure cause)).
Proof.
  intros H folder.
  destruct (scan_folder_cases fs self folder_path log)
    as (l & [(e' & He & Hrun) | [(Hex & Hrun) | (Hex & [(e' & He & Hrun) | [(Hdir & Hrun)
        | (Hdir & [(paths & Hl & Hrun) | (cause & Hmet & Hrun)])]])]]);
    fold folder in Hrun; rewrite Hrun in H; try discriminate; injection H as <- <-.
  - left. exact He.
  - right. right. split; [reflexivity|]. left. split; [exact Hex|reflexivity].
  - right. left. exact He.
  - right. right. split; [reflexivity|]. right. left. split; [exact Hdir|reflexivity].
  - right. right. split; [reflexivity|]. right. right. exists cause. split; [exact Hmet|reflexivity].
Qed.

(** X26: [scan_folder] returns whenever the folder exists and is a
    directory and the listing and the [is_file()] calls go through:
    a file whose [stat()] fails is left out, it does not fail the scan. *)
Theorem scan_folder_returns fs self folder_path log paths :
  FileSystem.exists_ fs (target self folder_path) = Py.Ok true ->
  FileSystem.is_dir fs (target self folder_path) = Py.Ok true ->
  lists fs (target self folder_path) paths ->
  fst (scan_folder fs self folder_path log)
  = Py.Ok (omap (found fs self) (List.filter (regular fs) paths)).
Proof.
  intros Hex Hdir [Hl Hall].
  destruct (scan_folder_cases fs self folder_path log)
    as (l & [(e' & He & Hrun) | [(Hex' & Hrun) | (_ & [(e' & He & Hrun) | [(Hdir' & Hrun)
        | (_ & [(paths' & [Hl' _] & Hrun) | (cause & Hmet & Hrun)])]])]]);
    try congruence.
  - rewrite Hrun. cbn. rewrite Hl in Hl'.
    assert (paths = paths') as <-; [|reflexivity].
    clear -Hl'. revert paths' Hl'.
    induction paths as [|p paths IH]; intros [|q paths'] H; try discriminate; [reflexivity|].
    cbn in H. injection H as <- H. f_equal. now apply IH.
  - exfalso. destruct Hmet as [Hin | (p & Hin & Hp)]; rewrite Hl in Hin.
    + apply in_map_iff in Hin as (p & Hp & _). discriminate.
    + apply in_map_iff in Hin as (q & Hq & Hin). injection Hq as ->.
      apply list_elem_of_In in Hin.
      rewrite Forall_forall in Hall. destruct (Hall p Hin) as (b & Hb). congruence.
Qed.

End Scanner.

Section ScannerExamples.

Import SpreadsheetScanner ScanTerms.

Lemma skipped_without_record_witness :
  _analyze_file Folders.disk Folders.scanner Folders.aberto [] = (Py.Ok None, []).
Proof.
  apply (skipped_without_record Folders.disk Folders.scanner Folders.aberto []).
  vm_compute. reflexivity.
Defined.

Lemma stat_failure_swallowed_witness :
  _analyze_file Folders.disk Folders.scanner Folders.trancado []
  = (Py.Ok None,
     [(Logging.WARNING,
       "Erro ao analisar arquivo SUBORDINADAS/trancado.xlsx: [Errno 13] Permission denied")]).
Proof.
  apply (stat_failure_swallowed Folders.disk Folders.scanner Folders.trancado [] Folders.denied);
    vm_compute; reflexivity.
Defined.

Lemma analyzed_file_record_witness :
  SpreadsheetInfo.extension Folders.custos_info = ".xls"
  /\ is_excel Folders.custos_info = true
  /\ SpreadsheetInfo.is_valid Folders.custos_info = true.
Proof.
  destruct (analyzed_file_record Folders.disk Folders.scanner Folders.custos []
              Folders.custos_info
              [(Logging.DEBUG, "Arquivo analisado: Custos.XLS (512 bytes)")])
    as (_ & _ & _ & Hext & _ & Hvalid & Hexcel & _).
  - vm_compute. reflexivity.
  - split; [|split]; [|exact Hexcel|exact Hvalid].
    rewrite Hext. vm_compute. reflexivity.
Defined.

Lemma scan_folder_records_witness :
  exists paths,
    lists Folders.disk Folders.root paths
    /\ [Folders.vendas_info; Folders.custos_info]
       = omap (found Folders.disk Folders.scanner) (List.filter (regular Folders.disk) paths).
Proof.
  destruct (scan_folder_records Folders.disk Folders.scanner None []
              [Folders.vendas_info; Folders.custos_info]
              (snd (scan_folder Folders.disk Folders.scanner None [])))
    as (_ & _ & H).
  - vm_compute. reflexivity.
  - exact H.
Defined.

Lemma scan_folder_failures_witness :
  Py.exn_cls (scan_failure Folders.denied) = "FileException"
  /\ exists cause,
       met Folders.interrupted Folders.root cause
       /\ scan_failure Folders.denied = scan_failure cause.
Proof.
  destruct (scan_folder_failures Folders.interrupted Folders.scanner (Some Folders.root) []
              (scan_failure Folders.denied)
              (snd (scan_folder Folders.interrupted Folders.scanner (Some Folders.root) [])))
    as [H | [H | (Hcls & [[H _] | [[H _] | H]])]]; try discriminate H.
  - vm_compute. reflexivity.
  - split; [exact Hcls|exact H].
Defined.

Lemma scan_folder_returns_witness :
  fst (scan_folder Folders.disk Folders.scanner None [])
  = Py.Ok (omap (found Folders.disk Folders.scanner)
             (List.filter (regular Folders.disk) Folders.listing)).
Proof.
  apply (scan_folder_returns Folders.disk Folders.scanner None [] Folders.listing).
  - reflexivity.
  - reflexivity.
  - split; [reflexivity|]. repeat constructor; eexists; reflexivity.
Defined.

Lemma all_spreadsheets_unique_witness :
  exists infos, fst (get_all_spreadsheets Folders.disk Folders.scanner []) = Py.Ok infos.
Proof.
  apply (proj2 (all_spreadsheets_unique Folders.disk Folders.scanner [])).
  intros ext [<- | [<- | []]]; eexists; reflexivity.
Defined.

Lemma first_record_of_each_path_witness :
  exists infos,
    fst (get_all_spreadsheets Folders.disk Folders.scanner []) = Py.Ok infos
    /\ first_of_each_path (all_found Folders.disk Folders.scanner) infos.
Proof.
  apply (proj1 (first_record_of_each_path Folders.disk Folders.scanner [])).
  intros ext [<- | [<- | []]]; eexists; reflexivity.
Defined.

Lemma statistics_add_up_witness :
  exists stats, fst (get_statistics Folders.disk Folders.scanner []) = Py.Ok stats.
Proof.
  apply (proj2 (statistics_add_up Folders.disk Folders.scanner [])).
  intros ext [<- | [<- | []]]; eexists; reflexivity.
Defined.

(** The exception of [glob.glob] passes through [scan_with_pattern],
    [get_all_spreadsheets] and [get_statistics] as it is. *)
Example null_byte_passes_unwrapped :
  fst (scan_with_pattern Folders.unsearchable Folders.scanner "*.xlsx" [])
  = Py.Raise Folders.null_byte
  /\ fst (get_all_spreadsheets Folders.unsearchable Folders.scanner [])
     = Py.Raise Folders.null_byte
  /\ fst (get_statistics Folders.unsearchable Folders.scanner [])
     = Py.Raise Folders.null_byte.
Proof. repeat split; vm_compute; reflexivity. Qed.

(** The scan of the sample folder: the capital suffix of [Custos.XLS] is
    accepted by the recursive scan; the glob patterns do not match it. *)
Example folder_scan :
  fst (scan_folder Folders.disk Folders.scanner None [])
  = Py.Ok [Folders.vendas_info; Folders.custos_info]
  /\ fst (get_all_spreadsheets Folders.disk Folders.scanner [])
     = Py.Ok [Folders.vendas_info]
  /\ fst (get_statistics Folders.disk Folders.scanner [])
     = Py.Ok [("total_files", 1); ("xlsx_files", 1); ("xls_files", 0);
              ("total_size", 2048); ("valid_files", 1)].
Proof. repeat split; vm_compute; reflexivity. Qed.

(** A listing that fails is reported as a permission failure, with the
    cause chained. *)
Example interrupted_scan :
  fst (scan_folder Folders.interrupted Folders.scanner None [])
  = Py.Raise
      (Py.ExcDuring "FileException"
         ("Sem permiss" +:+ Str.a_tilde
          +:+ "o para acessar a pasta: [Errno 13] Permission denied")
         Folders.denied).
Proof. vm_compute. reflexivity. Qed.

(** [filter_spreadsheets] keeps the hidden and the temporary files that
    [_analyze_file] skips. *)
Example filter_keeps_hidden :
  fst (filter_spreadsheets Folders.scanner Folders.listing [])
  = Py.Ok [Folders.vendas; Folders.custos; Folders.oculto; Folders.aberto; Folders.copia;
           Folders.trancado]
  /\ omap (found Folders.disk Folders.scanner) Folders.listing
     = [Folders.vendas_info; Folders.custos_info].
Proof. split; vm_compute; reflexivity. Qed.

End ScannerExamples.
